(** * Shannon's Bedrock bridge: message transcoding, the conversation
      driver, the streaming reassembler and the cost estimate.

    A shallow embedding of [src/ai/bedrock-provider.js] and of the streaming
    part of [src/ai/bedrock-client.js].  JavaScript values are modelled by a
    JSON-like tree; property access on [undefined] / [null], [for-of] over a
    non-iterable and a rejected [send] are the only sources of exceptions in
    the modelled code and are carried by an error monad. *)

From Stdlib Require Import ZArith List String Ascii Bool Lia.
From Stdlib Require Import QArith Qabs Qround Qpower Qreduction Lqa DecimalString.
Import ListNotations.
Open Scope string_scope.
Open Scope Z_scope.

(* ================================================================== *)
(** ** JavaScript values *)
(* ================================================================== *)

(** The values the modelled code handles: the finite trees JSON carries,
    and [undefined].  Numbers are the integer-valued ones (token counts,
    lengths, clock readings).  Strings are sequences of code units, one
    character of [string] for each: for a text whose code units are below
    256 the [length] is the one JavaScript gives; the few literals of the
    source beyond that range (the signs in its log lines) are carried as
    bytes and their length is never taken.  The property list of an object
    is kept in the order in which JavaScript enumerates its own keys, which
    is the order [JSON.stringify] and [Object.keys] follow; keys are
    distinct. *)
#[warnings="-register-all"]
Inductive value : Type :=
| VUndef
| VNull
| VBool (b : bool)
| VNum (n : Z)
| VStr (s : string)
| VArr (items : list value)
| VObj (fields : list (string * value)).

(** Errors are [Error] objects: a constructor name and a message. *)
Record error : Type := mkError { err_name : string; err_message : string }.

Inductive result (A : Type) : Type :=
| Ok (a : A)
| Throw (e : error).
Arguments Ok {A} a.
Arguments Throw {A} e.

Definition bind {A B : Type} (r : result A) (k : A -> result B) : result B :=
  match r with
  | Ok a => k a
  | Throw e => Throw e
  end.

Notation "x <- c ;; k" := (bind c (fun x => k))
  (at level 61, c at next level, right associativity).

(** [Array.prototype.map] with a callback that may throw: elements are
    visited left to right and the first exception aborts the call. *)
Fixpoint mapM {A B : Type} (f : A -> result B) (l : list A) : result (list B) :=
  match l with
  | [] => Ok []
  | a :: l' => b <- f a ;; bs <- mapM f l' ;; Ok (b :: bs)
  end.

Definition succeeds {A : Type} (r : result A) : bool :=
  match r with Ok _ => true | Throw _ => false end.

(** *** Conversions and operators *)

Definition string_of_Z (n : Z) : string := NilZero.string_of_int (Z.to_int n).

(** ToBoolean. *)
Definition truthy (v : value) : bool :=
  match v with
  | VUndef | VNull => false
  | VBool b => b
  | VNum n => negb (n =? 0)
  | VStr s => negb (s =? "")%string
  | VArr _ | VObj _ => true
  end.

(** [a || b]. *)
Definition or_else (a b : value) : value := if truthy a then a else b.

Definition nullish (v : value) : bool :=
  match v with VUndef | VNull => true | _ => false end.

(** [v === 'lit']. *)
Definition is_str (v : value) (lit : string) : bool :=
  match v with VStr s => (s =? lit)%string | _ => false end.

(** [typeof v === 'string']. *)
Definition typeof_string (v : value) : bool :=
  match v with VStr _ => true | _ => false end.

Fixpoint lookup (k : string) (fields : list (string * value)) : value :=
  match fields with
  | [] => VUndef
  | (k', v) :: rest => if (k' =? k)%string then v else lookup k rest
  end.

(** [v.k] for a [v] that is neither [undefined] nor [null].  The keys the
    program reads are identifiers ([type], [text], [content], [length], ...),
    none of them an array index or an inherited method. *)
Definition prop (v : value) (k : string) : value :=
  match v with
  | VObj fields => lookup k fields
  | VArr items => if (k =? "length")%string then VNum (Z.of_nat (List.length items)) else VUndef
  | VStr s => if (k =? "length")%string then VNum (Z.of_nat (String.length s)) else VUndef
  | _ => VUndef
  end.

Definition typeError_read (v : value) (k : string) : error :=
  mkError "TypeError"
    ("Cannot read properties of "
       ++ (match v with VNull => "null" | _ => "undefined" end)
       ++ " (reading '" ++ k ++ "')").

(** [v.k]: a TypeError on [undefined] and [null]. *)
Definition get (v : value) (k : string) : result value :=
  if nullish v then Throw (typeError_read v k) else Ok (prop v k).

(** [v?.k]. *)
Definition optget (v : value) (k : string) : value :=
  if nullish v then VUndef else prop v k.

(** The values a [for (const x of v)] loop visits: the elements of an array,
    the characters of a string; anything else is not iterable. *)
Fixpoint chars (s : string) : list value :=
  match s with
  | EmptyString => []
  | String c s' => VStr (String c EmptyString) :: chars s'
  end.

Definition iterate (v : value) : result (list value) :=
  match v with
  | VArr items => Ok items
  | VStr s => Ok (chars s)
  | _ => Throw (mkError "TypeError" "object is not iterable")
  end.

(** [Object.keys(v).length] for a truthy [v]. *)
Definition keys_length (v : value) : Z :=
  match v with
  | VObj fields => Z.of_nat (List.length fields)
  | VArr items => Z.of_nat (List.length items)
  | VStr s => Z.of_nat (String.length s)
  | _ => 0
  end.

(* ------------------------------------------------------------------ *)
(** *** JSON.stringify *)
(* ------------------------------------------------------------------ *)

Definition dquote : ascii := "034"%char.
Definition backslash : ascii := "\"%char.

Definition hex_digit (n : nat) : ascii :=
  nth n ["0"; "1"; "2"; "3"; "4"; "5"; "6"; "7"; "8"; "9";
         "a"; "b"; "c"; "d"; "e"; "f"]%char "0"%char.

(** One code unit of QuoteJSONString. *)
Definition escape_char (c : ascii) : string :=
  let n := nat_of_ascii c in
  if Nat.eqb n 34 then String backslash (String dquote EmptyString)
  else if Nat.eqb n 92 then String backslash (String backslash EmptyString)
  else if Nat.eqb n 8 then String backslash "b"
  else if Nat.eqb n 9 then String backslash "t"
  else if Nat.eqb n 10 then String backslash "n"
  else if Nat.eqb n 12 then String backslash "f"
  else if Nat.eqb n 13 then String backslash "r"
  else if Nat.ltb n 32 then
    String backslash
      ("u00" ++ String (hex_digit (Nat.div n 16))
                       (String (hex_digit (Nat.modulo n 16)) EmptyString))
  else String c EmptyString.

Fixpoint escape (s : string) : string :=
  match s with
  | EmptyString => EmptyString
  | String c s' => escape_char c ++ escape s'
  end.

Definition quote (s : string) : string :=
  String dquote (escape s ++ String dquote EmptyString).

Fixpoint join (sep : string) (parts : list string) : string :=
  match parts with
  | [] => ""
  | [p] => p
  | p :: rest => p ++ sep ++ join sep rest
  end.

(** SerializeJSONProperty: [None] stands for [undefined] (the value is left
    out of an object and written [null] in an array). *)
Fixpoint serialize (v : value) : option string :=
  match v with
  | VUndef => None
  | VNull => Some "null"
  | VBool true => Some "true"
  | VBool false => Some "false"
  | VNum n => Some (string_of_Z n)
  | VStr s => Some (quote s)
  | VArr items =>
      Some ("[" ++ join "," (map (fun x => match serialize x with
                                           | Some s => s
                                           | None => "null"
                                           end) items) ++ "]")
  | VObj fields =>
      Some ("{" ++ join ","
              ((fix members (fs : list (string * value)) : list string :=
                  match fs with
                  | [] => []
                  | (k, x) :: rest =>
                      match serialize x with
                      | Some s => (quote k ++ ":" ++ s) :: members rest
                      | None => members rest
                      end
                  end) fields) ++ "}")
  end.

(** [JSON.stringify(v)]: a string, or [undefined] for [undefined]. *)
Definition JSON_stringify (v : value) : value :=
  match serialize v with
  | Some s => VStr s
  | None => VUndef
  end.

(* ================================================================== *)
(** ** Message transcoder (bedrock-provider.js) *)
(* ================================================================== *)

(** The [image] payload built at two places of the source:
    [{ image: { format: b.source?.type || 'png',
                source: { bytes: b.source?.data || b.source?.bytes } } }]. *)
Definition imageToBedrock (b : value) : result value :=
  src <- get b "source" ;;
  Ok (VObj [("image",
             VObj [("format", or_else (optget src "type") (VStr "png"));
                   ("source",
                    VObj [("bytes", or_else (optget src "data") (optget src "bytes"))])])]).

Definition toolResultItem (c : value) : result value :=
  ty <- get c "type" ;;
  if is_str ty "text" then
    t <- get c "text" ;; Ok (VObj [("text", t)])
  else if is_str ty "image" then imageToBedrock c
  else Ok (VObj [("text", JSON_stringify c)]).

Definition transformToolResultToBedrock (toolResult : value) : result value :=
  id <- get toolResult "tool_use_id" ;;
  content <- get toolResult "content" ;;
  converted <-
    match content with
    | VArr items => items' <- mapM toolResultItem items ;; Ok (VArr items')
    | _ =>
        Ok (VArr [VObj [("text",
                         if typeof_string content then content
                         else JSON_stringify content)]])
    end ;;
  Ok (VObj [("toolUseId", id); ("content", converted)]).

(** The callback of [message.content.map] in [transformMessageToBedrock]. *)
Definition blockToBedrock (block : value) : result value :=
  ty <- get block "type" ;;
  if is_str ty "text" then
    t <- get block "text" ;; Ok (VObj [("text", t)])
  else if is_str ty "tool_use" then
    id <- get block "id" ;;
    name <- get block "name" ;;
    input <- get block "input" ;;
    Ok (VObj [("toolUse", VObj [("toolUseId", id); ("name", name); ("input", input)])])
  else if is_str ty "tool_result" then transformToolResultToBedrock block
  else if is_str ty "image" then imageToBedrock block
  else Ok (VObj [("text", JSON_stringify block)]).

Definition transformMessageToBedrock (message : value) : result value :=
  content <- get message "content" ;;
  role <- get message "role" ;;
  match content with
  | VStr _ => Ok (VObj [("role", role); ("content", VArr [VObj [("text", content)]])])
  | VArr blocks =>
      blocks' <- mapM blockToBedrock blocks ;;
      Ok (VObj [("role", role); ("content", VArr blocks')])
  | _ =>
      Ok (VObj [("role", role);
                ("content", VArr [VObj [("text", JSON_stringify content)]])])
  end.

(** The body of the [for (const block of bedrockMessage.content)] loop: the
    blocks pushed onto [content] for one wire block. *)
Definition blockFromBedrock (block : value) : result (list value) :=
  t <- get block "text" ;;
  tu <- get block "toolUse" ;;
  toolUse <-
    (if truthy tu then
       id <- get tu "toolUseId" ;;
       name <- get tu "name" ;;
       input <- get tu "input" ;;
       Ok [VObj [("type", VStr "tool_use"); ("id", id); ("name", name); ("input", input)]]
     else Ok []) ;;
  Ok ((if truthy t then [VObj [("type", VStr "text"); ("text", t)]] else [])
        ++ toolUse)%list.

(** [transformBedrockMessage(bedrockMessage, modelId)].  [now] is the
    reading [Date.now()] gives when the message carries no id. *)
Definition transformBedrockMessage (bedrockMessage modelId : value) (now : Z)
  : result value :=
  c <- get bedrockMessage "content" ;;
  content <-
    (if truthy c then
       blocks <- iterate c ;;
       pushed <- mapM blockFromBedrock blocks ;;
       Ok (List.concat pushed)
     else Ok []) ;;
  Ok (VObj
        [("type", VStr "assistant");
         ("message",
          VObj [("id", or_else (prop bedrockMessage "id")
                               (VStr ("bedrock-" ++ string_of_Z now)));
                ("type", VStr "message");
                ("role", VStr "assistant");
                ("content", VArr content);
                ("model", modelId);
                ("stop_reason", prop bedrockMessage "stopReason");
                ("usage",
                 VObj [("input_tokens",
                        or_else (optget (prop bedrockMessage "usage") "inputTokens") (VNum 0));
                       ("output_tokens",
                        or_else (optget (prop bedrockMessage "usage") "outputTokens") (VNum 0))])])]).

(* ================================================================== *)
(** ** Conversation driver (bedrock-provider.js, [bedrockQuery]) *)
(* ================================================================== *)

(** [getBedrockModelId(anthropicModel)], with [process.env.BEDROCK_MODEL_ID]
    as an argument. *)
Definition modelMap : list (string * string) :=
  [("claude-sonnet-4-5-20250929", "us.anthropic.claude-sonnet-4-20250514-v1:0");
   ("claude-3-5-sonnet-20241022", "us.anthropic.claude-3-5-sonnet-20241022-v2:0");
   ("claude-3-5-sonnet-20240620", "anthropic.claude-3-5-sonnet-20240620-v1:0");
   ("claude-3-sonnet-20240229", "anthropic.claude-3-sonnet-20240229-v1:0");
   ("claude-3-opus-20240229", "anthropic.claude-3-opus-20240229-v1:0");
   ("claude-3-haiku-20240307", "anthropic.claude-3-haiku-20240307-v1:0")].

Fixpoint assoc (k : string) (table : list (string * string)) : option string :=
  match table with
  | [] => None
  | (k', v) :: rest => if (k' =? k)%string then Some v else assoc k rest
  end.

(** The property names an object literal inherits from [Object.prototype]. *)
Definition inheritedKeys : list string :=
  ["constructor"; "__defineGetter__"; "__defineSetter__"; "hasOwnProperty";
   "__lookupGetter__"; "__lookupSetter__"; "isPrototypeOf"; "propertyIsEnumerable";
   "toString"; "valueOf"; "__proto__"; "toLocaleString"].

Definition inherited (k : string) : bool := existsb (String.eqb k) inheritedKeys.

(** A model name: a string that names no inherited property.  For such a
    name [modelMap[name]] is the table's own entry or [undefined].  For an
    inherited name it is a function, or the prototype itself, and
    [getBedrockModelId] returns that instead of a string; those twelve
    names are not model names, and no definition below covers them. *)
Record model_name : Type := mkModelName {
  name_text : string;
  name_own : inherited name_text = false
}.

Definition getBedrockModelId (env_BEDROCK_MODEL_ID : option string)
    (anthropicModel : option model_name) : string :=
  let mapped :=
    match anthropicModel with
    | Some m => match assoc (name_text m) modelMap with
                | Some id => id
                | None => "us.anthropic.claude-sonnet-4-20250514-v1:0"
                end
    | None => "us.anthropic.claude-sonnet-4-20250514-v1:0"
    end in
  match env_BEDROCK_MODEL_ID with
  | Some id => if (id =? "")%string then mapped else id
  | None => mapped
  end.

(** The [options] argument of [bedrockQuery]: the fields it reads.
    [maxTurns] is an integer or absent. *)
Record options : Type := mkOptions {
  model : option model_name;
  maxTurns : option Z;
  permissionMode : value;
  mcpServers : value
}.

(** An element of [conversationHistory]: [{ role, content }]. *)
Record entry : Type := mkEntry { role : string; content : value }.

Definition entry_value (m : entry) : value :=
  VObj [("role", VStr (role m)); ("content", content m)].

(** The [result] field of the final notification:
    [{ success: false, error }] or [{ success: true, content }]. *)
Inductive outcome : Type :=
| Failure (error_text : string)
| Success (content_text : string).

(** What [bedrockQuery] yields.
    - [Init]: [{ type: 'system', subtype: 'init', model, permissionMode, mcp_servers: [] }]
    - [UserEcho]: [{ type: 'user', message: { role: 'user', content: prompt } }]
    - [Assistant]: the object [transformBedrockMessage] returned
    - [Result]: [{ type: 'result', result, subtype, duration_ms, total_cost_usd,
                   permission_denials: [] }] *)
Inductive notification : Type :=
| Init (model_id : string) (permission_mode : value)
| UserEcho (prompt : string)
| Assistant (assistantMessage : value)
| Result (result : outcome) (subtype : string) (duration_ms : Z) (total_cost_usd : Q).

(** The observable effects of a run, in the order they happen. *)
Inductive event : Type :=
| Yield (n : notification)
| Send (turn : Z) (request : value)          (* bedrockClient.send(new ConverseCommand(request)) *)
| Log (line : string)                        (* console.log *)
| LogError (line : string).                  (* console.error *)

Definition to_number (v : value) : Z :=
  match v with VNum n => n | _ => 0 end.

(** *** Double-precision arithmetic

    JavaScript numbers are IEEE 754 doubles, and the result of an
    arithmetic operation is the double nearest to the exact result.  The
    doubles are rational numbers; [rnd] is the rounding of the platform,
    and every operation of the cost estimate below goes through it.
    [nearest rnd F] is what defines it (round to nearest, IEEE 754 section
    4.3.1): [F] is the set of representable numbers, [rnd x] is one of
    them, none of them is closer to [x], and zero is one of them.  How ties
    are broken is left to [rnd]; that it is a function of the number and
    not of the fraction that writes it is [rnd_proper].  The estimate never
    leaves the range of the finite doubles. *)
Record nearest (rnd : Q -> Q) (F : Q -> Prop) : Prop := mkNearest {
  rnd_proper : forall x y, (x == y)%Q -> (rnd x == rnd y)%Q;
  rnd_representable : forall x, F (rnd x);
  rnd_closest : forall x f, F f -> (Qabs (x - rnd x) <= Qabs (x - f))%Q;
  zero_representable : F 0%Q
}.

(** [msg.content?.length || 0].  The contents stored in the history are
    arrays or strings, whose [length] is a number. *)
Definition lengthOf (msg : entry) : Z :=
  to_number (or_else (optget (content msg) "length") (VNum 0)).

(** [conversationHistory.reduce((sum, msg) => sum + (msg.content?.length || 0) * 4, 0)]:
    a product and a sum of doubles at each step. *)
Definition totalTokens (rnd : Q -> Q) (conversationHistory : list entry) : Q :=
  fold_left
    (fun sum msg => rnd (sum + rnd (inject_Z (lengthOf msg) * 4))%Q)
    conversationHistory 0%Q.

(** [(totalTokens / 1000000) * 3.0]: a quotient and a product of doubles. *)
Definition estimatedCost (rnd : Q -> Q) (conversationHistory : list entry) : Q :=
  rnd (rnd (totalTokens rnd conversationHistory / 1000000) * 3)%Q.

(** *** Binary64

    The rounding of the doubles themselves, to run the definitions with:
    53 significant bits, ties to even, gradual underflow down to
    [2^-1074].  The exponent is not bounded above, so that nothing rounds
    to infinity: the estimate stays far below [2^1024]. *)
Definition pow2 (k : Z) : Q := (2 ^ k)%Q.

(** The integer nearest to [q], the even one of the two when [q] is half
    way. *)
Definition nearest_even (q : Q) : Z :=
  let fl := Qfloor q in
  match (q - inject_Z fl ?= 1 # 2)%Q with
  | Lt => fl
  | Gt => fl + 1
  | Eq => if Z.even fl then fl else fl + 1
  end.

(** The exponent [e] of a positive number [a]: [2^e <= a < 2^(e+1)]. *)
Definition ilog2 (a : Q) : Z :=
  let d := Z.log2 (Qnum a) - Z.log2 (Zpos (Qden a)) in
  if Qle_bool (pow2 d) a then d else d - 1.

(** The gap between the doubles around a positive number: 52 binary places
    below its exponent, and never below [2^-1074]. *)
Definition ulp (a : Q) : Q := pow2 (Z.max (ilog2 a) (-1022) - 52).

Definition round_pos (a : Q) : Q := (inject_Z (nearest_even (a / ulp a)) * ulp a)%Q.

(** The double nearest to [x]. *)
Definition to_double (x : Q) : Q :=
  let x := Qred x in
  match (0 ?= x)%Q with
  | Lt => round_pos x
  | Gt => (- round_pos (- x))%Q
  | Eq => 0%Q
  end.

(** The doubles: an integer of absolute value at most [2^53] times a power
    of two not below [2^-1074]. *)
Definition double (f : Q) : Prop :=
  exists m k : Z, Z.abs m <= 2 ^ 53 /\ -1074 <= k /\ (f == inject_Z m * pow2 k)%Q.

Definition tool_use_warning : string :=
  "    ⚠️  Tool use detected but MCP integration is limited in Bedrock mode".
Definition max_tokens_warning : string :=
  "    ⚠️  Hit max tokens in response".
Definition api_error_line (e : error) : string :=
  "    ❌ Bedrock API error: " ++ err_message e.

Section Driver.

(** The world of one run: the rounding of the arithmetic, the environment
    variable, the replies of the service ([send k request] is the outcome
    of the call made on turn [k]) and the clock ([Date_now n] is the
    [n]-th reading, from 0). *)
Variable rnd : Q -> Q.
Variable env_BEDROCK_MODEL_ID : option string.
Variable send : Z -> value -> result value.
Variable Date_now : nat -> Z.

Variable prompt : string.
Variable opts : options.

Definition modelId : string := getBedrockModelId env_BEDROCK_MODEL_ID (model opts).

(** [options.maxTurns || 100]. *)
Definition maxTurnsOf : Z :=
  match maxTurns opts with
  | Some n => if n =? 0 then 100 else n
  | None => 100
  end.

Definition startTime : Z := Date_now 0.

Definition request (conversationHistory : list entry) : value :=
  VObj ([("modelId", VStr modelId);
         ("messages", VArr (map entry_value conversationHistory));
         ("inferenceConfig", VObj [("maxTokens", VNum 4096); ("temperature", VNum 1)])]
          ++ (if truthy (mcpServers opts) && (0 <? keys_length (mcpServers opts))
              then [("toolConfig", VObj [("tools", VArr [])])]
              else []))%list.

(** The [try] block up to the first [yield]: the round trip and the
    decoding.  Returns the response, the assistant notification and the
    number of clock readings made so far. *)
Definition attempt (turnCount : Z) (conversationHistory : list entry) (reads : nat)
  : result (value * value * nat) :=
  response <- send turnCount (request conversationHistory) ;;
  output <- get response "output" ;;
  let bedrockMessage := optget output "message" in
  assistantMessage <- transformBedrockMessage bedrockMessage (VStr modelId) (Date_now reads) ;;
  Ok (response, assistantMessage,
      if truthy (prop bedrockMessage "id") then reads else S reads).

(** The code after the loop: the cost estimate and the final [yield]. *)
Definition finish (turnCount : Z) (conversationHistory : list entry) (reads : nat)
  : list event :=
  [Yield (Result (Success "Task completed via Bedrock")
                 (if turnCount >=? maxTurnsOf then "error_max_turns" else "success")
                 (Date_now reads - startTime)
                 (estimatedCost rnd conversationHistory))].

(** The [catch] block. *)
Definition failed (e : error) (reads : nat) : list event :=
  [LogError (api_error_line e);
   Yield (Result (Failure (err_message e)) "error_during_execution"
                 (Date_now reads - startTime) 0)].

(** The element pushed onto the history after a reply:
    [{ role: 'assistant', content: response.output?.message?.content || [] }]. *)
Definition assistantEntry (response : value) : entry :=
  mkEntry "assistant"
    (or_else (optget (optget (prop response "output") "message") "content") (VArr [])).

(** The two [console.log] tests that follow a reply which does not end
    the conversation. *)
Definition warnings (response : value) : list event :=
  ((if is_str (prop response "stopReason") "tool_use"
    then [Log tool_use_warning] else [])
     ++ (if is_str (prop response "stopReason") "max_tokens"
         then [Log max_tokens_warning] else []))%list.

(** [response.stopReason === 'end_turn' || response.stopReason === 'stop_sequence']. *)
Definition natural_stop (response : value) : bool :=
  is_str (prop response "stopReason") "end_turn"
  || is_str (prop response "stopReason") "stop_sequence".

(** [while (turnCount < maxTurns) { ... }] and what follows it, from a
    state of the loop variables: the events still to come.  [None] when
    [fuel] iterations do not reach the end. *)
Fixpoint loop (fuel : nat) (turnCount : Z) (conversationHistory : list entry)
    (reads : nat) : option (list event) :=
  if turnCount <? maxTurnsOf then
    match fuel with
    | O => None
    | S fuel' =>
        let turnCount := turnCount + 1 in
        option_map (cons (Send turnCount (request conversationHistory)))
          match attempt turnCount conversationHistory reads with
          | Throw e => Some (failed e reads)                           (* return *)
          | Ok (response, assistantMessage, reads) =>
              let conversationHistory :=
                (conversationHistory ++ [assistantEntry response])%list in
              option_map (cons (Yield (Assistant assistantMessage)))
                (if natural_stop response
                 then Some (finish turnCount conversationHistory reads)  (* break *)
                 else
                   option_map (app (warnings response))
                     (loop fuel' turnCount conversationHistory reads))
          end
    end
  else Some (finish turnCount conversationHistory reads).

(** The history after [conversationHistory.push({ role: 'user', content: [{ text: prompt }] })]. *)
Definition initialHistory : list entry :=
  [mkEntry "user" (VArr [VObj [("text", VStr prompt)]])].

(** [bedrockQuery({ prompt, options })], pulled to its end. *)
Definition bedrockQuery : option (list event) :=
  option_map
    (app [Yield (Init modelId (or_else (permissionMode opts) (VStr "default")));
          Yield (UserEcho prompt)])
    (loop (Z.to_nat maxTurnsOf) 0 initialHistory 1%nat).

End Driver.

Fixpoint notifications (trace : list event) : list notification :=
  match trace with
  | [] => []
  | Yield n :: rest => n :: notifications rest
  | _ :: rest => notifications rest
  end.

Fixpoint requests (trace : list event) : list value :=
  match trace with
  | [] => []
  | Send _ r :: rest => r :: requests rest
  | _ :: rest => requests rest
  end.

Fixpoint diagnostics (trace : list event) : list string :=
  match trace with
  | [] => []
  | Log l :: rest => l :: diagnostics rest
  | _ :: rest => diagnostics rest
  end.

Definition is_result (n : notification) : bool :=
  match n with Result _ _ _ _ => true | _ => false end.

(** A reply the driver can decode: a value with properties whose
    [output?.message] goes through [transformBedrockMessage]. *)
Definition well_formed (response : value) : bool :=
  negb (nullish response)
  && succeeds (transformBedrockMessage (optget (prop response "output") "message") VUndef 0).

(* ================================================================== *)
(** ** Streaming reassembler (bedrock-client.js, [handleStreamingResponse]) *)
(* ================================================================== *)

(** What the asynchronous iterator [response.body] delivers, one item per
    step of [for await (const event of response.body)]. *)
Inductive frame : Type :=
| NoChunk                      (* an event whose [chunk] is absent *)
| Chunk (parsed : value)       (* [JSON.parse(new TextDecoder().decode(event.chunk.bytes))] *)
| BadChunk (e : error)         (* the same expression throws *)
| BodyError (e : error).       (* the iterator itself rejects *)

(** How the [ReadableStream] ends: [controller.close()] or [controller.error(e)]. *)
Inductive stream_end : Type :=
| Closed
| Errored (e : error).

(** The string a template literal puts for [${v}], for the values that
    reach one here. *)
Definition template (v : value) : string :=
  match v with
  | VStr s => s
  | VNum n => string_of_Z n
  | _ => "undefined"
  end.

Definition newline : string := String "010"%char EmptyString.

(** [`data: ${JSON.stringify(v)}\n\n`], the text handed to [controller.enqueue]. *)
Definition sse (v : value) : string :=
  "data: " ++ template (JSON_stringify v) ++ newline ++ newline.

(** The frame built for a [message_start] chunk. *)
Definition anthropicChunk (modelId : string) (now : Z) (chunk : value) : value :=
  VObj [("type", VStr "message_start");
        ("message",
         VObj [("id", or_else (optget (prop chunk "message") "id")
                              (VStr ("bedrock-" ++ string_of_Z now)));
               ("type", VStr "message");
               ("role", VStr "assistant");
               ("content", VArr []);
               ("model", VStr modelId);
               ("usage", or_else (optget (prop chunk "message") "usage")
                                 (VObj [("input_tokens", VNum 0);
                                        ("output_tokens", VNum 0)]))])].

(** The [if / else if] chain over [chunk.type]: the value enqueued for one
    chunk, if any. *)
Definition transformChunk (modelId : string) (now : Z) (chunk : value)
  : result (option value) :=
  ty <- get chunk "type" ;;
  if is_str ty "message_start" then Ok (Some (anthropicChunk modelId now chunk))
  else if is_str ty "content_block_start" then Ok (Some chunk)
  else if is_str ty "content_block_delta" then Ok (Some chunk)
  else if is_str ty "content_block_stop" then Ok (Some chunk)
  else if is_str ty "message_delta" then Ok (Some chunk)
  else if is_str ty "message_stop" then Ok (Some chunk)
  else Ok None.

Section Reassembler.

Variable modelId' : string.
Variable Date_now : nat -> Z.

(** The body of [start(controller)]: the texts enqueued, in order, and how
    the stream ends.  [reads] counts the clock readings made so far. *)
Fixpoint pump (reads : nat) (body : list frame) : list string * stream_end :=
  match body with
  | [] => ([], Closed)
  | NoChunk :: rest => pump reads rest
  | BadChunk e :: _ => ([], Errored e)
  | BodyError e :: _ => ([], Errored e)
  | Chunk chunk :: rest =>
      match transformChunk modelId' (Date_now reads) chunk with
      | Throw e => ([], Errored e)
      | Ok None => pump reads rest
      | Ok (Some out) =>
          let reads :=
            if is_str (prop chunk "type") "message_start"
               && negb (truthy (optget (prop chunk "message") "id"))
            then S reads else reads in
          let (queued, ending) := pump reads rest in
          (sse out :: queued, ending)
      end
  end.

Definition handleStreamingResponse (body : list frame) : list string * stream_end :=
  pump 0 body.

End Reassembler.

(* ================================================================== *)
(** ** The canonical content blocks *)
(* ================================================================== *)

(** The four block kinds of the agent-side schema (Text, ToolUse,
    ToolResult, Image of the data model), as objects with the fields the
    transcoder reads. *)
Definition Text (text : string) : value :=
  VObj [("type", VStr "text"); ("text", VStr text)].

Definition ToolUse (id name : string) (input : value) : value :=
  VObj [("type", VStr "tool_use"); ("id", VStr id); ("name", VStr name); ("input", input)].

Definition Image (format data : string) : value :=
  VObj [("type", VStr "image");
        ("source", VObj [("type", VStr format); ("data", VStr data)])].

Definition ToolResult (tool_use_id : string) (items : list value) : value :=
  VObj [("type", VStr "tool_result"); ("tool_use_id", VStr tool_use_id);
        ("content", VArr items)].

Definition Message (role : string) (blocks : list value) : value :=
  VObj [("role", VStr role); ("content", VArr blocks)].

(** The content of a tool result: Text or Image. *)
Inductive canonical_item : value -> Prop :=
| item_text : forall t, canonical_item (Text t)
| item_image : forall f d, canonical_item (Image f d).

Inductive canonical_block : value -> Prop :=
| block_text : forall t, canonical_block (Text t)
| block_tool_use : forall id name input, canonical_block (ToolUse id name input)
| block_tool_result : forall id items,
    Forall canonical_item items -> canonical_block (ToolResult id items)
| block_image : forall f d, canonical_block (Image f d).

(** The blocks that come back from a round trip: Text with a non-empty text,
    and ToolUse. *)
Definition survives (b : value) : bool :=
  (is_str (prop b "type") "text" && truthy (prop b "text"))
  || is_str (prop b "type") "tool_use".

(** [decode(encode(M))]. *)
Definition roundtrip (M modelId : value) (now : Z) : result value :=
  w <- transformMessageToBedrock M ;; transformBedrockMessage w modelId now.

(** The [content] of the message inside a decoded notification. *)
Definition decoded_content (d : value) : value := prop (prop d "message") "content".
Definition decoded_role (d : value) : value := prop (prop d "message") "role".

(** The kinds [transformMessageToBedrock] knows. *)
Definition recognized (b : value) : bool :=
  is_str (prop b "type") "text" || is_str (prop b "type") "tool_use"
  || is_str (prop b "type") "tool_result" || is_str (prop b "type") "image".

(** A structurally valid block: a value with properties, whose tool-result
    items, if it has any, are values with properties too. *)
Definition valid_block (b : value) : bool :=
  negb (nullish b)
  && (if is_str (prop b "type") "tool_result"
      then match prop b "content" with
           | VArr items => forallb (fun c => negb (nullish c)) items
           | _ => true
           end
      else true).

(** The blocks the decoder pushes for one wire block, written from its two
    tests: a Text block for a truthy [text], then a ToolUse block for a
    truthy [toolUse]; nothing otherwise. *)
Definition decoded_as (block : value) : list value :=
  match truthy (prop block "text"), truthy (prop block "toolUse") with
  | true, false => [VObj [("type", VStr "text"); ("text", prop block "text")]]
  | false, true =>
      [VObj [("type", VStr "tool_use");
             ("id", prop (prop block "toolUse") "toolUseId");
             ("name", prop (prop block "toolUse") "name");
             ("input", prop (prop block "toolUse") "input")]]
  | true, true =>
      [VObj [("type", VStr "text"); ("text", prop block "text")];
       VObj [("type", VStr "tool_use");
             ("id", prop (prop block "toolUse") "toolUseId");
             ("name", prop (prop block "toolUse") "name");
             ("input", prop (prop block "toolUse") "input")]]
  | false, false => []
  end.

(** A transcript whose messages hold arrays of blocks. *)
Definition transcript (msgs : list (string * list value)) : list entry :=
  map (fun m => mkEntry (fst m) (VArr (snd m))) msgs.

(** The number of blocks of each message times the multiplier 4, summed. *)
Definition blockTokens (msgs : list (string * list value)) : Z :=
  fold_right Z.add 0 (map (fun m => Z.of_nat (List.length (snd m)) * 4) msgs).

(* ------------------------------------------------------------------ *)
(** *** Concrete worlds for the scenarios *)
(* ------------------------------------------------------------------ *)

(** A reply of the service: one text block and a stop reason. *)
Definition reply (stop : string) : value :=
  VObj [("output",
         VObj [("message",
                VObj [("role", VStr "assistant");
                      ("content", VArr [VObj [("text", VStr "hi")]])])]);
        ("stopReason", VStr stop)].

Definition clock (n : nat) : Z := 1000 + Z.of_nat n.

Definition defaults : options := mkOptions None None VUndef VUndef.

Definition capped (n : Z) : options := mkOptions None (Some n) VUndef VUndef.

(** A block of a kind the encoder does not know. *)
Definition video : value := VObj [("type", VStr "video"); ("url", VStr "u")].

(** The service asks for a tool on the first turn and stops on the second. *)
Definition stops_on_second (k : Z) (_ : value) : result value :=
  if k =? 2 then Ok (reply "end_turn") else Ok (reply "tool_use").

(* ================================================================== *)
(** ** Provider selection and credentials (bedrock-provider.js) *)
(* ================================================================== *)

(** The variables of [process.env] the two modules read; [None] is a
    variable that is not set. *)
Record environment : Type := mkEnv {
  USE_BEDROCK : option string;
  BEDROCK_ENABLED : option string;
  BEDROCK_API_KEY : option string;
  AWS_ACCESS_KEY_ID : option string;
  AWS_SECRET_ACCESS_KEY : option string;
  AWS_SESSION_TOKEN : option string;
  AWS_REGION : option string;
  BEDROCK_MODEL_ID : option string;
  ANTHROPIC_API_KEY : option string;
  CLAUDE_CODE_OAUTH_TOKEN : option string
}.

(** ToBoolean of a variable: set, and not the empty string. *)
Definition is_set (v : option string) : bool :=
  match v with
  | Some s => negb (s =? "")%string
  | None => false
  end.

(** [v === 'lit'] for a variable. *)
Definition env_is (v : option string) (lit : string) : bool :=
  match v with
  | Some s => (s =? lit)%string
  | None => false
  end.

(** [v || dflt] for a variable. *)
Definition env_or (v : option string) (dflt : string) : string :=
  match v with
  | Some s => if (s =? "")%string then dflt else s
  | None => dflt
  end.

Definition explicitlyEnabled (env : environment) : bool :=
  env_is (USE_BEDROCK env) "true" || env_is (BEDROCK_ENABLED env) "true".

Definition hasBedrockApiKey (env : environment) : bool := is_set (BEDROCK_API_KEY env).

Definition hasAwsCredentials (env : environment) : bool :=
  is_set (AWS_ACCESS_KEY_ID env) && is_set (AWS_SECRET_ACCESS_KEY env).

Definition hasAnthropicCreds (env : environment) : bool :=
  is_set (ANTHROPIC_API_KEY env) || is_set (CLAUDE_CODE_OAUTH_TOKEN env).

(** [isBedrockEnabled()]. *)
Definition isBedrockEnabled (env : environment) : bool :=
  explicitlyEnabled env
  || (hasBedrockApiKey env && negb (hasAnthropicCreds env))
  || (hasAwsCredentials env && negb (hasAnthropicCreds env)).

(** The configuration handed to [new BedrockRuntimeClient({ region, credentials })];
    [sessionToken] is [None] when the property is absent or [undefined]. *)
Record clientConfig : Type := mkClientConfig {
  region : string;
  accessKeyId : string;
  secretAccessKey : string;
  sessionToken : option string
}.

Definition createBedrockClient_message : string :=
  "Bedrock authentication required. Set one of:" ++ newline
  ++ "  - BEDROCK_API_KEY (simple, recommended)" ++ newline
  ++ "  - AWS_ACCESS_KEY_ID + AWS_SECRET_ACCESS_KEY (traditional)".

(** [createBedrockClient()]. *)
Definition createBedrockClient (env : environment) : result clientConfig :=
  let region := env_or (AWS_REGION env) "us-east-1" in
  let bedrockApiKey := BEDROCK_API_KEY env in
  let accessKeyId := AWS_ACCESS_KEY_ID env in
  let secretAccessKey := AWS_SECRET_ACCESS_KEY env in
  let sessionToken := AWS_SESSION_TOKEN env in
  if is_set bedrockApiKey
  then Ok (mkClientConfig region (env_or bedrockApiKey "") (env_or bedrockApiKey "") None)
  else if is_set accessKeyId && is_set secretAccessKey
  then Ok (mkClientConfig region (env_or accessKeyId "") (env_or secretAccessKey "")
             (if is_set sessionToken then sessionToken else None))
  else Throw (mkError "Error" createBedrockClient_message).

Definition validateBedrockConfig_message : string :=
  "Bedrock authentication required. Set one of:" ++ newline
  ++ "  Option 1 (Recommended): BEDROCK_API_KEY=" ++ String dquote "your-bedrock-api-key"
  ++ String dquote newline
  ++ "  Option 2 (Traditional): AWS_ACCESS_KEY_ID + AWS_SECRET_ACCESS_KEY" ++ newline ++ newline
  ++ "To generate a Bedrock API key:" ++ newline
  ++ "  1. Go to AWS Console → IAM → Users" ++ newline
  ++ "  2. Select your user → Security credentials" ++ newline
  ++ "  3. Find " ++ String dquote "API keys for Amazon Bedrock" ++ String dquote " section"
  ++ newline
  ++ "  4. Click " ++ String dquote "Generate API Key" ++ String dquote "".

(** [validateBedrockConfig()] of bedrock-provider.js: the line it logs, or
    the error it throws. *)
Definition validateBedrockConfig (env : environment) : result string :=
  let region := env_or (AWS_REGION env) "us-east-1" in
  if is_set (BEDROCK_API_KEY env)
  then Ok ("✅ Bedrock configuration valid (API Key, Region: " ++ region ++ ")")
  else if is_set (AWS_ACCESS_KEY_ID env) && is_set (AWS_SECRET_ACCESS_KEY env)
  then Ok ("✅ Bedrock configuration valid (AWS Credentials, Region: " ++ region ++ ")")
  else Throw (mkError "Error" validateBedrockConfig_message).

(** [createBedrockQueryFunction()]: the client is created first, and the
    query function closes over it.  [network c] is the behaviour of
    [bedrockClient.send] for a client configured by [c]. *)
Definition createBedrockQueryFunction (rnd : Q -> Q) (env : environment)
    (network : clientConfig -> Z -> value -> result value) (Date_now : nat -> Z)
  : result (string -> options -> option (list event)) :=
  bedrockClient <- createBedrockClient env ;;
  Ok (fun prompt opts =>
        bedrockQuery rnd (BEDROCK_MODEL_ID env) (network bedrockClient) Date_now prompt opts).

(** [haystack.includes(needle)]. *)
Fixpoint includes (needle haystack : string) : bool :=
  prefix needle haystack
  || match haystack with
     | EmptyString => false
     | String _ rest => includes needle rest
     end.

(* ================================================================== *)
(** ** The fetch proxy (bedrock-client.js) *)
(* ================================================================== *)

Module Client.

(** [getBedrockModelId(anthropicModel)] of bedrock-client.js. *)
Definition modelMap : list (string * string) :=
  [("claude-sonnet-4-5-20250929", "anthropic.claude-3-5-sonnet-20241022-v2:0");
   ("claude-3-5-sonnet-20241022", "anthropic.claude-3-5-sonnet-20241022-v2:0");
   ("claude-3-5-sonnet-20240620", "anthropic.claude-3-5-sonnet-20240620-v1:0");
   ("claude-3-sonnet-20240229", "anthropic.claude-3-sonnet-20240229-v1:0");
   ("claude-3-opus-20240229", "anthropic.claude-3-opus-20240229-v1:0");
   ("claude-3-haiku-20240307", "anthropic.claude-3-haiku-20240307-v1:0");
   ("claude-sonnet-3-5-20241022", "anthropic.claude-3-5-sonnet-20241022-v2:0")].

Definition getBedrockModelId (anthropicModel : option model_name) : string :=
  match anthropicModel with
  | Some m => match assoc (name_text m) modelMap with
              | Some id => id
              | None => "anthropic.claude-3-5-sonnet-20241022-v2:0"
              end
  | None => "anthropic.claude-3-5-sonnet-20241022-v2:0"
  end.

(** [isBedrockConfigured()]. *)
Definition isBedrockConfigured (env : environment) : bool :=
  is_set (AWS_ACCESS_KEY_ID env) && is_set (AWS_SECRET_ACCESS_KEY env).

(** [validateBedrockConfig()] of bedrock-client.js: the warnings it prints,
    or the error it throws. *)
Definition validateBedrockConfig (env : environment) : result (list string) :=
  if negb (is_set (AWS_ACCESS_KEY_ID env))
  then Throw (mkError "Error"
                "AWS_ACCESS_KEY_ID environment variable is required for Bedrock integration")
  else if negb (is_set (AWS_SECRET_ACCESS_KEY env))
  then Throw (mkError "Error"
                "AWS_SECRET_ACCESS_KEY environment variable is required for Bedrock integration")
  else Ok (if negb (is_set (AWS_REGION env))
           then ["AWS_REGION not set, defaulting to us-east-1"]
           else []).

(** The [config] argument of [createBedrockAnthropicClient]: [None] is a
    property that is absent or [undefined], the case in which the default
    of the destructuring pattern is taken. *)
Record config : Type := mkConfig {
  cfg_region : option string;
  cfg_accessKeyId : option string;
  cfg_secretAccessKey : option string;
  cfg_sessionToken : option string;
  cfg_modelId : option string
}.

(** What the returned client closes over: the Bedrock client and the
    model id its [fetch] passes to [bedrockFetch]. *)
Record anthropicClient : Type := mkAnthropicClient {
  bedrockClient : clientConfig;
  clientModelId : string
}.

(** A destructured property with its default: the default is evaluated
    only when the property is [undefined]. *)
Definition with_default (given dflt : option string) : option string :=
  match given with
  | Some s => Some s
  | None => dflt
  end.

(** [createBedrockAnthropicClient(config)]. *)
Definition createBedrockAnthropicClient (env : environment) (c : config)
  : result anthropicClient :=
  let region := with_default (cfg_region c) (Some (env_or (AWS_REGION env) "us-east-1")) in
  let accessKeyId := with_default (cfg_accessKeyId c) (AWS_ACCESS_KEY_ID env) in
  let secretAccessKey := with_default (cfg_secretAccessKey c) (AWS_SECRET_ACCESS_KEY env) in
  let sessionToken := with_default (cfg_sessionToken c) (AWS_SESSION_TOKEN env) in
  let modelId :=
    with_default (cfg_modelId c)
      (Some (env_or (BEDROCK_MODEL_ID env) "anthropic.claude-3-5-sonnet-20241022-v2:0")) in
  if negb (is_set accessKeyId) || negb (is_set secretAccessKey)
  then Throw (mkError "Error"
                "AWS credentials are required. Set AWS_ACCESS_KEY_ID and AWS_SECRET_ACCESS_KEY environment variables.")
  else Ok (mkAnthropicClient
             (mkClientConfig (env_or region "") (env_or accessKeyId "")
                (env_or secretAccessKey "")
                (if is_set sessionToken then sessionToken else None))
             (env_or modelId "")).

(** The object [bedrockFetch] builds from the parsed request body, after
    the [forEach] that deletes the properties left [undefined]. *)
Definition bedrockRequest (requestBody : value) : value :=
  VObj (filter (fun kv => match snd kv with VUndef => false | _ => true end)
          [("anthropic_version",
            or_else (prop requestBody "anthropic_version") (VStr "bedrock-2023-05-31"));
           ("max_tokens", or_else (prop requestBody "max_tokens") (VNum 4096));
           ("messages", prop requestBody "messages");
           ("temperature", prop requestBody "temperature");
           ("top_p", prop requestBody "top_p");
           ("top_k", prop requestBody "top_k");
           ("stop_sequences", prop requestBody "stop_sequences");
           ("system", prop requestBody "system")]).

(** A [Response]: status, headers, and a body that is a text or a stream. *)
Inductive response_body : Type :=
| TextBody (text : string)
| StreamBody (queued : list string) (ending : stream_end).

Record response : Type := mkResponse {
  status : Z;
  headers : list (string * string);
  body : response_body
}.

(** The message [handleNonStreamingResponse] builds from the parsed reply. *)
Definition anthropicResponse (modelId : string) (now : Z) (responseBody : value) : value :=
  VObj [("id", or_else (prop responseBody "id") (VStr ("bedrock-" ++ string_of_Z now)));
        ("type", VStr "message");
        ("role", VStr "assistant");
        ("content", prop responseBody "content");
        ("model", VStr modelId);
        ("stop_reason", prop responseBody "stop_reason");
        ("stop_sequence", prop responseBody "stop_sequence");
        ("usage",
         VObj [("input_tokens",
                or_else (optget (prop responseBody "usage") "input_tokens") (VNum 0));
               ("output_tokens",
                or_else (optget (prop responseBody "usage") "output_tokens") (VNum 0))])].

Section Fetch.

(** The service, as the proxy sees it.  [invoke modelId body] is
    [JSON.parse(new TextDecoder().decode((await bedrockClient.send(command)).body))]
    for an [InvokeModelCommand] with that model and that body text: the
    parsed reply, or the error of the call or of the parsing.
    [invokeStream modelId body] is the outcome of the call for an
    [InvokeModelWithResponseStreamCommand]: the frames of [response.body],
    or the error of the call. *)
Variable invoke : string -> string -> result value.
Variable invokeStream : string -> string -> result (list frame).
Variable Date_now : nat -> Z.

(** [handleNonStreamingResponse(bedrockClient, modelId, bedrockRequest)]. *)
Definition handleNonStreamingResponse (modelId : string) (request : value)
  : result response :=
  responseBody <- invoke modelId (template (JSON_stringify request)) ;;
  _ <- get responseBody "id" ;;
  Ok (mkResponse 200 [("Content-Type", "application/json")]
        (TextBody (template (JSON_stringify
                               (anthropicResponse modelId (Date_now 0%nat) responseBody))))).

(** [handleStreamingResponse(bedrockClient, modelId, bedrockRequest)], with
    the call that opens the stream. *)
Definition handleStreamingRequest (modelId : string) (request : value)
  : result response :=
  frames <- invokeStream modelId (template (JSON_stringify request)) ;;
  let (queued, ending) := handleStreamingResponse modelId Date_now frames in
  Ok (mkResponse 200
        [("Content-Type", "text/event-stream"); ("Cache-Control", "no-cache");
         ("Connection", "keep-alive")]
        (StreamBody queued ending)).

(** The [catch] block of [bedrockFetch]. *)
Definition errorResponse (e : error) : response :=
  mkResponse 500 [("Content-Type", "application/json")]
    (TextBody (template (JSON_stringify
                           (VObj [("type", VStr "error");
                                  ("error", VObj [("type", VStr "api_error");
                                                  ("message", VStr (err_message e))])])))).

(** [bedrockFetch(bedrockClient, modelId, url, init)].  [parsed] is the
    outcome of [JSON.parse(init.body)]; the [console.error] line of the
    [catch] block is left out.  The two handlers are asynchronous
    and their promise is returned without [await]: an error inside them
    rejects the promise of [bedrockFetch] and does not reach its [catch]. *)
Definition bedrockFetch (modelId : string) (parsed : result value) : result response :=
  match (requestBody <- parsed ;;
         stream <- get requestBody "stream" ;;
         Ok (match stream with VBool true => true | _ => false end,
             bedrockRequest requestBody)) with
  | Throw e => Ok (errorResponse e)
  | Ok (true, request) => handleStreamingRequest modelId request
  | Ok (false, request) => handleNonStreamingResponse modelId request
  end.

End Fetch.

End Client.

(* ------------------------------------------------------------------ *)
(** *** Concrete environments and inputs for the properties below *)
(* ------------------------------------------------------------------ *)

Definition aws_only : environment :=
  mkEnv None None None (Some "AKIATEST123456") (Some "test-secret") None
        (Some "eu-west-1") None None None.

Definition flag_only : environment :=
  mkEnv (Some "true") None None None None None None None (Some "sk-ant") None.

(** Whether [transformBedrockMessage] returns normally, read off its
    accesses: the message has properties, and its content is falsy, a
    string, or an array whose elements all have properties. *)
Definition decodable (m : value) : bool :=
  negb (nullish m)
  && match prop m "content" with
     | VArr blocks => forallb (fun b => negb (nullish b)) blocks
     | VStr _ => true
     | c => negb (truthy c)
     end.

(** What the requests of a run owe to the transcript.  [carries send k h rs]:
    the requests [rs], sent from turn [k] on, carry the transcript [h] and
    what grows out of it.  The [messages] of the first request are the
    messages of [h], whole and in order; the next request carries that
    transcript with one assistant message appended, whose content is the
    content of the reply the first request got (the empty array when the
    reply has none); and so on. *)
Inductive carries (send : Z -> value -> result value)
  : Z -> list entry -> list value -> Prop :=
| carries_none : forall k h, carries send k h []
| carries_last : forall k h r,
    prop r "messages"
    = VArr (map (fun m => VObj [("role", VStr (role m)); ("content", content m)]) h) ->
    carries send k h [r]
| carries_next : forall k h r reply rest,
    prop r "messages"
    = VArr (map (fun m => VObj [("role", VStr (role m)); ("content", content m)]) h) ->
    send k r = Ok reply ->
    carries send (k + 1)
      (h ++ [mkEntry "assistant"
               (or_else (optget (optget (prop reply "output") "message") "content")
                        (VArr []))])%list
      rest ->
    carries send k h (r :: rest).

(** A reply with no [output] property. *)
Definition bare_reply : value := VObj [("stopReason", VStr "end_turn")].

(** A reply cut at the token limit. *)
Definition truncated_reply : value :=
  VObj [("output",
         VObj [("message",
                VObj [("role", VStr "assistant");
                      ("content", VArr [VObj [("text", VStr "partial")]])])]);
        ("stopReason", VStr "max_tokens")].

(** The five kinds of chunk the reassembler forwards as they are. *)
Definition forwarded (chunk : value) : bool :=
  is_str (prop chunk "type") "content_block_start"
  || is_str (prop chunk "type") "content_block_delta"
  || is_str (prop chunk "type") "content_block_stop"
  || is_str (prop chunk "type") "message_delta"
  || is_str (prop chunk "type") "message_stop".

(** The kinds of chunk for which something is enqueued. *)
Definition enqueued (f : frame) : bool :=
  match f with
  | Chunk chunk => is_str (prop chunk "type") "message_start" || forwarded chunk
  | _ => false
  end.

(** A frame that raises nothing: an event without chunk, or a chunk whose
    parsed value has properties. *)
Definition harmless (f : frame) : bool :=
  match f with
  | NoChunk => true
  | Chunk chunk => negb (nullish chunk)
  | BadChunk _ | BodyError _ => false
  end.

(** A text with no control character (no code unit below 0x20), hence
    with no line break. *)
Fixpoint printable (s : string) : bool :=
  match s with
  | EmptyString => true
  | String c rest => (32 <=? nat_of_ascii c)%nat && printable rest
  end.

(** *** The wire formats, written out *)

(** The server-sent event that carries a JSON text: the characters
    [data:], a space, the text, and two line feeds. *)
Definition data_line (json : string) : string :=
  "data: " ++ json ++ String "010"%char (String "010"%char "").

(** A name between double quotes. *)
Definition quoted (s : string) : string :=
  String "034"%char (s ++ String "034"%char "").

(** The JSON text of a [message_start] event with a zeroed usage, given
    the JSON texts of its id and of its model. *)
Definition message_start_text (id model : string) : string :=
  String.concat ""
    ["{"; quoted "type"; ":"; quoted "message_start"; ",";
     quoted "message"; ":{";
     quoted "id"; ":"; id; ",";
     quoted "type"; ":"; quoted "message"; ",";
     quoted "role"; ":"; quoted "assistant"; ",";
     quoted "content"; ":[],";
     quoted "model"; ":"; model; ",";
     quoted "usage"; ":{"; quoted "input_tokens"; ":0,"; quoted "output_tokens"; ":0}";
     "}}"].

(** The JSON text of the error body of the proxy, given the JSON text of
    the message. *)
Definition error_text (message : string) : string :=
  String.concat ""
    ["{"; quoted "type"; ":"; quoted "error"; ",";
     quoted "error"; ":{"; quoted "type"; ":"; quoted "api_error"; ",";
     quoted "message"; ":"; message; "}}"].

(** The event owed for a chunk of one of the six known types: the chunk
    itself for the five kinds that are forwarded; for [message_start], the
    envelope with the chunk's message id, or else [bedrock-] and a reading
    of the clock, the role [assistant], the model id of the reassembler,
    and the chunk's usage, or else a zeroed one. *)
Definition event_for (model_id : string) (Date_now : nat -> Z) (chunk v : value) : Prop :=
  if is_str (prop chunk "type") "message_start"
  then exists n : nat,
      v = VObj [("type", VStr "message_start");
                ("message",
                 VObj [("id", or_else (optget (prop chunk "message") "id")
                                      (VStr ("bedrock-" ++ string_of_Z (Date_now n))));
                       ("type", VStr "message");
                       ("role", VStr "assistant");
                       ("content", VArr []);
                       ("model", VStr model_id);
                       ("usage", or_else (optget (prop chunk "message") "usage")
                                         (VObj [("input_tokens", VNum 0);
                                                ("output_tokens", VNum 0)]))])]
  else v = chunk.

(** The properties [bedrockFetch] copies from the request body. *)
Definition forwardedKeys : list string :=
  ["anthropic_version"; "max_tokens"; "messages"; "temperature"; "top_p"; "top_k";
   "stop_sequences"; "system"].

(** A body as the Anthropic SDK posts it. *)
Definition sdk_body (stream : value) : value :=
  VObj [("model", VStr "claude-sonnet-4-5-20250929");
        ("max_tokens", VNum 1024);
        ("messages", VArr [VObj [("role", VStr "user"); ("content", VStr "hi")]]);
        ("stream", stream)].

(** A service that answers every call with one text block and no id. *)
Definition answers (_ _ : string) : result value :=
  Ok (VObj [("content", VArr [Text "hello"]); ("stop_reason", VStr "end_turn")]).

(** A service that fails every call. *)
Definition refuses {A : Type} (_ _ : string) : result A :=
  Throw (mkError "AccessDeniedException" "no access to the model").

(** A stream of five frames: a start, an event without chunk, a keep-alive
    chunk of a type the reassembler does not know, a delta and a stop. *)
Definition sample_stream : list frame :=
  [Chunk (VObj [("type", VStr "message_start");
                ("message", VObj [("id", VStr "msg_1")])]);
   NoChunk;
   Chunk (VObj [("type", VStr "ping")]);
   Chunk (VObj [("type", VStr "content_block_delta"); ("index", VNum 0);
                ("delta", VObj [("type", VStr "text_delta"); ("text", VStr "Hi")])]);
   Chunk (VObj [("type", VStr "message_stop")])].

Definition sample_deltas : list value :=
  [VObj [("type", VStr "content_block_start"); ("index", VNum 0)];
   VObj [("type", VStr "content_block_delta"); ("index", VNum 0);
         ("delta", VObj [("type", VStr "text_delta"); ("text", VStr "Hi")])];
   VObj [("type", VStr "content_block_stop"); ("index", VNum 0)]].

Definition throttled : error := mkError "ThrottlingException" "slow down".

Definition explicit_config : Client.config :=
  Client.mkConfig (Some "us-west-2") (Some "AKIAEXPLICIT") (Some "explicit-secret") None None.

(** The notification made of [reply] when the clock reads 1001. *)
Definition decoded_hi : value :=
  VObj [("type", VStr "assistant");
        ("message",
         VObj [("id", VStr "bedrock-1001"); ("type", VStr "message");
               ("role", VStr "assistant");
               ("content", VArr [Text "hi"]);
               ("model", VStr "us.anthropic.claude-sonnet-4-20250514-v1:0");
               ("stop_reason", VUndef);
               ("usage", VObj [("input_tokens", VNum 0); ("output_tokens", VNum 0)])])].

(* ================================================================== *)
(** ** Properties of the transcoder *)
(* ================================================================== *)

Lemma get_ok (v : value) (k : string) :
  nullish v = false -> get v k = Ok (prop v k).
Proof. intros H. unfold get. now rewrite H. Qed.

(** [mapM] returns normally as soon as the callback does on every element,
    and relates the two lists pointwise. *)
Lemma mapM_Forall2 {A B : Type} (f : A -> result B) (R : A -> B -> Prop) (l : list A) :
  Forall (fun a => exists b, f a = Ok b /\ R a b) l ->
  exists l', mapM f l = Ok l' /\ Forall2 R l l'.
Proof.
  induction 1 as [|a l [b [Hb HR]] _ [l' [Hl' HF]]].
  - exists []. split; [reflexivity | constructor].
  - exists (b :: l'). split.
    + simpl. rewrite Hb. simpl. rewrite Hl'. reflexivity.
    + now constructor.
Qed.

Lemma mapM_pointwise {A B C : Type} (g : B -> result C) (h : A -> C)
    (l : list A) (l' : list B) :
  Forall2 (fun a b => g b = Ok (h a)) l l' -> mapM g l' = Ok (map h l).
Proof.
  induction 1 as [|a b l l' Hab _ IH]; simpl.
  - reflexivity.
  - rewrite Hab. simpl. rewrite IH. reflexivity.
Qed.

Lemma imageToBedrock_total (b : value) :
  nullish b = false -> exists w, imageToBedrock b = Ok w.
Proof.
  intros H. unfold imageToBedrock. rewrite get_ok by exact H. simpl. eauto.
Qed.

Lemma toolResultItem_total (c : value) :
  nullish c = false -> exists w, toolResultItem c = Ok w.
Proof.
  intros H. unfold toolResultItem. rewrite get_ok by exact H. simpl.
  destruct (is_str (prop c "type") "text").
  - rewrite get_ok by exact H. simpl. eauto.
  - destruct (is_str (prop c "type") "image"); [now apply imageToBedrock_total | eauto].
Qed.

Lemma mapM_ok {A B : Type} (f : A -> result B) (l : list A) :
  Forall (fun a => exists b, f a = Ok b) l -> exists l', mapM f l = Ok l'.
Proof.
  induction 1 as [|a l [b Hb] _ [l' Hl']]; simpl.
  - eauto.
  - rewrite Hb. simpl. rewrite Hl'. simpl. eauto.
Qed.

(** One canonical block through the encoder and back through the decoder:
    it comes back alone, or not at all. *)
Lemma block_there_and_back (b : value) :
  canonical_block b ->
  exists w, blockToBedrock b = Ok w
            /\ blockFromBedrock w = Ok (if survives b then [b] else []).
Proof.
  intros [t | id name input | id items Hitems | f d].
  - exists (VObj [("text", VStr t)]). split; [reflexivity|].
    unfold survives, blockFromBedrock, Text. simpl.
    destruct (negb (t =? "")%string); reflexivity.
  - eexists. split; reflexivity.
  - destruct (mapM_ok toolResultItem items) as [items' H].
    { eapply Forall_impl; [|exact Hitems]. intros c Hc.
      apply toolResultItem_total. now destruct Hc. }
    exists (VObj [("toolUseId", VStr id); ("content", VArr items')]). split.
    + unfold blockToBedrock, transformToolResultToBedrock, ToolResult. simpl.
      rewrite H. reflexivity.
    + reflexivity.
  - eexists. split; reflexivity.
Qed.

Lemma concat_survivors (blocks : list value) :
  List.concat (map (fun b => if survives b then [b] else []) blocks)
  = filter survives blocks.
Proof.
  induction blocks as [|b blocks IH]; simpl; [reflexivity|].
  rewrite IH. destruct (survives b); reflexivity.
Qed.

Lemma filter_all {A : Type} (p : A -> bool) (l : list A) :
  forallb p l = true -> filter p l = l.
Proof.
  induction l as [|a l IH]; simpl; [reflexivity|].
  intros H. apply andb_prop in H as [Ha Hl]. rewrite Ha. f_equal. now apply IH.
Qed.

(** C1 (as amended): for every Message built from the four canonical block
    kinds, decoding its encoding returns normally an assistant-role message
    whose content is the Message's content without its ToolResult blocks,
    Image blocks and Text blocks of empty text; so a Message made only of
    ToolUse blocks and Text blocks of non-empty text gets its content back
    unchanged. *)
Theorem C1_roundtrip_keeps_text_and_tool_use
    (role : string) (blocks : list value) (modelId : value) (now : Z) :
  Forall canonical_block blocks ->
  exists d,
    roundtrip (Message role blocks) modelId now = Ok d
    /\ decoded_content d = VArr (filter survives blocks)
    /\ decoded_role d = VStr "assistant"
    /\ (forallb survives blocks = true -> decoded_content d = VArr blocks).
Proof.
  intros Hcanon.
  destruct (mapM_Forall2 blockToBedrock
              (fun b w => blockFromBedrock w = Ok (if survives b then [b] else []))
              blocks) as [ws [Hencode Hback]].
  { eapply Forall_impl; [|exact Hcanon]. intros b Hb.
    now apply block_there_and_back. }
  apply mapM_pointwise in Hback.
  unfold roundtrip, transformMessageToBedrock, Message. simpl.
  rewrite Hencode. simpl.
  unfold transformBedrockMessage. simpl.
  rewrite Hback. simpl. rewrite concat_survivors.
  eexists. split; [reflexivity|].
  unfold decoded_content, decoded_role. simpl.
  split; [reflexivity|]. split; [reflexivity|].
  intros Hall. now rewrite filter_all.
Qed.

Lemma C1_roundtrip_keeps_text_and_tool_use_witness :
  exists d,
    roundtrip (Message "assistant" [Text "hello"; ToolUse "t1" "grep" (VObj [("q", VStr "x")])])
              (VStr "m") 0 = Ok d
    /\ decoded_content d
       = VArr (filter survives [Text "hello"; ToolUse "t1" "grep" (VObj [("q", VStr "x")])])
    /\ decoded_role d = VStr "assistant"
    /\ (forallb survives [Text "hello"; ToolUse "t1" "grep" (VObj [("q", VStr "x")])] = true ->
        decoded_content d = VArr [Text "hello"; ToolUse "t1" "grep" (VObj [("q", VStr "x")])]).
Proof.
  apply (C1_roundtrip_keeps_text_and_tool_use "assistant"
           [Text "hello"; ToolUse "t1" "grep" (VObj [("q", VStr "x")])] (VStr "m") 0).
  repeat constructor.
Defined.

(** C1 (as stated) fails: a user Message holding one Image block is encoded
    and decoded without error, and comes back as an assistant message with
    an empty content. *)
Lemma C1_image_message_not_restored :
  exists d,
    roundtrip (Message "user" [Image "png" "AAAA"]) (VStr "m") 0 = Ok d
    /\ d <> Message "user" [Image "png" "AAAA"]
    /\ decoded_content d = VArr []
    /\ decoded_content d <> VArr [Image "png" "AAAA"]
    /\ decoded_role d = VStr "assistant".
Proof.
  eexists. split; [reflexivity|].
  repeat split; try reflexivity; discriminate.
Qed.

Lemma truthy_not_nullish (v : value) : truthy v = true -> nullish v = false.
Proof. destruct v; simpl; congruence. Qed.

Lemma blockFromBedrock_decoded_as (block : value) :
  nullish block = false -> blockFromBedrock block = Ok (decoded_as block).
Proof.
  intros Hb. unfold blockFromBedrock, decoded_as.
  rewrite !(get_ok block) by exact Hb. simpl.
  destruct (truthy (prop block "toolUse")) eqn:Htu.
  - rewrite !(get_ok (prop block "toolUse")) by now apply truthy_not_nullish.
    simpl. destruct (truthy (prop block "text")); reflexivity.
  - simpl. destruct (truthy (prop block "text")); reflexivity.
Qed.

Lemma mapM_total {A B : Type} (f : A -> result B) (g : A -> B) (l : list A) :
  Forall (fun a => f a = Ok (g a)) l -> mapM f l = Ok (map g l).
Proof.
  induction 1 as [|a l Ha _ IH]; simpl; [reflexivity|].
  rewrite Ha. simpl. rewrite IH. reflexivity.
Qed.

Lemma decoded_as_kinds (block : value) :
  Forall (fun o => is_str (prop o "type") "text" || is_str (prop o "type") "tool_use" = true)
         (decoded_as block).
Proof.
  unfold decoded_as.
  destruct (truthy (prop block "text")), (truthy (prop block "toolUse"));
    repeat constructor.
Qed.

(** C2 (as amended): for every wire-format message whose content is an array
    of values with properties, decoding returns normally, and its content is
    made, block after block, of a Text block when the [text] field is truthy
    followed by a ToolUse block when the [toolUse] field is truthy; a block
    with neither field contributes nothing, and every output block is a Text
    or a ToolUse block. *)
Theorem C2_decode_block_by_block
    (fields : list (string * value)) (blocks : list value) (modelId : value) (now : Z) :
  lookup "content" fields = VArr blocks ->
  forallb (fun b => negb (nullish b)) blocks = true ->
  exists d,
    transformBedrockMessage (VObj fields) modelId now = Ok d
    /\ decoded_content d = VArr (flat_map decoded_as blocks)
    /\ Forall (fun o => is_str (prop o "type") "text"
                        || is_str (prop o "type") "tool_use" = true)
              (flat_map decoded_as blocks).
Proof.
  intros Hcontent Hblocks.
  assert (Hmap : mapM blockFromBedrock blocks = Ok (map decoded_as blocks)).
  { apply mapM_total. apply Forall_forall. intros b Hin.
    apply blockFromBedrock_decoded_as.
    rewrite forallb_forall in Hblocks. specialize (Hblocks b Hin).
    now apply negb_true_iff in Hblocks. }
  unfold transformBedrockMessage. simpl. rewrite Hcontent. simpl.
  rewrite Hmap. simpl. rewrite <- flat_map_concat_map.
  eexists. split; [reflexivity|]. split; [reflexivity|].
  clear. induction blocks as [|b blocks IH]; simpl; [constructor|].
  apply Forall_app. split; [apply decoded_as_kinds | exact IH].
Qed.

Lemma C2_decode_block_by_block_witness :
  exists d,
    transformBedrockMessage
      (VObj [("role", VStr "assistant");
             ("content",
              VArr [VObj [("text", VStr "hi")];
                    VObj [("toolUse",
                           VObj [("toolUseId", VStr "t1"); ("name", VStr "grep");
                                 ("input", VObj [])])]])])
      (VStr "m") 0 = Ok d
    /\ decoded_content d
       = VArr (flat_map decoded_as
                 [VObj [("text", VStr "hi")];
                  VObj [("toolUse",
                         VObj [("toolUseId", VStr "t1"); ("name", VStr "grep");
                               ("input", VObj [])])]])
    /\ Forall (fun o => is_str (prop o "type") "text"
                        || is_str (prop o "type") "tool_use" = true)
              (flat_map decoded_as
                 [VObj [("text", VStr "hi")];
                  VObj [("toolUse",
                         VObj [("toolUseId", VStr "t1"); ("name", VStr "grep");
                               ("input", VObj [])])]]).
Proof.
  apply (C2_decode_block_by_block
           [("role", VStr "assistant");
            ("content",
             VArr [VObj [("text", VStr "hi")];
                   VObj [("toolUse",
                          VObj [("toolUseId", VStr "t1"); ("name", VStr "grep");
                                ("input", VObj [])])]])]);
    reflexivity.
Defined.

(** C2 (as stated) fails: of the two blocks of this wire message the image
    block matches neither field; the decoder pushes nothing for it, and the
    decoded content has one block, the Text one. *)
Lemma C2_unmatched_block_dropped :
  blockFromBedrock
    (VObj [("image",
            VObj [("format", VStr "png"); ("source", VObj [("bytes", VStr "AAAA")])])])
  = Ok []
  /\ exists d,
      transformBedrockMessage
        (VObj [("role", VStr "assistant");
               ("content",
                VArr [VObj [("text", VStr "hi")];
                      VObj [("image",
                             VObj [("format", VStr "png");
                                   ("source", VObj [("bytes", VStr "AAAA")])])]])])
        (VStr "m") 0 = Ok d
      /\ decoded_content d = VArr [Text "hi"].
Proof. split; [reflexivity|]. eexists. split; reflexivity. Qed.

Lemma serialize_defined (v : value) :
  nullish v = false -> exists s, serialize v = Some s.
Proof.
  destruct v as [| |b| | | |]; simpl; intros H; try discriminate; eauto.
  destruct b; eauto.
Qed.

(** The encoder on one structurally valid block. *)
Lemma blockToBedrock_total (b : value) :
  valid_block b = true ->
  exists w, blockToBedrock b = Ok w
            /\ (recognized b = false ->
                exists s, serialize b = Some s /\ w = VObj [("text", VStr s)]).
Proof.
  unfold valid_block, recognized. intros H.
  apply andb_prop in H as [Hb Hitems]. apply negb_true_iff in Hb.
  unfold blockToBedrock. rewrite get_ok by exact Hb. simpl.
  destruct (is_str (prop b "type") "text").
  { rewrite get_ok by exact Hb. simpl. eexists. split; [reflexivity | discriminate]. }
  destruct (is_str (prop b "type") "tool_use").
  { rewrite !get_ok by exact Hb. simpl. eexists. split; [reflexivity | discriminate]. }
  destruct (is_str (prop b "type") "tool_result").
  { unfold transformToolResultToBedrock. rewrite !get_ok by exact Hb. simpl.
    destruct (prop b "content") as [| | | | |items|] eqn:Hc; simpl;
      try (eexists; split; [reflexivity | discriminate]).
    destruct (mapM_ok toolResultItem items) as [items' Hitems'].
    { apply Forall_forall. intros c Hin. apply toolResultItem_total.
      rewrite forallb_forall in Hitems. specialize (Hitems c Hin).
      now apply negb_true_iff in Hitems. }
    rewrite Hitems'. simpl. eexists. split; [reflexivity | discriminate]. }
  destruct (is_str (prop b "type") "image").
  { destruct (imageToBedrock_total b Hb) as [w Hw]. rewrite Hw.
    eexists. split; [reflexivity | discriminate]. }
  destruct (serialize_defined b Hb) as [s Hs].
  exists (VObj [("text", VStr s)]). split.
  - unfold JSON_stringify. now rewrite Hs.
  - intros _. eauto.
Qed.


(* ================================================================== *)
(** ** Properties of the conversation driver *)
(* ================================================================== *)

(** The three projections of a trace go through concatenation; one
    induction on the first trace, by cases on its head event. *)
Ltac projection_of_app t :=
  induction t as [|e t IH]; simpl; [reflexivity | destruct e; simpl; now rewrite IH].

Lemma notifications_app (t1 t2 : list event) :
  notifications (t1 ++ t2) = (notifications t1 ++ notifications t2)%list.
Proof. projection_of_app t1. Qed.

Lemma requests_app (t1 t2 : list event) :
  requests (t1 ++ t2) = (requests t1 ++ requests t2)%list.
Proof. projection_of_app t1. Qed.

Lemma diagnostics_app (t1 t2 : list event) :
  diagnostics (t1 ++ t2) = (diagnostics t1 ++ diagnostics t2)%list.
Proof. projection_of_app t1. Qed.

(** Whether decoding returns normally does not depend on the model id or
    on the clock. *)
Lemma transformBedrockMessage_succeeds (m modelId modelId' : value) (now now' : Z) :
  succeeds (transformBedrockMessage m modelId now) = true ->
  exists am, transformBedrockMessage m modelId' now' = Ok am.
Proof.
  unfold transformBedrockMessage.
  destruct (get m "content") as [c|e]; simpl; [|discriminate].
  destruct (truthy c); simpl; [|eauto].
  destruct (iterate c) as [blocks|e]; simpl; [|discriminate].
  destruct (mapM blockFromBedrock blocks) as [pushed|e]; simpl; [eauto | discriminate].
Qed.

Section DriverProperties.

Variable rnd : Q -> Q.
Variable env_BEDROCK_MODEL_ID : option string.
Variable send : Z -> value -> result value.
Variable Date_now : nat -> Z.
Variable prompt : string.
Variable opts : options.

Local Abbreviation cap := (maxTurnsOf opts).
Local Abbreviation run := (loop rnd env_BEDROCK_MODEL_ID send Date_now opts).
Local Abbreviation ask := (request env_BEDROCK_MODEL_ID opts).
Local Abbreviation try_turn := (attempt env_BEDROCK_MODEL_ID send Date_now opts).
Local Abbreviation done := (finish rnd Date_now opts).

(** A well-formed reply gets through the [try] block. *)
Lemma attempt_reply (turnCount : Z) (h : list entry) (reads : nat) (response : value) :
  send turnCount (ask h) = Ok response ->
  well_formed response = true ->
  exists am reads', try_turn turnCount h reads = Ok (response, am, reads').
Proof.
  intros Hsend Hwf. unfold well_formed in Hwf.
  apply andb_prop in Hwf as [Hnn Hdec]. apply negb_true_iff in Hnn.
  destruct (transformBedrockMessage_succeeds _ _
              (VStr (modelId env_BEDROCK_MODEL_ID opts)) _ (Date_now reads) Hdec)
    as [am Ham].
  unfold attempt. rewrite Hsend. simpl.
  rewrite get_ok by exact Hnn. simpl. rewrite Ham. simpl. eauto.
Qed.

Lemma loop_exit (fuel : nat) (turnCount : Z) (h : list entry) (reads : nat) :
  cap <= turnCount -> run fuel turnCount h reads = Some (done turnCount h reads).
Proof.
  intros H. destruct fuel; simpl;
    (destruct (Z.ltb_spec turnCount (maxTurnsOf opts)); [lia | reflexivity]).
Qed.

Lemma loop_fail (fuel : nat) (turnCount : Z) (h : list entry) (reads : nat) (e : error) :
  turnCount < cap ->
  try_turn (turnCount + 1) h reads = Throw e ->
  run (S fuel) turnCount h reads
  = Some (Send (turnCount + 1) (ask h) :: failed Date_now e reads).
Proof.
  intros Hlt Htry. simpl.
  destruct (Z.ltb_spec turnCount (maxTurnsOf opts)); [|lia].
  rewrite Htry. reflexivity.
Qed.

Lemma loop_break (fuel : nat) (turnCount : Z) (h : list entry) (reads reads' : nat)
    (response am : value) :
  turnCount < cap ->
  try_turn (turnCount + 1) h reads = Ok (response, am, reads') ->
  natural_stop response = true ->
  run (S fuel) turnCount h reads
  = Some (Send (turnCount + 1) (ask h) :: Yield (Assistant am)
            :: done (turnCount + 1) (h ++ [assistantEntry response]) reads').
Proof.
  intros Hlt Htry Hstop. simpl.
  destruct (Z.ltb_spec turnCount (maxTurnsOf opts)); [|lia].
  rewrite Htry. rewrite Hstop. reflexivity.
Qed.

Lemma loop_continue (fuel : nat) (turnCount : Z) (h : list entry) (reads reads' : nat)
    (response am : value) :
  turnCount < cap ->
  try_turn (turnCount + 1) h reads = Ok (response, am, reads') ->
  natural_stop response = false ->
  run (S fuel) turnCount h reads
  = option_map
      (fun rest => Send (turnCount + 1) (ask h) :: Yield (Assistant am)
                     :: (warnings response ++ rest)%list)
      (run fuel (turnCount + 1) (h ++ [assistantEntry response]) reads').
Proof.
  intros Hlt Htry Hstop. simpl.
  destruct (Z.ltb_spec turnCount (maxTurnsOf opts)); [|lia].
  rewrite Htry. rewrite Hstop.
  destruct (loop _ _ _ _ _ fuel _ _ _); reflexivity.
Qed.

Lemma notifications_warnings (response : value) :
  notifications (warnings response) = [].
Proof.
  unfold warnings.
  destruct (is_str _ "tool_use"), (is_str _ "max_tokens"); reflexivity.
Qed.

(** With enough fuel the loop reaches its end, and what it yields is a row
    of assistant messages followed by one result. *)
Lemma loop_yields (fuel : nat) :
  forall (turnCount : Z) (h : list entry) (reads : nat),
    (Z.to_nat (cap - turnCount) <= fuel)%nat ->
    exists tr ams o s d c,
      run fuel turnCount h reads = Some tr
      /\ notifications tr = (map Assistant ams ++ [Result o s d c])%list.
Proof.
  induction fuel as [|fuel IH]; intros turnCount h reads Hfuel.
  - exists (done turnCount h reads), []. do 4 eexists.
    split; [apply loop_exit; lia | reflexivity].
  - destruct (Z.lt_ge_cases turnCount cap) as [Hlt|Hge].
    2:{ exists (done turnCount h reads), []. do 4 eexists.
        split; [now apply loop_exit | reflexivity]. }
    destruct (try_turn (turnCount + 1) h reads) as [[[response am] reads']|e] eqn:Htry.
    + destruct (natural_stop response) eqn:Hstop.
      * eexists. exists [am]. do 4 eexists.
        split; [eapply loop_break; eauto | reflexivity].
      * destruct (IH (turnCount + 1) (h ++ [assistantEntry response])%list reads')
          as (tr & ams & o & s & d & c & Hrun & Hn); [lia|].
        eexists. exists (am :: ams), o, s, d, c. split.
        -- erewrite loop_continue by eauto. rewrite Hrun. reflexivity.
        -- simpl. rewrite notifications_app, notifications_warnings, Hn. reflexivity.
    + eexists. exists []. do 4 eexists.
      split; [eapply loop_fail; eauto | reflexivity].
Qed.

(** When every turn before the cap gets a well-formed reply that is not a
    natural stop, and the turn at the cap gets a well-formed [end_turn]
    reply, the loop runs up to the cap and the result it yields has the
    subtype [error_max_turns]. *)
Lemma loop_stop_at_cap (fuel : nat) :
  (forall k req, 1 <= k < cap ->
     exists response, send k req = Ok response
                      /\ well_formed response = true
                      /\ natural_stop response = false) ->
  (forall req, exists response,
     send cap req = Ok response
     /\ well_formed response = true
     /\ prop response "stopReason" = VStr "end_turn") ->
  forall (turnCount : Z) (h : list entry) (reads : nat),
    0 <= turnCount < cap ->
    (Z.to_nat (cap - turnCount) <= fuel)%nat ->
    exists tr ams d c,
      run fuel turnCount h reads = Some tr
      /\ notifications tr
         = (map Assistant ams
              ++ [Result (Success "Task completed via Bedrock") "error_max_turns" d c])%list
      /\ List.length ams = Z.to_nat (cap - turnCount)
      /\ List.length (requests tr) = Z.to_nat (cap - turnCount).
Proof.
  intros Hbefore Hlast.
  induction fuel as [|fuel IH]; intros turnCount h reads Hrange Hfuel; [lia|].
  destruct (Z.eq_dec (turnCount + 1) cap) as [Hcap|Hcap].
  - destruct (Hlast (ask h)) as (response & Hsend & Hwf & Hstop).
    rewrite <- Hcap in Hsend.
    destruct (attempt_reply (turnCount + 1) h reads response Hsend Hwf)
      as (am & reads' & Htry).
    eexists. exists [am]. do 2 eexists. split; [|split; [|split]].
    + eapply loop_break; [lia | exact Htry | ].
      unfold natural_stop. rewrite Hstop. reflexivity.
    + unfold finish. simpl.
      destruct (Z.geb_spec (turnCount + 1) cap); [reflexivity | lia].
    + simpl. lia.
    + simpl. lia.
  - destruct (Hbefore (turnCount + 1) (ask h)) as (response & Hsend & Hwf & Hstop); [lia|].
    destruct (attempt_reply (turnCount + 1) h reads response Hsend Hwf)
      as (am & reads' & Htry).
    destruct (IH (turnCount + 1) (h ++ [assistantEntry response])%list reads')
      as (tr & ams & d & c & Hrun & Hn & Hlen & Hreq); [lia | lia |].
    eexists. exists (am :: ams), d, c. split; [|split; [|split]].
    + erewrite loop_continue by (try eassumption; lia). rewrite Hrun. reflexivity.
    + simpl. rewrite notifications_app, notifications_warnings, Hn. reflexivity.
    + simpl. lia.
    + simpl. rewrite requests_app.
      assert (Hw : requests (warnings response) = []).
      { unfold warnings.
        destruct (is_str _ "tool_use"), (is_str _ "max_tokens"); reflexivity. }
      rewrite Hw. simpl. lia.
Qed.

End DriverProperties.

Section Scenarios.

Variable rnd : Q -> Q.
Variable env_BEDROCK_MODEL_ID : option string.
Variable send : Z -> value -> result value.
Variable Date_now : nat -> Z.
Variable prompt : string.
Variable opts : options.

(** C4: when the reply to the first request is well formed and carries
    the stop reason [end_turn], and the turn cap is above 1 (the default
    cap is 100), the driver yields exactly four notifications: Init,
    UserEcho, one Assistant and a Result with success true and subtype
    [success]. *)
Theorem C4_end_turn_on_first_turn (response : value) :
  1 < maxTurnsOf opts ->
  send 1 (request env_BEDROCK_MODEL_ID opts (initialHistory prompt)) = Ok response ->
  well_formed response = true ->
  prop response "stopReason" = VStr "end_turn" ->
  exists tr am d,
    bedrockQuery rnd env_BEDROCK_MODEL_ID send Date_now prompt opts = Some tr
    /\ notifications tr
       = [Init (modelId env_BEDROCK_MODEL_ID opts)
               (or_else (permissionMode opts) (VStr "default"));
          UserEcho prompt;
          Assistant am;
          Result (Success "Task completed via Bedrock") "success" d
                 (estimatedCost rnd (initialHistory prompt ++ [assistantEntry response]))]
    /\ requests tr = [request env_BEDROCK_MODEL_ID opts (initialHistory prompt)].
Proof.
  intros Hcap Hsend Hwf Hstop.
  destruct (attempt_reply env_BEDROCK_MODEL_ID send Date_now opts
              1 (initialHistory prompt) 1%nat response Hsend Hwf)
    as (am & reads' & Htry).
  unfold bedrockQuery.
  replace (Z.to_nat (maxTurnsOf opts)) with (S (Z.to_nat (maxTurnsOf opts - 1))) by lia.
  erewrite loop_break with (turnCount := 0); [ | lia | exact Htry | ].
  2:{ unfold natural_stop. rewrite Hstop. reflexivity. }
  eexists. exists am. eexists. split; [reflexivity|].
  unfold finish. simpl.
  destruct (Z.geb_spec 1 (maxTurnsOf opts)); [lia|].
  split; reflexivity.
Qed.

(** C6: when there is a first turn and the call to the service fails on
    it, the driver yields Init, UserEcho and a Result with success false,
    the error's message and a cost of zero; no Assistant notification is
    yielded, that one request is the only one sent, and the run ends
    normally with its trace. *)
Theorem C6_backend_error_on_first_turn (e : error) :
  0 < maxTurnsOf opts ->
  send 1 (request env_BEDROCK_MODEL_ID opts (initialHistory prompt)) = Throw e ->
  exists tr,
    bedrockQuery rnd env_BEDROCK_MODEL_ID send Date_now prompt opts = Some tr
    /\ notifications tr
       = [Init (modelId env_BEDROCK_MODEL_ID opts)
               (or_else (permissionMode opts) (VStr "default"));
          UserEcho prompt;
          Result (Failure (err_message e)) "error_during_execution"
                 (Date_now 1%nat - Date_now 0%nat) 0]
    /\ requests tr = [request env_BEDROCK_MODEL_ID opts (initialHistory prompt)].
Proof.
  intros Hcap Hsend.
  assert (Htry : attempt env_BEDROCK_MODEL_ID send Date_now opts
                   (0 + 1) (initialHistory prompt) 1%nat = Throw e).
  { unfold attempt. simpl. rewrite Hsend. reflexivity. }
  unfold bedrockQuery.
  replace (Z.to_nat (maxTurnsOf opts)) with (S (Z.to_nat (maxTurnsOf opts - 1))) by lia.
  erewrite loop_fail; [ | lia | exact Htry ].
  eexists. split; [reflexivity|]. split; reflexivity.
Qed.

(** What a tool-use reply leaves behind: no natural stop, one warning. *)
Lemma tool_use_reply (response : value) :
  prop response "stopReason" = VStr "tool_use" ->
  natural_stop response = false /\ warnings response = [Log tool_use_warning].
Proof.
  intros H. unfold natural_stop, warnings. rewrite H. split; reflexivity.
Qed.

(** C5: when every reply is well formed with the stop reason [tool_use]
    and the turn cap is 3, the driver yields Init, UserEcho, three
    Assistant notifications and a Result with success true and subtype
    [error_max_turns]; each of the three turns logs the tool-use warning,
    and each request after the first carries the previous transcript with
    the reply just received appended to it. *)
Theorem C5_tool_use_until_cap :
  maxTurns opts = Some 3 ->
  (forall k req, exists response,
      send k req = Ok response
      /\ well_formed response = true
      /\ prop response "stopReason" = VStr "tool_use") ->
  exists tr r1 r2 r3 a1 a2 a3 d,
    let h0 := initialHistory prompt in
    let h1 := (h0 ++ [assistantEntry r1])%list in
    let h2 := (h1 ++ [assistantEntry r2])%list in
    let h3 := (h2 ++ [assistantEntry r3])%list in
    bedrockQuery rnd env_BEDROCK_MODEL_ID send Date_now prompt opts = Some tr
    /\ notifications tr
       = [Init (modelId env_BEDROCK_MODEL_ID opts)
               (or_else (permissionMode opts) (VStr "default"));
          UserEcho prompt;
          Assistant a1; Assistant a2; Assistant a3;
          Result (Success "Task completed via Bedrock") "error_max_turns" d
                 (estimatedCost rnd h3)]
    /\ diagnostics tr = [tool_use_warning; tool_use_warning; tool_use_warning]
    /\ requests tr
       = [request env_BEDROCK_MODEL_ID opts h0;
          request env_BEDROCK_MODEL_ID opts h1;
          request env_BEDROCK_MODEL_ID opts h2].
Proof.
  intros Hmax Hreply.
  assert (Hcap : maxTurnsOf opts = 3) by (unfold maxTurnsOf; now rewrite Hmax).
  set (h0 := initialHistory prompt).
  destruct (Hreply 1 (request env_BEDROCK_MODEL_ID opts h0)) as (r1 & Hs1 & Hw1 & Ht1).
  destruct (attempt_reply env_BEDROCK_MODEL_ID send Date_now opts 1 h0 1%nat r1 Hs1 Hw1)
    as (a1 & n1 & Htry1).
  set (h1 := (h0 ++ [assistantEntry r1])%list).
  destruct (Hreply 2 (request env_BEDROCK_MODEL_ID opts h1)) as (r2 & Hs2 & Hw2 & Ht2).
  destruct (attempt_reply env_BEDROCK_MODEL_ID send Date_now opts 2 h1 n1 r2 Hs2 Hw2)
    as (a2 & n2 & Htry2).
  set (h2 := (h1 ++ [assistantEntry r2])%list).
  destruct (Hreply 3 (request env_BEDROCK_MODEL_ID opts h2)) as (r3 & Hs3 & Hw3 & Ht3).
  destruct (attempt_reply env_BEDROCK_MODEL_ID send Date_now opts 3 h2 n2 r3 Hs3 Hw3)
    as (a3 & n3 & Htry3).
  destruct (tool_use_reply r1 Ht1) as [Hn1 Hl1].
  destruct (tool_use_reply r2 Ht2) as [Hn2 Hl2].
  destruct (tool_use_reply r3 Ht3) as [Hn3 Hl3].
  exists (Yield (Init (modelId env_BEDROCK_MODEL_ID opts)
                      (or_else (permissionMode opts) (VStr "default")))
          :: Yield (UserEcho prompt)
          :: Send 1 (request env_BEDROCK_MODEL_ID opts h0) :: Yield (Assistant a1)
          :: Log tool_use_warning
          :: Send 2 (request env_BEDROCK_MODEL_ID opts h1) :: Yield (Assistant a2)
          :: Log tool_use_warning
          :: Send 3 (request env_BEDROCK_MODEL_ID opts h2) :: Yield (Assistant a3)
          :: Log tool_use_warning
          :: finish rnd Date_now opts 3 (h2 ++ [assistantEntry r3]) n3).
  exists r1, r2, r3, a1, a2, a3. eexists. cbv zeta. subst h0 h1 h2.
  split.
  - unfold bedrockQuery. rewrite Hcap. change (Z.to_nat 3) with 3%nat.
    rewrite (loop_continue rnd env_BEDROCK_MODEL_ID send Date_now opts
               2 0 _ 1 n1 r1 a1); [ | lia | exact Htry1 | exact Hn1 ].
    rewrite (loop_continue rnd env_BEDROCK_MODEL_ID send Date_now opts
               1 (0 + 1) _ n1 n2 r2 a2); [ | lia | exact Htry2 | exact Hn2 ].
    rewrite (loop_continue rnd env_BEDROCK_MODEL_ID send Date_now opts
               0 (0 + 1 + 1) _ n2 n3 r3 a3); [ | lia | exact Htry3 | exact Hn3 ].
    rewrite loop_exit by lia.
    rewrite Hl1, Hl2, Hl3. reflexivity.
  - unfold finish. rewrite Hcap. split; [reflexivity|]. split; reflexivity.
Qed.

Lemma one_result (ams : list value) (r : notification) :
  is_result r = true ->
  filter is_result (map Assistant ams ++ [r]) = [r].
Proof.
  intros Hr. induction ams as [|a ams IH]; simpl.
  - now rewrite Hr.
  - exact IH.
Qed.

(** C7: every run of the driver ends, and the notifications it yields are
    Init, UserEcho, some Assistant notifications and then one Result: the
    Result is the last notification and the only one of its kind. *)
Theorem C7_exactly_one_result_last :
  exists tr ams o s d c,
    bedrockQuery rnd env_BEDROCK_MODEL_ID send Date_now prompt opts = Some tr
    /\ notifications tr
       = (Init (modelId env_BEDROCK_MODEL_ID opts)
               (or_else (permissionMode opts) (VStr "default"))
          :: UserEcho prompt
          :: map Assistant ams ++ [Result o s d c])%list
    /\ filter is_result (notifications tr) = [Result o s d c]
    /\ last (notifications tr) (UserEcho prompt) = Result o s d c.
Proof.
  destruct (loop_yields rnd env_BEDROCK_MODEL_ID send Date_now opts
              (Z.to_nat (maxTurnsOf opts)) 0 (initialHistory prompt) 1%nat)
    as (tr & ams & o & s & d & c & Hrun & Hn); [lia|].
  eexists. exists ams, o, s, d, c.
  unfold bedrockQuery. rewrite Hrun. split; [reflexivity|].
  simpl. rewrite Hn. split; [reflexivity|]. split.
  - now rewrite one_result.
  - destruct (map Assistant ams ++ [Result o s d c])%list eqn:E.
    + destruct ams; discriminate.
    + rewrite <- E. apply last_last.
Qed.

(** C10: when the turn cap is positive, every turn before the cap gets a
    well-formed reply that is not a natural stop, and the turn at the cap
    gets a well-formed reply with the stop reason [end_turn], the run ends
    on that turn and its Result has success true and the subtype
    [error_max_turns], not [success]. *)
Theorem C10_end_turn_at_cap_reports_max_turns :
  0 < maxTurnsOf opts ->
  (forall k req, 1 <= k < maxTurnsOf opts ->
     exists response, send k req = Ok response
                      /\ well_formed response = true
                      /\ natural_stop response = false) ->
  (forall req, exists response,
     send (maxTurnsOf opts) req = Ok response
     /\ well_formed response = true
     /\ prop response "stopReason" = VStr "end_turn") ->
  exists tr ams d c,
    bedrockQuery rnd env_BEDROCK_MODEL_ID send Date_now prompt opts = Some tr
    /\ notifications tr
       = (Init (modelId env_BEDROCK_MODEL_ID opts)
               (or_else (permissionMode opts) (VStr "default"))
          :: UserEcho prompt
          :: map Assistant ams
          ++ [Result (Success "Task completed via Bedrock") "error_max_turns" d c])%list
    /\ Z.of_nat (List.length ams) = maxTurnsOf opts
    /\ Z.of_nat (List.length (requests tr)) = maxTurnsOf opts.
Proof.
  intros Hcap Hbefore Hlast.
  destruct (loop_stop_at_cap rnd env_BEDROCK_MODEL_ID send Date_now opts
              (Z.to_nat (maxTurnsOf opts)) Hbefore Hlast
              0 (initialHistory prompt) 1%nat)
    as (tr & ams & d & c & Hrun & Hn & Hlen & Hreq); [lia | lia |].
  eexists. exists ams, d, c.
  unfold bedrockQuery. rewrite Hrun. split; [reflexivity|].
  simpl. rewrite Hn. split; [reflexivity|]. split; lia.
Qed.

End Scenarios.

(* ================================================================== *)
(** ** Properties of the cost estimate *)
(* ================================================================== *)

Section Rounding.

Variable rnd : Q -> Q.
Variable F : Q -> Prop.
Hypothesis IEEE : nearest rnd F.

(** A representable number is its own rounding. *)
Lemma rnd_exact (f : Q) : F f -> (rnd f == f)%Q.
Proof.
  intros Hf. pose proof (rnd_closest _ _ IEEE f f Hf) as H.
  setoid_replace (f - f)%Q with 0%Q in H by ring.
  change (Qabs 0) with 0%Q in H.
  revert H. apply (Qabs_case (f - rnd f)); intros ? ?; lra.
Qed.

(** Rounding to nearest keeps the order: were [rnd y] below [rnd x] for
    [x <= y], the midpoint of the two would be at most [x] and at least
    [y]. *)
Lemma rnd_monotone (x y : Q) : (x <= y)%Q -> (rnd x <= rnd y)%Q.
Proof.
  intros Hxy. destruct (Qlt_le_dec (rnd y) (rnd x)) as [Hlt|Hle]; [|exact Hle].
  pose proof (rnd_closest _ _ IEEE x (rnd y) (rnd_representable _ _ IEEE y)) as Hx.
  pose proof (rnd_closest _ _ IEEE y (rnd x) (rnd_representable _ _ IEEE x)) as Hy.
  assert (Hmx : (rnd x + rnd y <= 2 * x)%Q).
  { revert Hx. apply (Qabs_case (x - rnd x)); intros ?;
      apply (Qabs_case (x - rnd y)); intros ? ?; lra. }
  assert (Hmy : (2 * y <= rnd x + rnd y)%Q).
  { revert Hy. apply (Qabs_case (y - rnd y)); intros ?;
      apply (Qabs_case (y - rnd x)); intros ? ?; lra. }
  assert (E : (x == y)%Q) by lra.
  pose proof (rnd_proper _ _ IEEE x y E). lra.
Qed.

Lemma rnd_zero : (rnd 0 == 0)%Q.
Proof. apply rnd_exact, (zero_representable _ _ IEEE). Qed.

Lemma rnd_nonneg (x : Q) : (0 <= x)%Q -> (0 <= rnd x)%Q.
Proof.
  intros H. apply rnd_monotone in H.
  pose proof rnd_zero. lra.
Qed.

Lemma totalTokens_snoc (h : list entry) (m : entry) :
  totalTokens rnd (h ++ [m])
  = rnd (totalTokens rnd h + rnd (inject_Z (lengthOf m) * 4))%Q.
Proof. unfold totalTokens. rewrite fold_left_app. reflexivity. Qed.

Lemma totalTokens_representable (h : list entry) : F (totalTokens rnd h).
Proof.
  destruct h as [|m h] using rev_ind.
  - exact (zero_representable _ _ IEEE).
  - rewrite totalTokens_snoc. apply (rnd_representable _ _ IEEE).
Qed.

(** The total does not decrease when a message is pushed. *)
Lemma totalTokens_grows (h : list entry) (m : entry) :
  0 <= lengthOf m -> (totalTokens rnd h <= totalTokens rnd (h ++ [m]))%Q.
Proof.
  intros Hm. rewrite totalTokens_snoc.
  pose proof (rnd_exact _ (totalTokens_representable h)) as E.
  assert (Hterm : (0 <= rnd (inject_Z (lengthOf m) * 4))%Q).
  { apply rnd_nonneg. rewrite Zle_Qle in Hm. change (inject_Z 0) with 0%Q in Hm. lra. }
  assert (Hsum : (totalTokens rnd h
                  <= totalTokens rnd h + rnd (inject_Z (lengthOf m) * 4))%Q) by lra.
  apply rnd_monotone in Hsum. lra.
Qed.

(** The total does not decrease when the last message gets longer. *)
Lemma totalTokens_last (h : list entry) (m m' : entry) :
  lengthOf m <= lengthOf m' ->
  (totalTokens rnd (h ++ [m]) <= totalTokens rnd (h ++ [m']))%Q.
Proof.
  intros Hm. rewrite !totalTokens_snoc. apply rnd_monotone.
  assert (Hterm : (rnd (inject_Z (lengthOf m) * 4) <= rnd (inject_Z (lengthOf m') * 4))%Q).
  { apply rnd_monotone. rewrite Zle_Qle in Hm. lra. }
  lra.
Qed.

Lemma estimatedCost_le (h h' : list entry) :
  (totalTokens rnd h <= totalTokens rnd h')%Q ->
  (estimatedCost rnd h <= estimatedCost rnd h')%Q.
Proof.
  intros H. unfold estimatedCost. apply rnd_monotone.
  assert (Hq : (rnd (totalTokens rnd h / 1000000) <= rnd (totalTokens rnd h' / 1000000))%Q).
  { apply rnd_monotone. unfold Qdiv. apply Qmult_le_compat_r; [exact H | discriminate]. }
  lra.
Qed.

(** The estimate is a function of the total. *)
Lemma estimatedCost_of_total (h : list entry) (t : Q) :
  (totalTokens rnd h == t)%Q ->
  (estimatedCost rnd h == rnd (rnd (t / 1000000) * 3))%Q.
Proof.
  intros H. unfold estimatedCost. apply (rnd_proper _ _ IEEE).
  assert (E : (rnd (totalTokens rnd h / 1000000) == rnd (t / 1000000))%Q).
  { apply (rnd_proper _ _ IEEE). now rewrite H. }
  now rewrite E.
Qed.

Lemma blockTokens_nonneg (msgs : list (string * list value)) : 0 <= blockTokens msgs.
Proof.
  unfold blockTokens. induction msgs as [|m msgs IH]; simpl; lia.
Qed.

(** While the integers up to the total are representable, the sums and
    products of the reduction are exact. *)
Lemma fold_exact (msgs : list (string * list value)) :
  forall (acc : Q) (a : Z),
    (acc == inject_Z a)%Q ->
    0 <= a ->
    (forall n, 0 <= n <= a + blockTokens msgs -> F (inject_Z n)) ->
    (fold_left (fun sum msg => rnd (sum + rnd (inject_Z (lengthOf msg) * 4))%Q)
       (transcript msgs) acc
     == inject_Z (a + blockTokens msgs))%Q.
Proof.
  induction msgs as [|m msgs IH]; intros acc a Hacc Ha Hrep.
  - simpl. rewrite Hacc. unfold blockTokens. simpl. now rewrite Z.add_0_r.
  - pose proof (blockTokens_nonneg msgs) as Hrest.
    assert (Hm : blockTokens (m :: msgs)
                 = Z.of_nat (List.length (snd m)) * 4 + blockTokens msgs) by reflexivity.
    rewrite Hm in Hrep |- *.
    assert (Hlen : lengthOf (mkEntry (fst m) (VArr (snd m))) = Z.of_nat (List.length (snd m))).
    { unfold lengthOf, or_else. simpl.
      destruct (Z.eqb_spec (Z.of_nat (List.length (snd m))) 0) as [E|E]; simpl;
        [now rewrite E | reflexivity]. }
    simpl. rewrite Hlen.
    set (len := Z.of_nat (List.length (snd m))) in *.
    assert (Hlen0 : 0 <= len) by (subst len; lia).
    assert (Eprod : (rnd (inject_Z len * 4) == inject_Z (len * 4))%Q).
    { assert (E : (inject_Z len * 4 == inject_Z (len * 4))%Q)
        by (rewrite inject_Z_mult; reflexivity).
      rewrite (rnd_proper _ _ IEEE _ _ E). apply rnd_exact, Hrep. lia. }
    assert (Esum : (rnd (acc + rnd (inject_Z len * 4)) == inject_Z (a + len * 4))%Q).
    { assert (E : (acc + rnd (inject_Z len * 4) == inject_Z (a + len * 4))%Q)
        by (rewrite Hacc, Eprod, inject_Z_plus; reflexivity).
      rewrite (rnd_proper _ _ IEEE _ _ E). apply rnd_exact, Hrep. lia. }
    rewrite (IH _ (a + len * 4) Esum); [ | lia | intros n Hn; apply Hrep; lia ].
    now rewrite Z.add_assoc.
Qed.

Lemma totalTokens_transcript (msgs : list (string * list value)) :
  (forall n, 0 <= n <= blockTokens msgs -> F (inject_Z n)) ->
  (totalTokens rnd (transcript msgs) == inject_Z (blockTokens msgs))%Q.
Proof.
  intros Hrep. unfold totalTokens.
  rewrite (fold_exact msgs 0%Q 0); [reflexivity | reflexivity | lia | exact Hrep].
Qed.

Lemma lengthOf_array (r : string) (blocks : list value) :
  lengthOf (mkEntry r (VArr blocks)) = Z.of_nat (List.length blocks).
Proof.
  unfold lengthOf, or_else. simpl.
  destruct (Z.eqb_spec (Z.of_nat (List.length blocks)) 0) as [E|E]; simpl;
    [now rewrite E | reflexivity].
Qed.

End Rounding.

(** **** Binary64 rounds to nearest *)

Lemma pow2_pos (k : Z) : (0 < pow2 k)%Q.
Proof. apply Qpower_0_lt. reflexivity. Qed.

Lemma pow2_plus (j k : Z) : (pow2 (j + k) == pow2 j * pow2 k)%Q.
Proof. apply Qpower_plus. discriminate. Qed.

Lemma pow2_inject (k : Z) : 0 <= k -> (pow2 k == inject_Z (2 ^ k))%Q.
Proof. intros H. unfold pow2. rewrite Zpower_Qpower by exact H. reflexivity. Qed.

Lemma pow2_le (j k : Z) : j <= k -> (pow2 j <= pow2 k)%Q.
Proof. intros H. apply Qpower_le_compat_l; [exact H | discriminate]. Qed.

Lemma nearest_even_bounds (q : Q) :
  Qfloor q <= nearest_even q <= Qfloor q + 1.
Proof.
  unfold nearest_even.
  destruct (q - inject_Z (Qfloor q) ?= 1 # 2)%Q; [destruct (Z.even (Qfloor q))| |]; lia.
Qed.

Lemma integer_sides (m fl : Z) :
  (inject_Z m <= inject_Z fl)%Q \/ (inject_Z fl + 1 <= inject_Z m)%Q.
Proof.
  destruct (Z.le_gt_cases m fl) as [H|H].
  - left. now rewrite <- Zle_Qle.
  - right. assert (H0 : fl + 1 <= m) by lia.
    rewrite Zle_Qle, inject_Z_plus in H0. exact H0.
Qed.

Lemma nearest_even_closest (q : Q) (m : Z) :
  (Qabs (q - inject_Z (nearest_even q)) <= Qabs (q - inject_Z m))%Q.
Proof.
  pose proof (Qfloor_le q) as Hlo.
  pose proof (Qlt_floor q) as Hhi.
  rewrite inject_Z_plus in Hhi. change (inject_Z 1) with 1%Q in Hhi.
  pose proof (integer_sides m (Qfloor q)) as Hm.
  unfold nearest_even.
  destruct (Qcompare_spec (q - inject_Z (Qfloor q)) (1 # 2)) as [Hc|Hc|Hc];
    [destruct (Z.even (Qfloor q))| |];
    rewrite ?inject_Z_plus; change (inject_Z 1) with 1%Q;
    apply Qabs_case; intros ?; apply Qabs_case; intros ?; destruct Hm; lra.
Qed.

Lemma ilog2_spec (a : Q) :
  (0 < a)%Q -> (pow2 (ilog2 a) <= a)%Q /\ (a < pow2 (ilog2 a + 1))%Q.
Proof.
  intros Ha. destruct a as [n d].
  assert (Hn : 0 < n) by (unfold Qlt in Ha; simpl in Ha; lia).
  set (L := Z.log2 n). set (M := Z.log2 (Zpos d)).
  assert (HL : 0 <= L) by apply Z.log2_nonneg.
  assert (HM : 0 <= M) by apply Z.log2_nonneg.
  destruct (Z.log2_spec n Hn) as [HnL HnU]. fold L in HnL, HnU.
  destruct (Z.log2_spec (Zpos d) (Pos2Z.is_pos d)) as [HdL HdU]. fold M in HdL, HdU.
  assert (Ea : ((n # d) * inject_Z (Zpos d) == inject_Z n)%Q).
  { rewrite (Qmake_Qdiv n d). field. discriminate. }
  assert (HA : (pow2 (L - M - 1) <= n # d)%Q).
  { apply (Qmult_le_r _ _ (pow2 (M + 1))); [apply pow2_pos|].
    rewrite <- pow2_plus. replace (L - M - 1 + (M + 1)) with L by ring.
    rewrite (pow2_inject L HL), (pow2_inject (M + 1)) by lia.
    apply Qle_trans with (inject_Z n); [now rewrite <- Zle_Qle|].
    rewrite <- Ea. apply Qmult_le_l; [exact Ha|].
    rewrite <- Zle_Qle. unfold Z.succ in HdU. lia. }
  assert (HB : (n # d < pow2 (L - M + 1))%Q).
  { apply (Qmult_lt_r _ _ (pow2 M)); [apply pow2_pos|].
    rewrite <- pow2_plus. replace (L - M + 1 + M) with (L + 1) by ring.
    rewrite (pow2_inject (L + 1)), (pow2_inject M HM) by lia.
    apply Qle_lt_trans with (inject_Z n).
    - rewrite <- Ea. apply Qmult_le_l; [exact Ha|]. now rewrite <- Zle_Qle.
    - rewrite <- Zlt_Qlt. exact HnU. }
  unfold ilog2. cbn [Qnum Qden]. fold L M.
  destruct (Qle_bool (pow2 (L - M)) (n # d)) eqn:E.
  - apply Qle_bool_iff in E. split; [exact E | exact HB].
  - assert (Hlt : (n # d < pow2 (L - M))%Q).
    { apply Qnot_le_lt. intros H. apply Qle_bool_iff in H. congruence. }
    split; [exact HA|]. now replace (L - M - 1 + 1) with (L - M) by ring.
Qed.

Lemma ulp_pos (a : Q) : (0 < ulp a)%Q.
Proof. apply pow2_pos. Qed.

(** Distances to multiples of a positive step compare as the distances of
    the quotients. *)
Lemma closest_multiple (a u : Q) (n m : Z) :
  (0 < u)%Q ->
  (Qabs (a / u - inject_Z n) <= Qabs (a / u - inject_Z m))%Q ->
  (Qabs (a - inject_Z n * u) <= Qabs (a - inject_Z m * u))%Q.
Proof.
  intros Hu H.
  assert (E : forall k : Z, (a - inject_Z k * u == (a / u - inject_Z k) * u)%Q).
  { intros k. field. intros Hz. rewrite Hz in Hu. discriminate. }
  rewrite (E n), (E m), !Qabs_Qmult, (Qabs_pos u) by now apply Qlt_le_weak.
  apply Qmult_le_compat_r; [exact H | now apply Qlt_le_weak].
Qed.

Lemma round_pos_closest_multiple (a : Q) (m : Z) :
  (Qabs (a - round_pos a) <= Qabs (a - inject_Z m * ulp a))%Q.
Proof.
  unfold round_pos. apply closest_multiple; [apply ulp_pos|].
  apply nearest_even_closest.
Qed.

Lemma round_pos_closest (a f : Q) :
  (0 < a)%Q -> double f -> (Qabs (a - round_pos a) <= Qabs (a - f))%Q.
Proof.
  intros Ha (m & k & Hm & Hk & Hf).
  destruct (ilog2_spec a Ha) as [Hlo Hhi].
  set (e := ilog2 a) in *. set (E := Z.max e (-1022)).
  assert (Hu : ulp a = pow2 (E - 52)) by reflexivity.
  destruct (Z.le_gt_cases (E - 52) k) as [Hcase|Hcase].
  - (* [f] is a multiple of the gap *)
    assert (Ef : (f == inject_Z (m * 2 ^ (k - (E - 52))) * ulp a)%Q).
    { rewrite Hf, Hu, inject_Z_mult, <- pow2_inject by lia.
      rewrite <- Qmult_assoc, <- pow2_plus.
      now replace (k - (E - 52) + (E - 52)) with k by ring. }
    rewrite Ef. apply round_pos_closest_multiple.
  - (* [f] lies below the binade of [a], whose lower end is a multiple *)
    assert (HE : E = e) by lia.
    assert (Hend : (pow2 e == inject_Z (2 ^ 52) * ulp a)%Q).
    { rewrite Hu, HE, <- pow2_inject, <- pow2_plus by lia.
      now replace (52 + (e - 52)) with e by ring. }
    assert (Hfe : (f <= pow2 e)%Q).
    { rewrite Hf.
      apply Qle_trans with (inject_Z (2 ^ 53) * pow2 k)%Q.
      - apply Qmult_le_compat_r; [|apply Qlt_le_weak, pow2_pos].
        rewrite <- Zle_Qle. lia.
      - rewrite <- pow2_inject, <- pow2_plus by lia. apply pow2_le. lia. }
    apply Qle_trans with (Qabs (a - pow2 e)).
    + rewrite Hend. apply round_pos_closest_multiple.
    + apply Qabs_case; intros ?; apply Qabs_case; intros ?; lra.
Qed.

Lemma round_pos_double (a : Q) : (0 < a)%Q -> double (round_pos a).
Proof.
  intros Ha. destruct (ilog2_spec a Ha) as [Hlo Hhi].
  set (e := ilog2 a) in *. set (E := Z.max e (-1022)).
  assert (Hu : ulp a = pow2 (E - 52)) by reflexivity.
  exists (nearest_even (a / ulp a)), (E - 52).
  split; [|split; [lia | now rewrite <- Hu]].
  pose proof (nearest_even_bounds (a / ulp a)) as [Hn1 Hn2].
  assert (Hq0 : (0 <= a / ulp a)%Q).
  { apply Qle_shift_div_l; [apply ulp_pos|]. lra. }
  assert (Hq1 : (a / ulp a < inject_Z (2 ^ 53))%Q).
  { apply Qlt_shift_div_r; [apply ulp_pos|].
    rewrite Hu, <- pow2_inject, <- pow2_plus by lia.
    apply Qlt_le_trans with (pow2 (e + 1)); [exact Hhi|].
    apply pow2_le. lia. }
  assert (Hf0 : 0 <= Qfloor (a / ulp a)).
  { change 0 with (Qfloor 0). now apply Qfloor_resp_le. }
  assert (Hf1 : Qfloor (a / ulp a) < 2 ^ 53).
  { rewrite Zlt_Qlt. apply Qle_lt_trans with (a / ulp a)%Q; [apply Qfloor_le | exact Hq1]. }
  lia.
Qed.

Lemma double_opp (f : Q) : double f -> double (- f).
Proof.
  intros (m & k & Hm & Hk & Hf). exists (- m), k.
  split; [lia|]. split; [exact Hk|].
  rewrite Hf, inject_Z_opp. ring.
Qed.

(** Binary64 rounding is a rounding to nearest. *)
Lemma to_double_nearest : nearest to_double double.
Proof.
  split.
  - intros x y E. unfold to_double. now rewrite (Qred_complete x y E).
  - intros x. unfold to_double.
    destruct (Qcompare_spec 0 (Qred x)) as [H|H|H].
    + exists 0, 0; repeat split; try lia; try reflexivity.
    + now apply round_pos_double.
    + apply double_opp, round_pos_double. lra.
  - intros x f Hf. unfold to_double.
    pose proof (Qred_correct x) as Ex. set (x' := Qred x) in *.
    destruct (Qcompare_spec 0 x') as [H|H|H].
    + setoid_replace (x - 0)%Q with 0%Q by lra. apply Qabs_nonneg.
    + pose proof (round_pos_closest x' f H Hf) as Hc.
      set (r := round_pos x') in *.
      setoid_replace (x - r)%Q with (x' - r)%Q by lra.
      setoid_replace (x - f)%Q with (x' - f)%Q by lra.
      exact Hc.
    + pose proof (round_pos_closest (- x') (- f) ltac:(lra) (double_opp f Hf)) as Hc.
      set (r := round_pos (- x')) in *.
      setoid_replace (x - - r)%Q with (- (- x' - r))%Q by lra.
      setoid_replace (x - f)%Q with (- (- x' - - f))%Q by lra.
      now rewrite !Qabs_opp.
  - exists 0, 0; repeat split; try lia; try reflexivity.
Qed.

Lemma integers_are_doubles (n : Z) : Z.abs n <= 2 ^ 53 -> double (inject_Z n).
Proof.
  intros H. exists n, 0. split; [exact H|]. split; [lia|].
  unfold pow2. simpl. ring.
Qed.

(** C8: the estimate is computed in double precision.  For every rounding
    to nearest: on a transcript of messages holding blocks, while the
    integers up to the token total are representable (in doubles, up to
    2^53), the estimate is the sum over the messages of four times the
    number of blocks, divided by 1,000,000 and multiplied by 3, each of
    the two operations rounded; it is zero on the empty transcript; and it
    does not decrease when blocks are appended to the last message of a
    transcript or when a message of blocks is appended to it. *)
Theorem C8_cost_estimate (rnd : Q -> Q) (F : Q -> Prop) :
  nearest rnd F ->
  (forall msgs,
      (forall n, 0 <= n <= blockTokens msgs -> F (inject_Z n)) ->
      (estimatedCost rnd (transcript msgs)
       == rnd (rnd (inject_Z (blockTokens msgs) / 1000000) * 3))%Q)
  /\ (estimatedCost rnd [] == 0)%Q
  /\ (forall prefix r blocks extra,
         (estimatedCost rnd (prefix ++ [mkEntry r (VArr blocks)])
          <= estimatedCost rnd (prefix ++ [mkEntry r (VArr (blocks ++ extra))]))%Q)
  /\ (forall prefix r blocks,
         (estimatedCost rnd prefix
          <= estimatedCost rnd (prefix ++ [mkEntry r (VArr blocks)]))%Q).
Proof.
  intros IEEE. split; [|split; [|split]].
  - intros msgs Hrep. apply (estimatedCost_of_total rnd F IEEE).
    now apply (totalTokens_transcript rnd F IEEE).
  - rewrite (estimatedCost_of_total rnd F IEEE [] 0) by reflexivity.
    assert (E0 : (rnd (0 / 1000000) == 0)%Q).
    { rewrite (rnd_proper _ _ IEEE (0 / 1000000)%Q 0%Q) by reflexivity.
      apply (rnd_zero rnd F IEEE). }
    assert (E : (rnd (0 / 1000000) * 3 == 0)%Q) by (rewrite E0; reflexivity).
    rewrite (rnd_proper _ _ IEEE _ _ E). apply (rnd_zero rnd F IEEE).
  - intros prefix r blocks extra. apply (estimatedCost_le rnd F IEEE).
    apply (totalTokens_last rnd F IEEE). rewrite !lengthOf_array, length_app. lia.
  - intros prefix r blocks. apply (estimatedCost_le rnd F IEEE).
    apply (totalTokens_grows rnd F IEEE). rewrite lengthOf_array. lia.
Qed.

(* ================================================================== *)
(** ** Properties of the streaming reassembler *)
(* ================================================================== *)

Lemma append_assoc (a b c : string) : (a ++ b) ++ c = a ++ (b ++ c).
Proof. induction a as [|x a IH]; simpl; [reflexivity | now rewrite IH]. Qed.

(** The text enqueued for a value is the data line of its JSON text. *)
Lemma sse_data_line (v : value) (j : string) :
  serialize v = Some j -> sse v = data_line j.
Proof. intros H. unfold sse, JSON_stringify. rewrite H. reflexivity. Qed.

Lemma message_start_members (j1 j2 : string) :
  "{" ++ join ","
           [quote "type" ++ ":" ++ quote "message_start";
            quote "message" ++ ":"
              ++ ("{" ++ join ","
                           [quote "id" ++ ":" ++ j1;
                            quote "type" ++ ":" ++ quote "message";
                            quote "role" ++ ":" ++ quote "assistant";
                            quote "content" ++ ":" ++ "[]";
                            quote "model" ++ ":" ++ j2;
                            quote "usage" ++ ":"
                              ++ ("{" ++ join "," [quote "input_tokens" ++ ":" ++ "0";
                                                   quote "output_tokens" ++ ":" ++ "0"]
                                      ++ "}")]
                      ++ "}")]
      ++ "}"
  = message_start_text j1 j2.
Proof.
  unfold message_start_text, quoted. simpl. rewrite !append_assoc. simpl.
  rewrite ?append_assoc. reflexivity.
Qed.

(** The JSON text of a [message_start] event with a zeroed usage. *)
Lemma message_start_json (id model : string) :
  serialize
    (VObj [("type", VStr "message_start");
           ("message",
            VObj [("id", VStr id);
                  ("type", VStr "message");
                  ("role", VStr "assistant");
                  ("content", VArr []);
                  ("model", VStr model);
                  ("usage", VObj [("input_tokens", VNum 0);
                                  ("output_tokens", VNum 0)])])])
  = Some (message_start_text (quote id) (quote model)).
Proof. rewrite <- message_start_members. reflexivity. Qed.

(** What the reassembler enqueues for the three frames, as values. *)
Lemma three_frames_enqueued
    (model_id : string) (Date_now : nat -> Z)
    (start delta stop : list (string * value)) :
  lookup "type" start = VStr "message_start" ->
  truthy (optget (lookup "message" start) "id") = false ->
  truthy (optget (lookup "message" start) "usage") = false ->
  lookup "type" delta = VStr "content_block_delta" ->
  lookup "type" stop = VStr "message_stop" ->
  handleStreamingResponse model_id Date_now
    [Chunk (VObj start); Chunk (VObj delta); Chunk (VObj stop)]
  = ([sse (VObj [("type", VStr "message_start");
                 ("message",
                  VObj [("id", VStr ("bedrock-" ++ string_of_Z (Date_now 0%nat)));
                        ("type", VStr "message");
                        ("role", VStr "assistant");
                        ("content", VArr []);
                        ("model", VStr model_id);
                        ("usage", VObj [("input_tokens", VNum 0);
                                        ("output_tokens", VNum 0)])])]);
      sse (VObj delta);
      sse (VObj stop)],
     Closed).
Proof.
  intros Hstart Hid Husage Hdelta Hstop.
  unfold handleStreamingResponse, pump, transformChunk, anthropicChunk, get, or_else.
  simpl. rewrite Hstart, Hdelta, Hstop. simpl.
  rewrite Hid, Husage. simpl. reflexivity.
Qed.

(** C9: on the frames [message_start] (with no id and no usage),
    [content_block_delta], [message_stop], the reassembler enqueues three
    events in that order and closes the stream.  Each is the line [data: ],
    a JSON text and two line feeds.  The first text is that of a
    [message_start] event whose message has for id the JSON string of
    [bedrock-] followed by the clock reading, which is not empty, then the
    type [message], the role [assistant], an empty content, for model the
    JSON string of the model id given to the reassembler, and a usage of
    zero input and output tokens; the other two are the JSON texts of the
    frames as received. *)
Theorem C9_three_frames_in_order
    (model_id : string) (Date_now : nat -> Z)
    (start delta stop : list (string * value)) :
  lookup "type" start = VStr "message_start" ->
  truthy (optget (lookup "message" start) "id") = false ->
  truthy (optget (lookup "message" start) "usage") = false ->
  lookup "type" delta = VStr "content_block_delta" ->
  lookup "type" stop = VStr "message_stop" ->
  exists id_json model_json second third,
    JSON_stringify (VStr ("bedrock-" ++ string_of_Z (Date_now 0%nat))) = VStr id_json
    /\ JSON_stringify (VStr model_id) = VStr model_json
    /\ JSON_stringify (VObj delta) = VStr second
    /\ JSON_stringify (VObj stop) = VStr third
    /\ handleStreamingResponse model_id Date_now
         [Chunk (VObj start); Chunk (VObj delta); Chunk (VObj stop)]
       = ([data_line (message_start_text id_json model_json);
           data_line second;
           data_line third],
          Closed)
    /\ "bedrock-" ++ string_of_Z (Date_now 0%nat) <> "".
Proof.
  intros Hstart Hid Husage Hdelta Hstop.
  destruct (serialize_defined (VObj delta) eq_refl) as [second H2].
  destruct (serialize_defined (VObj stop) eq_refl) as [third H3].
  exists (quote ("bedrock-" ++ string_of_Z (Date_now 0%nat))), (quote model_id),
    second, third.
  split; [reflexivity|]. split; [reflexivity|].
  split; [unfold JSON_stringify; now rewrite H2|].
  split; [unfold JSON_stringify; now rewrite H3|].
  split; [|discriminate].
  rewrite (three_frames_enqueued model_id Date_now start delta stop) by assumption.
  rewrite (sse_data_line _ _ (message_start_json _ _)),
    (sse_data_line _ _ H2), (sse_data_line _ _ H3).
  reflexivity.
Qed.

(* ================================================================== *)
(** ** The scenarios on concrete worlds *)
(* ================================================================== *)

Example encode_video :
  blockToBedrock video
  = Ok (VObj [("text", JSON_stringify video)])
  /\ String.length (template (JSON_stringify video)) = 26%nat.
Proof. split; reflexivity. Qed.


Lemma C4_end_turn_on_first_turn_witness :
  exists tr am d,
    bedrockQuery to_double None (fun _ _ => Ok (reply "end_turn")) clock "go" defaults = Some tr
    /\ notifications tr
       = [Init (modelId None defaults) (or_else (permissionMode defaults) (VStr "default"));
          UserEcho "go";
          Assistant am;
          Result (Success "Task completed via Bedrock") "success" d
                 (estimatedCost to_double (initialHistory "go" ++ [assistantEntry (reply "end_turn")]))]
    /\ requests tr = [request None defaults (initialHistory "go")].
Proof.
  apply (C4_end_turn_on_first_turn to_double None (fun _ _ => Ok (reply "end_turn")) clock "go"
           defaults (reply "end_turn")); reflexivity.
Defined.

Lemma C5_tool_use_until_cap_witness :
  exists tr r1 r2 r3 a1 a2 a3 d,
    let h0 := initialHistory "go" in
    let h1 := (h0 ++ [assistantEntry r1])%list in
    let h2 := (h1 ++ [assistantEntry r2])%list in
    let h3 := (h2 ++ [assistantEntry r3])%list in
    bedrockQuery to_double None (fun _ _ => Ok (reply "tool_use")) clock "go" (capped 3) = Some tr
    /\ notifications tr
       = [Init (modelId None (capped 3))
               (or_else (permissionMode (capped 3)) (VStr "default"));
          UserEcho "go";
          Assistant a1; Assistant a2; Assistant a3;
          Result (Success "Task completed via Bedrock") "error_max_turns" d
                 (estimatedCost to_double h3)]
    /\ diagnostics tr = [tool_use_warning; tool_use_warning; tool_use_warning]
    /\ requests tr
       = [request None (capped 3) h0; request None (capped 3) h1;
          request None (capped 3) h2].
Proof.
  apply (C5_tool_use_until_cap to_double None (fun _ _ => Ok (reply "tool_use")) clock "go" (capped 3)).
  - reflexivity.
  - intros k req. exists (reply "tool_use"). repeat split; reflexivity.
Defined.

Lemma C6_backend_error_on_first_turn_witness :
  exists tr,
    bedrockQuery to_double None (fun _ _ => Throw (mkError "Error" "boom")) clock "go" defaults = Some tr
    /\ notifications tr
       = [Init (modelId None defaults) (or_else (permissionMode defaults) (VStr "default"));
          UserEcho "go";
          Result (Failure (err_message (mkError "Error" "boom"))) "error_during_execution"
                 (clock 1 - clock 0) 0]
    /\ requests tr = [request None defaults (initialHistory "go")].
Proof.
  apply (C6_backend_error_on_first_turn to_double None (fun _ _ => Throw (mkError "Error" "boom"))
           clock "go" defaults (mkError "Error" "boom")); reflexivity.
Defined.

Lemma C10_end_turn_at_cap_reports_max_turns_witness :
  exists tr ams d c,
    bedrockQuery to_double None stops_on_second clock "go" (capped 2) = Some tr
    /\ notifications tr
       = (Init (modelId None (capped 2))
               (or_else (permissionMode (capped 2)) (VStr "default"))
          :: UserEcho "go"
          :: map Assistant ams
          ++ [Result (Success "Task completed via Bedrock") "error_max_turns" d c])%list
    /\ Z.of_nat (List.length ams) = maxTurnsOf (capped 2)
    /\ Z.of_nat (List.length (requests tr)) = maxTurnsOf (capped 2).
Proof.
  apply (C10_end_turn_at_cap_reports_max_turns to_double None stops_on_second clock "go" (capped 2)).
  - reflexivity.
  - intros k req Hk. assert (Hk1 : k = 1) by (change (1 <= k < 2) in Hk; lia). subst k.
    exists (reply "tool_use"). repeat split; reflexivity.
  - intros req. exists (reply "end_turn"). repeat split; reflexivity.
Defined.

Example run_stops_on_second :
  option_map notifications (bedrockQuery to_double None stops_on_second clock "go" (capped 2))
  = Some [Init "us.anthropic.claude-sonnet-4-20250514-v1:0" (VStr "default");
          UserEcho "go";
          Assistant
            (VObj [("type", VStr "assistant");
                   ("message",
                    VObj [("id", VStr "bedrock-1001"); ("type", VStr "message");
                          ("role", VStr "assistant");
                          ("content", VArr [Text "hi"]);
                          ("model", VStr "us.anthropic.claude-sonnet-4-20250514-v1:0");
                          ("stop_reason", VUndef);
                          ("usage", VObj [("input_tokens", VNum 0);
                                          ("output_tokens", VNum 0)])])]);
          Assistant
            (VObj [("type", VStr "assistant");
                   ("message",
                    VObj [("id", VStr "bedrock-1002"); ("type", VStr "message");
                          ("role", VStr "assistant");
                          ("content", VArr [Text "hi"]);
                          ("model", VStr "us.anthropic.claude-sonnet-4-20250514-v1:0");
                          ("stop_reason", VUndef);
                          ("usage", VObj [("input_tokens", VNum 0);
                                          ("output_tokens", VNum 0)])])]);
          Result (Success "Task completed via Bedrock") "error_max_turns" 3
                 (estimatedCost to_double
                    [mkEntry "user" (VArr [VObj [("text", VStr "go")]]);
                     mkEntry "assistant" (VArr [VObj [("text", VStr "hi")]]);
                     mkEntry "assistant" (VArr [VObj [("text", VStr "hi")]])])].
Proof. reflexivity. Qed.

Lemma C8_cost_estimate_witness :
  (forall msgs,
      (forall n, 0 <= n <= blockTokens msgs -> double (inject_Z n)) ->
      (estimatedCost to_double (transcript msgs)
       == to_double (to_double (inject_Z (blockTokens msgs) / 1000000) * 3))%Q)
  /\ (estimatedCost to_double [] == 0)%Q
  /\ (forall prefix r blocks extra,
         (estimatedCost to_double (prefix ++ [mkEntry r (VArr blocks)])
          <= estimatedCost to_double (prefix ++ [mkEntry r (VArr (blocks ++ extra))]))%Q)
  /\ (forall prefix r blocks,
         (estimatedCost to_double prefix
          <= estimatedCost to_double (prefix ++ [mkEntry r (VArr blocks)]))%Q).
Proof. apply (C8_cost_estimate to_double double). exact to_double_nearest. Defined.

(** Rounding at work: five blocks are twenty tokens, and the estimate is
    not the exact 0.00006 but the double next above it,
    6.000000000000001e-05. *)
Example cost_of_five_blocks :
  let five := transcript [("user", [Text "a"; Text "b"; Text "c"; Text "d"; Text "e"])] in
  (estimatedCost to_double five == 4427218577690293 # 73786976294838206464)%Q
  /\ ~ (estimatedCost to_double five == 3 # 50000)%Q.
Proof. split; vm_compute; [reflexivity | discriminate]. Qed.

Lemma C9_three_frames_in_order_witness :
  exists id_json model_json second third,
    JSON_stringify (VStr ("bedrock-" ++ string_of_Z (clock 0%nat))) = VStr id_json
    /\ JSON_stringify (VStr "m1") = VStr model_json
    /\ JSON_stringify
         (VObj [("type", VStr "content_block_delta"); ("index", VNum 0);
                ("delta", VObj [("type", VStr "text_delta"); ("text", VStr "Hi")])])
       = VStr second
    /\ JSON_stringify (VObj [("type", VStr "message_stop")]) = VStr third
    /\ handleStreamingResponse "m1" clock
         [Chunk (VObj [("type", VStr "message_start");
                       ("message", VObj [("role", VStr "assistant")])]);
          Chunk (VObj [("type", VStr "content_block_delta"); ("index", VNum 0);
                       ("delta", VObj [("type", VStr "text_delta"); ("text", VStr "Hi")])]);
          Chunk (VObj [("type", VStr "message_stop")])]
       = ([data_line (message_start_text id_json model_json);
           data_line second;
           data_line third],
          Closed)
    /\ "bedrock-" ++ string_of_Z (clock 0%nat) <> "".
Proof.
  apply (C9_three_frames_in_order "m1" clock
           [("type", VStr "message_start"); ("message", VObj [("role", VStr "assistant")])]
           [("type", VStr "content_block_delta"); ("index", VNum 0);
            ("delta", VObj [("type", VStr "text_delta"); ("text", VStr "Hi")])]
           [("type", VStr "message_stop")]); reflexivity.
Defined.

(** The same three frames, with the three texts spelled out. *)
Example three_frames_texts :
  handleStreamingResponse "m1" clock
    [Chunk (VObj [("type", VStr "message_start");
                  ("message", VObj [("role", VStr "assistant")])]);
     Chunk (VObj [("type", VStr "content_block_delta"); ("index", VNum 0);
                  ("delta", VObj [("type", VStr "text_delta"); ("text", VStr "Hi")])]);
     Chunk (VObj [("type", VStr "message_stop")])]
  = ([data_line (message_start_text (quoted "bedrock-1000") (quoted "m1"));
      data_line
        (String.concat ""
           ["{"; quoted "type"; ":"; quoted "content_block_delta"; ",";
            quoted "index"; ":0,";
            quoted "delta"; ":{"; quoted "type"; ":"; quoted "text_delta"; ",";
            quoted "text"; ":"; quoted "Hi"; "}}"]);
      data_line (String.concat "" ["{"; quoted "type"; ":"; quoted "message_stop"; "}"])],
     Closed).
Proof. reflexivity. Qed.

(* ================================================================== *)
(** ** Properties of provider selection and credentials *)
(* ================================================================== *)

Lemma env_or_set (v : option string) (dflt : string) :
  is_set v = true -> v = Some (env_or v dflt).
Proof.
  destruct v as [s|]; simpl; [|discriminate].
  destruct (s =? "")%string; [discriminate | reflexivity].
Qed.

(** X1: Without an explicit flag, Bedrock is selected exactly when its
    configuration validates and no Anthropic credential is set. *)
Theorem auto_detection_needs_valid_config (env : environment) :
  explicitlyEnabled env = false ->
  isBedrockEnabled env
  = succeeds (validateBedrockConfig env) && negb (hasAnthropicCreds env).
Proof.
  intros Hflag. unfold isBedrockEnabled, validateBedrockConfig, hasBedrockApiKey,
    hasAwsCredentials. rewrite Hflag.
  destruct (is_set (BEDROCK_API_KEY env)), (is_set (AWS_ACCESS_KEY_ID env)),
    (is_set (AWS_SECRET_ACCESS_KEY env)), (hasAnthropicCreds env); reflexivity.
Qed.

Lemma auto_detection_needs_valid_config_witness :
  isBedrockEnabled aws_only
  = succeeds (validateBedrockConfig aws_only) && negb (hasAnthropicCreds aws_only).
Proof. apply (auto_detection_needs_valid_config aws_only). reflexivity. Defined.

(** X2: The startup check and the creation of the query function accept the
    same environments: [validateBedrockConfig] returns normally exactly when
    [createBedrockQueryFunction] does. *)
Theorem validate_agrees_with_create (rnd : Q -> Q) (env : environment)
    (network : clientConfig -> Z -> value -> result value) (Date_now : nat -> Z) :
  succeeds (validateBedrockConfig env)
  = succeeds (createBedrockQueryFunction rnd env network Date_now).
Proof.
  unfold validateBedrockConfig, createBedrockQueryFunction, createBedrockClient.
  destruct (is_set (BEDROCK_API_KEY env)); simpl; [reflexivity|].
  destruct (is_set (AWS_ACCESS_KEY_ID env) && is_set (AWS_SECRET_ACCESS_KEY env));
    reflexivity.
Qed.

(** X3: An explicit flag selects Bedrock even with no Bedrock credential at
    all; the validation then throws, with a message that names both ways
    of authenticating, and no client can be created. *)
Theorem explicit_flag_without_credentials (env : environment) :
  explicitlyEnabled env = true ->
  hasBedrockApiKey env = false ->
  hasAwsCredentials env = false ->
  isBedrockEnabled env = true
  /\ (exists e, validateBedrockConfig env = Throw e
                /\ includes "BEDROCK_API_KEY" (err_message e) = true
                /\ includes "AWS_ACCESS_KEY_ID" (err_message e) = true)
  /\ succeeds (createBedrockClient env) = false.
Proof.
  unfold hasBedrockApiKey, hasAwsCredentials. intros Hflag Hkey Haws.
  split; [unfold isBedrockEnabled; now rewrite Hflag|].
  unfold validateBedrockConfig, createBedrockClient. rewrite Hkey, Haws.
  split; [|reflexivity].
  eexists. split; [reflexivity|]. split; reflexivity.
Qed.

Lemma explicit_flag_without_credentials_witness :
  isBedrockEnabled flag_only = true
  /\ (exists e, validateBedrockConfig flag_only = Throw e
                /\ includes "BEDROCK_API_KEY" (err_message e) = true
                /\ includes "AWS_ACCESS_KEY_ID" (err_message e) = true)
  /\ succeeds (createBedrockClient flag_only) = false.
Proof. apply (explicit_flag_without_credentials flag_only); reflexivity. Defined.

Lemma assoc_modelMap_nonempty (m id : string) :
  assoc m modelMap = Some id -> id <> "".
Proof.
  unfold modelMap. simpl.
  repeat match goal with
         | |- context [if ?c then _ else _] => destruct c
         end; intros H; inversion H; discriminate.
Qed.

(** What [assoc] finds is an entry of the table. *)
Lemma assoc_In (k id : string) (table : list (string * string)) :
  assoc k table = Some id -> In (k, id) table.
Proof.
  induction table as [|[k' v] table IH]; simpl; [discriminate|].
  destruct (String.eqb_spec k' k) as [->|_].
  - intros [= ->]. now left.
  - intros H. right. now apply IH.
Qed.

(** The names of the table are distinct: an entry is what [assoc] finds. *)
Lemma In_modelMap_assoc (k id : string) :
  In (k, id) modelMap -> assoc k modelMap = Some id.
Proof.
  unfold modelMap. simpl.
  intros H; repeat destruct H as [H | H]; try contradiction;
    inversion H; subst; reflexivity.
Qed.

(** X4: The model id the provider sends is never empty: it is the override of
    the environment when that is set; else, for a model name of the table,
    the id the table gives it; else the default id.  Model names are the
    strings that name no property inherited from [Object.prototype]. *)
Theorem provider_model_id_never_empty (override : option string) (name : option model_name) :
  getBedrockModelId override name <> ""
  /\ (is_set override = true -> Some (getBedrockModelId override name) = override)
  /\ (is_set override = false ->
      forall m id,
        name = Some m -> In (name_text m, id) modelMap ->
        getBedrockModelId override name = id)
  /\ (is_set override = false ->
      (forall m id, name = Some m -> ~ In (name_text m, id) modelMap) ->
      getBedrockModelId override name = "us.anthropic.claude-sonnet-4-20250514-v1:0").
Proof.
  set (mapped :=
         match name with
         | Some m => match assoc (name_text m) modelMap with
                     | Some id => id
                     | None => "us.anthropic.claude-sonnet-4-20250514-v1:0"
                     end
         | None => "us.anthropic.claude-sonnet-4-20250514-v1:0"
         end).
  assert (Hmapped : mapped <> "").
  { subst mapped. destruct name as [m|]; [|discriminate].
    destruct (assoc (name_text m) modelMap) as [id|] eqn:E; [|discriminate].
    now apply (assoc_modelMap_nonempty (name_text m)). }
  assert (Hunset : is_set override = false -> getBedrockModelId override name = mapped).
  { unfold getBedrockModelId. fold mapped.
    destruct override as [id|]; simpl; [|reflexivity].
    destruct (id =? "")%string; [reflexivity | discriminate]. }
  split; [|split; [|split]].
  - unfold getBedrockModelId. fold mapped.
    destruct override as [id|]; [|exact Hmapped].
    destruct (String.eqb_spec id ""); [exact Hmapped | assumption].
  - unfold getBedrockModelId. destruct override as [id|]; simpl; [|discriminate].
    destruct (id =? "")%string; [discriminate | reflexivity].
  - intros Hoff m id -> Hin. rewrite (Hunset Hoff). subst mapped.
    now rewrite (In_modelMap_assoc _ _ Hin).
  - intros Hoff Hunknown. rewrite (Hunset Hoff). subst mapped.
    destruct name as [m|]; [|reflexivity].
    destruct (assoc (name_text m) modelMap) as [id|] eqn:E; [|reflexivity].
    destruct (Hunknown m id eq_refl (assoc_In _ _ _ E)).
Qed.

(** The table at work on three names: one it holds, one it does not, and
    none at all; then under an override. *)
Example provider_model_ids :
  getBedrockModelId None (Some (mkModelName "claude-3-opus-20240229" eq_refl))
  = "anthropic.claude-3-opus-20240229-v1:0"
  /\ getBedrockModelId None (Some (mkModelName "gpt-4" eq_refl))
     = "us.anthropic.claude-sonnet-4-20250514-v1:0"
  /\ getBedrockModelId None None = "us.anthropic.claude-sonnet-4-20250514-v1:0"
  /\ getBedrockModelId (Some "my-profile")
       (Some (mkModelName "claude-3-opus-20240229" eq_refl))
     = "my-profile".
Proof. repeat split. Qed.

(* ================================================================== *)
(** ** More properties of the transcoder *)
(* ================================================================== *)

Lemma mapM_length {A B : Type} (f : A -> result B) (l : list A) (l' : list B) :
  mapM f l = Ok l' -> List.length l' = List.length l.
Proof.
  revert l'. induction l as [|a l IH]; intros l' H; simpl in H.
  - now inversion H.
  - destruct (f a) as [b|e]; simpl in H; [|discriminate].
    destruct (mapM f l) as [bs|e]; simpl in H; [|discriminate].
    inversion H; subst. simpl. f_equal. now apply IH.
Qed.

Lemma succeeds_mapM {A B : Type} (f : A -> result B) (l : list A) :
  succeeds (mapM f l) = forallb (fun a => succeeds (f a)) l.
Proof.
  induction l as [|a l IH]; simpl; [reflexivity|].
  destruct (f a) as [b|e]; simpl; [|reflexivity].
  rewrite <- IH. destruct (mapM f l); reflexivity.
Qed.

Lemma forallb_same {A : Type} (p q : A -> bool) (l : list A) :
  (forall a, p a = q a) -> forallb p l = forallb q l.
Proof.
  intros H. induction l as [|a l IH]; simpl; [reflexivity|]. now rewrite H, IH.
Qed.

Lemma get_nullish {v : value} (k : string) :
  nullish v = true -> succeeds (get v k) = false.
Proof. intros H. unfold get. now rewrite H. Qed.

Lemma is_str_eq (v : value) (lit : string) :
  is_str v lit = true -> v = VStr lit.
Proof.
  destruct v as [| | | |s| |]; simpl; try discriminate.
  intros H. apply String.eqb_eq in H. now subst.
Qed.

Lemma toolResultItem_succeeds (c : value) :
  succeeds (toolResultItem c) = negb (nullish c).
Proof.
  destruct (nullish c) eqn:Hc; simpl.
  - unfold toolResultItem, get. now rewrite Hc.
  - destruct (toolResultItem_total c Hc) as [w Hw]. now rewrite Hw.
Qed.

Lemma blockToBedrock_succeeds (b : value) :
  succeeds (blockToBedrock b) = valid_block b.
Proof.
  destruct (valid_block b) eqn:Hv.
  - destruct (blockToBedrock_total b Hv) as [w [Hw _]]. now rewrite Hw.
  - unfold valid_block in Hv. unfold blockToBedrock.
    destruct (nullish b) eqn:Hb; [unfold get; now rewrite Hb|].
    simpl in Hv. rewrite get_ok by exact Hb. simpl.
    destruct (is_str (prop b "type") "tool_result") eqn:Hty; [|discriminate].
    apply is_str_eq in Hty. rewrite Hty in *. simpl.
    unfold transformToolResultToBedrock. rewrite !get_ok by exact Hb. simpl.
    destruct (prop b "content") as [| | | | |items|]; try discriminate.
    assert (Hm : succeeds (mapM toolResultItem items) = false).
    { rewrite succeeds_mapM, <- Hv. apply forallb_same, toolResultItem_succeeds. }
    destruct (mapM toolResultItem items); [discriminate | reflexivity].
Qed.

(** X5: The encoder fails exactly on a block that is not structurally valid:
    on a message whose content is an array, it returns normally if and only
    if every block has properties and every item of a tool-result array
    has properties. *)
Theorem encode_succeeds_iff_valid (fields : list (string * value)) (blocks : list value) :
  lookup "content" fields = VArr blocks ->
  succeeds (transformMessageToBedrock (VObj fields)) = forallb valid_block blocks.
Proof.
  intros Hcontent. unfold transformMessageToBedrock. simpl. rewrite Hcontent. simpl.
  rewrite <- (forallb_same _ _ blocks blockToBedrock_succeeds), <- succeeds_mapM.
  destruct (mapM blockToBedrock blocks); reflexivity.
Qed.

Lemma encode_succeeds_iff_valid_witness :
  succeeds (transformMessageToBedrock
              (VObj [("role", VStr "user");
                     ("content", VArr [Text "a"; ToolResult "t1" [Text "ok"; VNull]])]))
  = forallb valid_block [Text "a"; ToolResult "t1" [Text "ok"; VNull]].
Proof.
  apply (encode_succeeds_iff_valid
           [("role", VStr "user");
            ("content", VArr [Text "a"; ToolResult "t1" [Text "ok"; VNull]])]).
  reflexivity.
Defined.

(** X6: A message whose content is a string goes through the encoder and the
    decoder as one Text block holding the string; an empty string comes
    back as an empty content. *)
Theorem string_content_roundtrip
    (fields : list (string * value)) (s : string) (modelId : value) (now : Z) :
  lookup "content" fields = VStr s ->
  transformMessageToBedrock (VObj fields)
  = Ok (VObj [("role", lookup "role" fields); ("content", VArr [VObj [("text", VStr s)]])])
  /\ exists d,
      roundtrip (VObj fields) modelId now = Ok d
      /\ decoded_content d = VArr (if (s =? "")%string then [] else [Text s]).
Proof.
  intros Hcontent.
  assert (Hencode : transformMessageToBedrock (VObj fields)
                    = Ok (VObj [("role", lookup "role" fields);
                                ("content", VArr [VObj [("text", VStr s)]])])).
  { unfold transformMessageToBedrock. simpl. now rewrite Hcontent. }
  split; [exact Hencode|].
  unfold roundtrip. rewrite Hencode. simpl.
  unfold transformBedrockMessage, blockFromBedrock. simpl.
  destruct (s =? "")%string; simpl; eexists; split; reflexivity.
Qed.

Lemma string_content_roundtrip_witness :
  transformMessageToBedrock (VObj [("role", VStr "user"); ("content", VStr "hello")])
  = Ok (VObj [("role", lookup "role" [("role", VStr "user"); ("content", VStr "hello")]);
              ("content", VArr [VObj [("text", VStr "hello")]])])
  /\ exists d,
      roundtrip (VObj [("role", VStr "user"); ("content", VStr "hello")]) (VStr "m") 0 = Ok d
      /\ decoded_content d
         = VArr (if ("hello" =? "")%string then [] else [Text "hello"]).
Proof.
  apply (string_content_roundtrip [("role", VStr "user"); ("content", VStr "hello")]
           "hello" (VStr "m") 0).
  reflexivity.
Defined.

(** X7: A message whose content is not an array is never rejected: it is
    encoded as exactly one text block, holding the content itself when it
    is a string and its JSON serialization otherwise (which is [undefined]
    for a missing content). *)
Theorem non_array_content_is_one_text_block (message : value) :
  nullish message = false ->
  (forall blocks, prop message "content" <> VArr blocks) ->
  transformMessageToBedrock message
  = Ok (VObj [("role", prop message "role");
              ("content",
               VArr [VObj [("text",
                            if typeof_string (prop message "content")
                            then prop message "content"
                            else JSON_stringify (prop message "content"))]])]).
Proof.
  intros Hm Hnot. unfold transformMessageToBedrock.
  rewrite !get_ok by exact Hm. simpl.
  destruct (prop message "content") as [| | | | |blocks|] eqn:E; try reflexivity.
  now destruct (Hnot blocks).
Qed.

Lemma non_array_content_is_one_text_block_witness :
  transformMessageToBedrock (VObj [("role", VStr "user"); ("content", VNum 7)])
  = Ok (VObj [("role", prop (VObj [("role", VStr "user"); ("content", VNum 7)]) "role");
              ("content",
               VArr [VObj [("text",
                            if typeof_string
                                 (prop (VObj [("role", VStr "user"); ("content", VNum 7)])
                                       "content")
                            then prop (VObj [("role", VStr "user"); ("content", VNum 7)])
                                      "content"
                            else JSON_stringify
                                   (prop (VObj [("role", VStr "user"); ("content", VNum 7)])
                                         "content"))]])]).
Proof.
  apply (non_array_content_is_one_text_block
           (VObj [("role", VStr "user"); ("content", VNum 7)])).
  - reflexivity.
  - intros blocks. discriminate.
Defined.

Lemma blockFromBedrock_succeeds (b : value) :
  succeeds (blockFromBedrock b) = negb (nullish b).
Proof.
  destruct (nullish b) eqn:Hb; simpl.
  - unfold blockFromBedrock, get. now rewrite Hb.
  - now rewrite blockFromBedrock_decoded_as.
Qed.

Lemma chars_have_properties (s : string) :
  forallb (fun b => negb (nullish b)) (chars s) = true.
Proof. induction s as [|c s IH]; simpl; [reflexivity | exact IH]. Qed.

(** X8: The decoder fails exactly when the message has no properties, when its
    content is truthy but neither an array nor a string, or when an element
    of the content array has no properties; the model id and the clock
    play no part. *)
Theorem decode_succeeds_iff_decodable (m modelId : value) (now : Z) :
  succeeds (transformBedrockMessage m modelId now) = decodable m.
Proof.
  unfold transformBedrockMessage, decodable.
  destruct (nullish m) eqn:Hm; [unfold get; now rewrite Hm|].
  rewrite get_ok by exact Hm. simpl.
  assert (Hloop : forall blocks,
             succeeds (pushed <- mapM blockFromBedrock blocks ;;
                       Ok (List.concat pushed))
             = forallb (fun b => negb (nullish b)) blocks).
  { intros blocks.
    rewrite <- (forallb_same _ _ blocks blockFromBedrock_succeeds), <- succeeds_mapM.
    destruct (mapM blockFromBedrock blocks); reflexivity. }
  destruct (prop m "content") as [| |b|n|s|blocks|fields]; simpl; try reflexivity.
  - destruct b; reflexivity.
  - destruct (n =? 0); reflexivity.
  - destruct (s =? "")%string; simpl; [reflexivity|].
    specialize (Hloop (chars s)). rewrite chars_have_properties in Hloop.
    destruct (mapM blockFromBedrock (chars s)); [reflexivity | discriminate].
  - specialize (Hloop blocks).
    destruct (mapM blockFromBedrock blocks); simpl in *; exact Hloop.
Qed.

(** X9: Every decoded message is an assistant message of the given model,
    with an id that is truthy (the one received, or [bedrock-] and the
    clock reading), a content array, and token counters that are the ones
    received or 0. *)
Theorem decoded_message_envelope (m modelId d : value) (now : Z) :
  transformBedrockMessage m modelId now = Ok d ->
  prop d "type" = VStr "assistant"
  /\ decoded_role d = VStr "assistant"
  /\ prop (prop d "message") "model" = modelId
  /\ truthy (prop (prop d "message") "id") = true
  /\ (exists blocks, decoded_content d = VArr blocks)
  /\ prop (prop (prop d "message") "usage") "input_tokens"
     = or_else (optget (prop m "usage") "inputTokens") (VNum 0)
  /\ prop (prop (prop d "message") "usage") "output_tokens"
     = or_else (optget (prop m "usage") "outputTokens") (VNum 0).
Proof.
  unfold transformBedrockMessage. intros H.
  destruct (get m "content") as [c|e]; simpl in H; [|discriminate].
  match type of H with
  | bind ?body _ = _ => destruct body as [content|e]; simpl in H; [|discriminate]
  end.
  inversion H; subst d; clear H. unfold decoded_role, decoded_content. simpl.
  repeat split; try reflexivity.
  - unfold or_else. destruct (truthy (prop m "id")) eqn:Hid; [exact Hid | reflexivity].
  - eauto.
Qed.

Lemma decoded_message_envelope_witness :
  exists d,
    transformBedrockMessage
      (VObj [("content", VArr [VObj [("text", VStr "hi")]]);
             ("usage", VObj [("inputTokens", VNum 12)])])
      (VStr "m") 5 = Ok d
    /\ prop d "type" = VStr "assistant"
    /\ decoded_role d = VStr "assistant"
    /\ prop (prop d "message") "model" = VStr "m"
    /\ truthy (prop (prop d "message") "id") = true
    /\ (exists blocks, decoded_content d = VArr blocks)
    /\ prop (prop (prop d "message") "usage") "input_tokens"
       = or_else (optget (prop (VObj [("content", VArr [VObj [("text", VStr "hi")]]);
                                      ("usage", VObj [("inputTokens", VNum 12)])]) "usage")
                         "inputTokens") (VNum 0)
    /\ prop (prop (prop d "message") "usage") "output_tokens"
       = or_else (optget (prop (VObj [("content", VArr [VObj [("text", VStr "hi")]]);
                                      ("usage", VObj [("inputTokens", VNum 12)])]) "usage")
                         "outputTokens") (VNum 0).
Proof.
  eexists. split; [reflexivity|].
  apply (decoded_message_envelope
           (VObj [("content", VArr [VObj [("text", VStr "hi")]]);
                  ("usage", VObj [("inputTokens", VNum 12)])]) (VStr "m") _ 5).
  reflexivity.
Defined.

(** X10: An encoded tool result keeps the id of the tool use it answers, and
    has one item per item of the original content array, or exactly one
    text item when the original content is not an array. *)
Theorem tool_result_keeps_id_and_items (toolResult w : value) :
  transformToolResultToBedrock toolResult = Ok w ->
  prop w "toolUseId" = prop toolResult "tool_use_id"
  /\ exists items',
      prop w "content" = VArr items'
      /\ List.length items'
         = match prop toolResult "content" with
           | VArr items => List.length items
           | _ => 1%nat
           end.
Proof.
  unfold transformToolResultToBedrock, get. intros H.
  destruct (nullish toolResult); simpl in H; [discriminate|].
  destruct (prop toolResult "content") as [| | | | |items|] eqn:E; simpl in H;
    try (inversion H; subst w; simpl; split; [reflexivity|]; eexists;
         split; reflexivity).
  destruct (mapM toolResultItem items) as [items'|e] eqn:Hitems; simpl in H; [|discriminate].
  inversion H; subst w. simpl. split; [reflexivity|].
  exists items'. split; [reflexivity|]. now apply (mapM_length toolResultItem).
Qed.

Lemma tool_result_keeps_id_and_items_witness :
  exists w,
    transformToolResultToBedrock (ToolResult "t1" [Text "ok"; Image "png" "AAAA"; video]) = Ok w
    /\ prop w "toolUseId" = prop (ToolResult "t1" [Text "ok"; Image "png" "AAAA"; video])
                                  "tool_use_id"
    /\ exists items',
        prop w "content" = VArr items'
        /\ List.length items'
           = match prop (ToolResult "t1" [Text "ok"; Image "png" "AAAA"; video]) "content" with
             | VArr items => List.length items
             | _ => 1%nat
             end.
Proof.
  eexists. split; [reflexivity|].
  apply (tool_result_keeps_id_and_items
           (ToolResult "t1" [Text "ok"; Image "png" "AAAA"; video])).
  reflexivity.
Defined.

(** X11: An image block is encoded whatever its [source] holds: the format is
    the source's [type] when that is truthy and [png] otherwise, so it is
    never missing; the bytes are the source's [data], or else its [bytes]. *)
Theorem image_format_defaults_to_png (b : value) :
  nullish b = false ->
  exists format,
    imageToBedrock b
    = Ok (VObj [("image",
                 VObj [("format", format);
                       ("source",
                        VObj [("bytes",
                               or_else (optget (prop b "source") "data")
                                       (optget (prop b "source") "bytes"))])])])
    /\ truthy format = true
    /\ (truthy (optget (prop b "source") "type") = false -> format = VStr "png")
    /\ (truthy (optget (prop b "source") "type") = true ->
        format = optget (prop b "source") "type").
Proof.
  intros Hb. unfold imageToBedrock. rewrite get_ok by exact Hb. simpl.
  eexists. split; [reflexivity|]. unfold or_else.
  destruct (truthy (optget (prop b "source") "type")) eqn:Hty.
  - repeat split; [exact Hty | discriminate].
  - repeat split; discriminate.
Qed.

Lemma image_format_defaults_to_png_witness :
  exists format,
    imageToBedrock (VObj [("type", VStr "image")])
    = Ok (VObj [("image",
                 VObj [("format", format);
                       ("source",
                        VObj [("bytes",
                               or_else (optget (prop (VObj [("type", VStr "image")]) "source")
                                               "data")
                                       (optget (prop (VObj [("type", VStr "image")]) "source")
                                               "bytes"))])])])
    /\ truthy format = true
    /\ (truthy (optget (prop (VObj [("type", VStr "image")]) "source") "type") = false ->
        format = VStr "png")
    /\ (truthy (optget (prop (VObj [("type", VStr "image")]) "source") "type") = true ->
        format = optget (prop (VObj [("type", VStr "image")]) "source") "type").
Proof.
  apply (image_format_defaults_to_png (VObj [("type", VStr "image")])). reflexivity.
Defined.

(* ================================================================== *)
(** ** More properties of the conversation driver *)
(* ================================================================== *)

Lemma requests_warnings (response : value) : requests (warnings response) = [].
Proof.
  unfold warnings.
  destruct (is_str _ "tool_use"), (is_str _ "max_tokens"); reflexivity.
Qed.

Section DriverInvariants.

Variable rnd : Q -> Q.
Variable env_BEDROCK_MODEL_ID : option string.
Variable send : Z -> value -> result value.
Variable Date_now : nat -> Z.
Variable prompt : string.
Variable opts : options.

Local Abbreviation cap := (maxTurnsOf opts).
Local Abbreviation run := (loop rnd env_BEDROCK_MODEL_ID send Date_now opts).
Local Abbreviation ask := (request env_BEDROCK_MODEL_ID opts).
Local Abbreviation try_turn := (attempt env_BEDROCK_MODEL_ID send Date_now opts).

(** A reply that is not well formed ends in the [catch] block. *)
Lemma attempt_malformed (turnCount : Z) (h : list entry) (reads : nat) (response : value) :
  send turnCount (ask h) = Ok response ->
  well_formed response = false ->
  exists e, try_turn turnCount h reads = Throw e.
Proof.
  intros Hsend Hwf. unfold attempt. rewrite Hsend. simpl.
  unfold well_formed in Hwf.
  destruct (nullish response) eqn:Hn.
  - unfold get. rewrite Hn. simpl. eauto.
  - simpl in Hwf. rewrite get_ok by exact Hn. simpl.
    rewrite decode_succeeds_iff_decodable in Hwf.
    rewrite <- (decode_succeeds_iff_decodable _
                  (VStr (modelId env_BEDROCK_MODEL_ID opts)) (Date_now reads)) in Hwf.
    destruct (transformBedrockMessage _ _ _) as [am|e]; simpl in *; [discriminate | eauto].
Qed.

(** What a run of the loop yields and sends, from any state of its
    variables: either it ends by the success result, with one assistant
    message per request and the subtype read off the turn counter, or it
    ends in the [catch] block, the last request having yielded nothing. *)
Lemma loop_outcome (fuel : nat) :
  forall (turnCount : Z) (h : list entry) (reads : nat),
    (Z.to_nat (cap - turnCount) <= fuel)%nat ->
    exists tr ams r,
      run fuel turnCount h reads = Some tr
      /\ notifications tr = (map Assistant ams ++ [r])%list
      /\ turnCount + Z.of_nat (List.length (requests tr)) <= Z.max turnCount cap
      /\ ((exists d c,
             r = Result (Success "Task completed via Bedrock")
                   (if turnCount + Z.of_nat (List.length (requests tr)) >=? cap
                    then "error_max_turns" else "success") d c
             /\ List.length (requests tr) = List.length ams)
          \/ (exists e d,
                r = Result (Failure (err_message e)) "error_during_execution" d 0
                /\ List.length (requests tr) = S (List.length ams))).
Proof.
  induction fuel as [|fuel IH]; intros turnCount h reads Hfuel.
  - exists (finish rnd Date_now opts turnCount h reads), []. eexists.
    split; [apply loop_exit; lia|]. split; [reflexivity|]. simpl.
    split; [lia|]. left. do 2 eexists. rewrite Z.add_0_r. split; reflexivity.
  - destruct (Z.lt_ge_cases turnCount cap) as [Hlt|Hge].
    2:{ exists (finish rnd Date_now opts turnCount h reads), []. eexists.
        split; [now apply loop_exit|]. split; [reflexivity|]. simpl.
        split; [lia|]. left. do 2 eexists. rewrite Z.add_0_r. split; reflexivity. }
    destruct (try_turn (turnCount + 1) h reads) as [[[response am] reads']|e] eqn:Htry.
    + destruct (natural_stop response) eqn:Hstop.
      * eexists. exists [am]. eexists.
        split; [eapply loop_break; eauto|]. split; [reflexivity|]. simpl.
        split; [lia|]. left. do 2 eexists. split; reflexivity.
      * destruct (IH (turnCount + 1) (h ++ [assistantEntry response])%list reads')
          as (tr & ams & r & Hrun & Hn & Hbound & Hr); [lia|].
        eexists. exists (am :: ams), r.
        split; [erewrite loop_continue by eauto; rewrite Hrun; reflexivity|].
        simpl. rewrite notifications_app, notifications_warnings, Hn.
        rewrite requests_app, requests_warnings. simpl.
        split; [reflexivity|]. split; [lia|].
        replace (turnCount + Z.pos (Pos.of_succ_nat (List.length (requests tr))))
          with (turnCount + 1 + Z.of_nat (List.length (requests tr))) by lia.
        destruct Hr as [(d & c & Hr & Hlen) | (e & d & Hr & Hlen)].
        -- left. exists d, c. split; [exact Hr | now rewrite Hlen].
        -- right. exists e, d. split; [exact Hr | now rewrite Hlen].
    + eexists. exists []. eexists.
      split; [eapply loop_fail; eauto|]. split; [reflexivity|]. simpl.
      split; [lia|]. right. do 2 eexists. split; reflexivity.
Qed.

(** X12: The turn budget is never exceeded: a run sends at most [maxTurns]
    requests (none when the cap is negative), whatever the service
    answers. *)
Theorem requests_within_budget :
  exists tr,
    bedrockQuery rnd env_BEDROCK_MODEL_ID send Date_now prompt opts = Some tr
    /\ Z.of_nat (List.length (requests tr)) <= Z.max 0 (maxTurnsOf opts).
Proof.
  destruct (loop_outcome (Z.to_nat cap) 0 (initialHistory prompt) 1%nat)
    as (tr & ams & r & Hrun & _ & Hbound & _); [lia|].
  eexists. unfold bedrockQuery. rewrite Hrun. split; [reflexivity|].
  simpl. lia.
Qed.

(** X13: How a run ends.  Either the last notification is the success result,
    every request has yielded one Assistant notification, and the subtype
    is [error_max_turns] exactly when the number of requests reached the
    cap; or it is the failure result with subtype [error_during_execution]
    and cost zero, and the last request yielded no Assistant. *)
Theorem result_classification :
  exists tr ams r,
    bedrockQuery rnd env_BEDROCK_MODEL_ID send Date_now prompt opts = Some tr
    /\ notifications tr
       = (Init (modelId env_BEDROCK_MODEL_ID opts)
               (or_else (permissionMode opts) (VStr "default"))
          :: UserEcho prompt :: map Assistant ams ++ [r])%list
    /\ ((exists d c,
           r = Result (Success "Task completed via Bedrock")
                 (if Z.of_nat (List.length (requests tr)) >=? maxTurnsOf opts
                  then "error_max_turns" else "success") d c
           /\ List.length (requests tr) = List.length ams)
        \/ (exists e d,
              r = Result (Failure (err_message e)) "error_during_execution" d 0
              /\ List.length (requests tr) = S (List.length ams))).
Proof.
  destruct (loop_outcome (Z.to_nat cap) 0 (initialHistory prompt) 1%nat)
    as (tr & ams & r & Hrun & Hn & _ & Hr); [lia|].
  eexists. exists ams, r. unfold bedrockQuery. rewrite Hrun.
  split; [reflexivity|]. simpl. rewrite Hn. split; [reflexivity|]. exact Hr.
Qed.

(** X14: With a negative cap the loop is never entered: no request is sent, and
    the run still reports success, with the subtype [error_max_turns] and
    the cost of the prompt alone. *)
Theorem negative_cap_sends_nothing (n : Z) :
  maxTurns opts = Some n ->
  n < 0 ->
  bedrockQuery rnd env_BEDROCK_MODEL_ID send Date_now prompt opts
  = Some [Yield (Init (modelId env_BEDROCK_MODEL_ID opts)
                      (or_else (permissionMode opts) (VStr "default")));
          Yield (UserEcho prompt);
          Yield (Result (Success "Task completed via Bedrock") "error_max_turns"
                        (Date_now 1%nat - Date_now 0%nat)
                        (estimatedCost rnd (initialHistory prompt)))].
Proof.
  intros Hmax Hneg.
  assert (Hcap : cap = n).
  { unfold maxTurnsOf. rewrite Hmax. destruct (Z.eqb_spec n 0); [lia | reflexivity]. }
  unfold bedrockQuery. rewrite loop_exit by lia.
  unfold finish. rewrite Hcap. simpl.
  destruct (Z.geb_spec 0 n); [reflexivity | lia].
Qed.

(** X15: A reply that cannot be decoded is reported like a failed call: when
    the first reply is not well formed, the run yields Init, UserEcho and
    the failure result, with no Assistant notification, and stops after
    that one request. *)
Theorem malformed_reply_is_a_failure (response : value) :
  0 < maxTurnsOf opts ->
  send 1 (request env_BEDROCK_MODEL_ID opts (initialHistory prompt)) = Ok response ->
  well_formed response = false ->
  exists tr e,
    bedrockQuery rnd env_BEDROCK_MODEL_ID send Date_now prompt opts = Some tr
    /\ notifications tr
       = [Init (modelId env_BEDROCK_MODEL_ID opts)
               (or_else (permissionMode opts) (VStr "default"));
          UserEcho prompt;
          Result (Failure (err_message e)) "error_during_execution"
                 (Date_now 1%nat - Date_now 0%nat) 0]
    /\ requests tr = [request env_BEDROCK_MODEL_ID opts (initialHistory prompt)].
Proof.
  intros Hcap Hsend Hwf.
  destruct (attempt_malformed (0 + 1) (initialHistory prompt) 1%nat response Hsend Hwf)
    as [e Htry].
  unfold bedrockQuery.
  replace (Z.to_nat cap) with (S (Z.to_nat (cap - 1))) by lia.
  erewrite loop_fail; [ | lia | exact Htry ].
  eexists. exists e. split; [reflexivity|]. split; reflexivity.
Qed.

(** X16: Without a natural stop the budget is used up: when the cap is positive
    and every reply is well formed with a stop reason other than
    [end_turn] and [stop_sequence] ([tool_use], [max_tokens] or any other),
    the run sends exactly [maxTurns] requests, yields as many Assistant
    notifications, and ends with success and the subtype
    [error_max_turns]. *)
Theorem no_natural_stop_uses_the_budget :
  0 < maxTurnsOf opts ->
  (forall k req, exists response,
      send k req = Ok response
      /\ well_formed response = true
      /\ natural_stop response = false) ->
  exists tr ams d c,
    bedrockQuery rnd env_BEDROCK_MODEL_ID send Date_now prompt opts = Some tr
    /\ notifications tr
       = (Init (modelId env_BEDROCK_MODEL_ID opts)
               (or_else (permissionMode opts) (VStr "default"))
          :: UserEcho prompt
          :: map Assistant ams
          ++ [Result (Success "Task completed via Bedrock") "error_max_turns" d c])%list
    /\ Z.of_nat (List.length ams) = maxTurnsOf opts
    /\ Z.of_nat (List.length (requests tr)) = maxTurnsOf opts.
Proof.
  intros Hcap Hreply.
  assert (Hloop : forall fuel turnCount h reads,
             0 <= turnCount <= cap ->
             (Z.to_nat (cap - turnCount) <= fuel)%nat ->
             exists tr ams d c,
               run fuel turnCount h reads = Some tr
               /\ notifications tr
                  = (map Assistant ams
                       ++ [Result (Success "Task completed via Bedrock")
                                  "error_max_turns" d c])%list
               /\ List.length ams = Z.to_nat (cap - turnCount)
               /\ List.length (requests tr) = Z.to_nat (cap - turnCount)).
  { induction fuel as [|fuel IH]; intros turnCount h reads Hrange Hfuel.
    - exists (finish rnd Date_now opts turnCount h reads), []. do 2 eexists.
      split; [apply loop_exit; lia|]. unfold finish.
      destruct (Z.geb_spec turnCount cap); [|lia].
      split; [reflexivity|]. split; simpl; lia.
    - destruct (Z.eq_dec turnCount cap) as [Heq|Hne].
      + exists (finish rnd Date_now opts turnCount h reads), []. do 2 eexists.
        split; [apply loop_exit; lia|]. unfold finish.
        destruct (Z.geb_spec turnCount cap); [|lia].
        split; [reflexivity|]. split; simpl; lia.
      + destruct (Hreply (turnCount + 1) (ask h)) as (response & Hsend & Hwf & Hstop).
        destruct (attempt_reply env_BEDROCK_MODEL_ID send Date_now opts
                    (turnCount + 1) h reads response Hsend Hwf) as (am & reads' & Htry).
        destruct (IH (turnCount + 1) (h ++ [assistantEntry response])%list reads')
          as (tr & ams & d & c & Hrun & Hn & Hlen & Hreq); [lia | lia |].
        eexists. exists (am :: ams), d, c. split; [|split; [|split]].
        * erewrite loop_continue by (try eassumption; lia). rewrite Hrun. reflexivity.
        * simpl. rewrite notifications_app, notifications_warnings, Hn. reflexivity.
        * simpl. lia.
        * simpl. rewrite requests_app, requests_warnings. simpl. lia. }
  destruct (Hloop (Z.to_nat cap) 0 (initialHistory prompt) 1%nat)
    as (tr & ams & d & c & Hrun & Hn & Hlen & Hreq); [lia | lia |].
  eexists. exists ams, d, c. unfold bedrockQuery. rewrite Hrun.
  split; [reflexivity|]. simpl. rewrite Hn. split; [reflexivity|]. split; lia.
Qed.

Lemma attempt_sent (turnCount : Z) (h : list entry) (reads reads' : nat)
    (response am : value) :
  try_turn turnCount h reads = Ok (response, am, reads') ->
  send turnCount (ask h) = Ok response.
Proof.
  unfold attempt. intros H.
  destruct (send turnCount _) as [r|e]; simpl in H; [|discriminate].
  unfold get in H. destruct (nullish r); simpl in H; [discriminate|].
  destruct (transformBedrockMessage _ _ _) as [a|e]; simpl in H; [|discriminate].
  now inversion H.
Qed.

Lemma request_messages (h : list entry) :
  prop (ask h) "messages"
  = VArr (map (fun m => VObj [("role", VStr (role m)); ("content", content m)]) h).
Proof. reflexivity. Qed.

Lemma loop_carries (fuel : nat) :
  forall (turnCount : Z) (h : list entry) (reads : nat),
    (Z.to_nat (cap - turnCount) <= fuel)%nat ->
    exists tr,
      run fuel turnCount h reads = Some tr
      /\ carries send (turnCount + 1) h (requests tr).
Proof.
  induction fuel as [|fuel IH]; intros turnCount h reads Hfuel.
  - exists (finish rnd Date_now opts turnCount h reads).
    split; [apply loop_exit; lia | constructor].
  - destruct (Z.lt_ge_cases turnCount cap) as [Hlt|Hge].
    2:{ exists (finish rnd Date_now opts turnCount h reads).
        split; [now apply loop_exit | constructor]. }
    destruct (try_turn (turnCount + 1) h reads) as [[[response am] reads']|e] eqn:Htry.
    + destruct (natural_stop response) eqn:Hstop.
      * eexists. split; [eapply loop_break; eauto|].
        simpl. apply carries_last, request_messages.
      * destruct (IH (turnCount + 1) (h ++ [assistantEntry response])%list reads')
          as (tr & Hrun & Hcarries); [lia|].
        eexists.
        split; [erewrite loop_continue by eauto; rewrite Hrun; reflexivity|].
        simpl. rewrite requests_app, requests_warnings. simpl.
        eapply carries_next;
          [apply request_messages | exact (attempt_sent _ _ _ _ _ _ Htry) | exact Hcarries].
    + eexists. split; [eapply loop_fail; eauto|].
      simpl. apply carries_last, request_messages.
Qed.

(** X17: The transcript is append-only and is sent whole each time: the
    [messages] of the first request are the user's prompt alone, as one
    text block; the [messages] of each later request are those of the
    request before it, in order, followed by one assistant message whose
    content is the content of the reply that request got. *)
Theorem requests_carry_growing_history :
  exists tr,
    bedrockQuery rnd env_BEDROCK_MODEL_ID send Date_now prompt opts = Some tr
    /\ carries send 1 [mkEntry "user" (VArr [VObj [("text", VStr prompt)]])] (requests tr).
Proof.
  destruct (loop_carries (Z.to_nat cap) 0 (initialHistory prompt) 1%nat)
    as (tr & Hrun & Hcarries); [lia|].
  eexists. unfold bedrockQuery. rewrite Hrun.
  split; [reflexivity | exact Hcarries].
Qed.

End DriverInvariants.

Lemma negative_cap_sends_nothing_witness :
  bedrockQuery to_double None (fun _ _ => Ok (reply "end_turn")) clock "go" (capped (-1))
  = Some [Yield (Init (modelId None (capped (-1)))
                      (or_else (permissionMode (capped (-1))) (VStr "default")));
          Yield (UserEcho "go");
          Yield (Result (Success "Task completed via Bedrock") "error_max_turns"
                        (clock 1%nat - clock 0%nat)
                        (estimatedCost to_double (initialHistory "go")))].
Proof.
  apply (negative_cap_sends_nothing to_double None (fun _ _ => Ok (reply "end_turn")) clock "go"
           (capped (-1)) (-1)); reflexivity.
Defined.

Lemma malformed_reply_is_a_failure_witness :
  exists tr e,
    bedrockQuery to_double None (fun _ _ => Ok bare_reply) clock "go" defaults = Some tr
    /\ notifications tr
       = [Init (modelId None defaults) (or_else (permissionMode defaults) (VStr "default"));
          UserEcho "go";
          Result (Failure (err_message e)) "error_during_execution"
                 (clock 1%nat - clock 0%nat) 0]
    /\ requests tr = [request None defaults (initialHistory "go")].
Proof.
  apply (malformed_reply_is_a_failure to_double None (fun _ _ => Ok bare_reply) clock "go" defaults
           bare_reply); reflexivity.
Defined.

Lemma no_natural_stop_uses_the_budget_witness :
  exists tr ams d c,
    bedrockQuery to_double None (fun _ _ => Ok truncated_reply) clock "go" (capped 4) = Some tr
    /\ notifications tr
       = (Init (modelId None (capped 4))
               (or_else (permissionMode (capped 4)) (VStr "default"))
          :: UserEcho "go"
          :: map Assistant ams
          ++ [Result (Success "Task completed via Bedrock") "error_max_turns" d c])%list
    /\ Z.of_nat (List.length ams) = maxTurnsOf (capped 4)
    /\ Z.of_nat (List.length (requests tr)) = maxTurnsOf (capped 4).
Proof.
  apply (no_natural_stop_uses_the_budget to_double None (fun _ _ => Ok truncated_reply) clock "go"
           (capped 4)).
  - reflexivity.
  - intros k req. exists truncated_reply. repeat split; reflexivity.
Defined.

(** The reply with no [output] fails in the decoder, on the [content] of a
    message that is [undefined]. *)
Example bare_reply_error_text :
  option_map notifications (bedrockQuery to_double None (fun _ _ => Ok bare_reply) clock "go" defaults)
  = Some [Init "us.anthropic.claude-sonnet-4-20250514-v1:0" (VStr "default");
          UserEcho "go";
          Result (Failure "Cannot read properties of undefined (reading 'content')")
                 "error_during_execution" 1 0].
Proof. reflexivity. Qed.

(* ================================================================== *)
(** ** More properties of the streaming reassembler *)
(* ================================================================== *)

Section ValueInduction.

Variable P : value -> Prop.
Hypothesis P_undef : P VUndef.
Hypothesis P_null : P VNull.
Hypothesis P_bool : forall b, P (VBool b).
Hypothesis P_num : forall n, P (VNum n).
Hypothesis P_str : forall s, P (VStr s).
Hypothesis P_arr : forall items, Forall P items -> P (VArr items).
Hypothesis P_obj : forall fields, Forall (fun kv => P (snd kv)) fields -> P (VObj fields).

(** Induction on values that reaches into arrays and objects. *)
Fixpoint value_induction (v : value) : P v :=
  match v with
  | VUndef => P_undef
  | VNull => P_null
  | VBool b => P_bool b
  | VNum n => P_num n
  | VStr s => P_str s
  | VArr items =>
      P_arr items
        ((fix all (l : list value) : Forall P l :=
            match l with
            | [] => Forall_nil P
            | x :: l' => Forall_cons x (value_induction x) (all l')
            end) items)
  | VObj fields =>
      P_obj fields
        ((fix all (l : list (string * value)) : Forall (fun kv => P (snd kv)) l :=
            match l with
            | [] => Forall_nil _
            | kv :: l' => Forall_cons kv (value_induction (snd kv)) (all l')
            end) fields)
  end.

End ValueInduction.

Lemma printable_app (a b : string) :
  printable (a ++ b) = printable a && printable b.
Proof.
  induction a as [|c a IH]; simpl; [reflexivity|].
  rewrite IH. now rewrite andb_assoc.
Qed.

Lemma printable_escape_char (c : ascii) : printable (escape_char c) = true.
Proof.
  destruct c as [[] [] [] [] [] [] [] []]; reflexivity.
Qed.

Lemma printable_escape (s : string) : printable (escape s) = true.
Proof.
  induction s as [|c s IH]; [reflexivity|].
  cbn [escape]. now rewrite printable_app, printable_escape_char, IH.
Qed.

Lemma printable_quote (s : string) : printable (quote s) = true.
Proof.
  unfold quote. cbn [printable]. rewrite printable_app, printable_escape. reflexivity.
Qed.

Lemma printable_uint (d : Decimal.uint) :
  printable (NilEmpty.string_of_uint d) = true.
Proof. induction d; simpl; auto. Qed.

Lemma printable_string_of_Z (n : Z) : printable (string_of_Z n) = true.
Proof.
  unfold string_of_Z, NilZero.string_of_int, NilZero.string_of_uint.
  destruct (Z.to_int n) as [d|d]; destruct d; simpl;
    try reflexivity; apply printable_uint.
Qed.

Lemma printable_join (parts : list string) :
  Forall (fun p => printable p = true) parts -> printable (join "," parts) = true.
Proof.
  induction 1 as [|p parts Hp Hparts IH]; simpl; [reflexivity|].
  destruct parts as [|p' parts']; [exact Hp|].
  rewrite printable_app, Hp. simpl. exact IH.
Qed.

Lemma printable_member (k sx : string) :
  printable sx = true -> printable (quote k ++ ":" ++ sx) = true.
Proof.
  intros H. rewrite !printable_app, printable_quote, H. reflexivity.
Qed.

(** The JSON text of a value holds no control character: inside strings
    they are written as escapes. *)
Lemma serialize_printable (v : value) :
  forall j, serialize v = Some j -> printable j = true.
Proof.
  induction v as [| |b|n|s|items IH|fields IH] using value_induction;
    intros j Hj; simpl in Hj; try discriminate.
  - inversion Hj. reflexivity.
  - destruct b; inversion Hj; reflexivity.
  - inversion Hj. apply printable_string_of_Z.
  - inversion Hj. apply printable_quote.
  - inversion Hj; subst j; clear Hj.
    cbn [printable]. rewrite printable_app. simpl. rewrite andb_true_r.
    apply printable_join.
    induction IH as [|x items Hx _ IHitems]; simpl; [constructor|].
    constructor; [|exact IHitems].
    destruct (serialize x) as [sx|]; [now apply Hx | reflexivity].
  - inversion Hj; subst j; clear Hj.
    cbn [printable]. rewrite printable_app. simpl. rewrite andb_true_r.
    apply printable_join.
    induction IH as [|[k x] fields Hx _ IHfields]; simpl; [constructor|].
    simpl in Hx. destruct (serialize x) as [sx|]; [|exact IHfields].
    constructor; [|exact IHfields].
    apply (printable_member k sx). now apply Hx.
Qed.

Section ReassemblerProperties.

Variable model_id : string.
Variable Date_now : nat -> Z.

Local Abbreviation pump' := (pump model_id Date_now).

Lemma pump_cons_chunk (reads : nat) (chunk : value) (rest : list frame) :
  nullish chunk = false ->
  exists reads',
    pump' reads (Chunk chunk :: rest)
    = (if enqueued (Chunk chunk)
       then let (queued, ending) := pump' reads' rest in
            (sse (if is_str (prop chunk "type") "message_start"
                  then anthropicChunk model_id (Date_now reads) chunk
                  else chunk) :: queued, ending)
       else pump' reads' rest).
Proof.
  intros Hc. simpl. unfold transformChunk, forwarded. rewrite get_ok by exact Hc. simpl.
  destruct (is_str (prop chunk "type") "message_start"); simpl; [eauto|].
  destruct (is_str (prop chunk "type") "content_block_start"); simpl; [eauto|].
  destruct (is_str (prop chunk "type") "content_block_delta"); simpl; [eauto|].
  destruct (is_str (prop chunk "type") "content_block_stop"); simpl; [eauto|].
  destruct (is_str (prop chunk "type") "message_delta"); simpl; [eauto|].
  destruct (is_str (prop chunk "type") "message_stop"); simpl; eauto.
Qed.

Lemma pump_harmless (body : list frame) :
  forallb harmless body = true ->
  forall reads,
    exists queued,
      pump' reads body = (queued, Closed)
      /\ List.length queued = List.length (filter enqueued body).
Proof.
  induction body as [|f body IH]; intros Hbody reads.
  - exists []. split; reflexivity.
  - simpl in Hbody. apply andb_prop in Hbody as [Hf Hrest].
    destruct f as [|chunk|e|e]; try discriminate.
    + destruct (IH Hrest reads) as (queued & Hq & Hlen). exists queued. now split.
    + apply negb_true_iff in Hf.
      destruct (pump_cons_chunk reads chunk body Hf) as [reads' Hstep].
      rewrite Hstep. destruct (IH Hrest reads') as (queued & Hq & Hlen).
      cbn [filter]. destruct (enqueued (Chunk chunk)).
      * rewrite Hq. eexists. split; [reflexivity|]. simpl. now rewrite Hlen.
      * exists queued. now split.
Qed.

(** X20: On a stream with no failing frame the reassembler closes the stream
    and enqueues exactly one event per chunk of one of the six known
    types; events without chunk and chunks of any other type add
    nothing. *)
Theorem stream_counts_known_chunks (body : list frame) :
  forallb harmless body = true ->
  exists queued,
    handleStreamingResponse model_id Date_now body = (queued, Closed)
    /\ List.length queued = List.length (filter enqueued body).
Proof. intros H. now apply pump_harmless. Qed.

(** The value enqueued for a chunk is the event owed for it, and it has a
    JSON text. *)
Lemma enqueued_event (reads : nat) (chunk : value) :
  nullish chunk = false ->
  exists v j,
    (if is_str (prop chunk "type") "message_start"
     then anthropicChunk model_id (Date_now reads) chunk
     else chunk) = v
    /\ event_for model_id Date_now chunk v
    /\ serialize v = Some j.
Proof.
  intros Hc. unfold event_for.
  destruct (is_str (prop chunk "type") "message_start").
  - destruct (serialize_defined (anthropicChunk model_id (Date_now reads) chunk) eq_refl)
      as [j Hj].
    exists (anthropicChunk model_id (Date_now reads) chunk), j.
    split; [reflexivity|]. split; [now exists reads | exact Hj].
  - destruct (serialize_defined chunk Hc) as [j Hj].
    exists chunk, j. now repeat split.
Qed.

Lemma pump_events (body : list frame) :
  forallb harmless body = true ->
  forall reads,
    exists queued,
      pump' reads body = (queued, Closed)
      /\ Forall2 (fun f text =>
                    exists chunk v j,
                      f = Chunk chunk
                      /\ event_for model_id Date_now chunk v
                      /\ JSON_stringify v = VStr j
                      /\ text = data_line j)
                 (filter enqueued body) queued.
Proof.
  induction body as [|f body IH]; intros Hbody reads.
  - exists []. split; [reflexivity | constructor].
  - simpl in Hbody. apply andb_prop in Hbody as [Hf Hrest].
    destruct f as [|chunk|e|e]; try discriminate.
    + destruct (IH Hrest reads) as (queued & Hq & Hall). exists queued. now split.
    + apply negb_true_iff in Hf.
      destruct (pump_cons_chunk reads chunk body Hf) as [reads' Hstep].
      rewrite Hstep. destruct (IH Hrest reads') as (queued & Hq & Hall).
      cbn [filter]. destruct (enqueued (Chunk chunk)).
      * rewrite Hq.
        destruct (enqueued_event reads chunk Hf) as (v & j & Hv & Hevent & Hj).
        rewrite Hv. eexists. split; [reflexivity|].
        constructor; [|exact Hall].
        exists chunk, v, j. split; [reflexivity|]. split; [exact Hevent|].
        split; [unfold JSON_stringify; now rewrite Hj | now apply sse_data_line].
      * exists queued. now split.
Qed.

(** X21: On a stream with no failing frame, the events enqueued are, one for
    one and in the order received, those of the chunks of the six known
    types, whatever other frames lie between them.  The event of a chunk
    of one of the five kinds other than [message_start] is the line
    [data: ], the JSON text of the chunk as it was received, and two line
    feeds; the event of a [message_start] chunk carries in the same way
    the JSON text of the rebuilt envelope. *)
Theorem forwarded_chunks_pass_unchanged (body : list frame) :
  forallb harmless body = true ->
  exists queued,
    handleStreamingResponse model_id Date_now body = (queued, Closed)
    /\ Forall2 (fun f text =>
                  exists chunk v j,
                    f = Chunk chunk
                    /\ event_for model_id Date_now chunk v
                    /\ JSON_stringify v = VStr j
                    /\ text = data_line j)
               (filter enqueued body) queued.
Proof. intros H. now apply pump_events. Qed.

Lemma pump_stops_at_error (pre : list frame) :
  forall reads queued,
    pump' reads pre = (queued, Closed) ->
    forall f e rest,
      (f = BodyError e \/ f = BadChunk e
       \/ (f = Chunk VNull /\ e = typeError_read VNull "type")
       \/ (f = Chunk VUndef /\ e = typeError_read VUndef "type")) ->
      pump' reads (pre ++ f :: rest) = (queued, Errored e).
Proof.
  induction pre as [|g pre IH]; intros reads queued Hpre f e rest Hf.
  - simpl in Hpre. inversion Hpre; subst queued.
    destruct Hf as [-> | [-> | [[-> ->] | [-> ->]]]]; reflexivity.
  - destruct g as [|chunk|e'|e']; simpl in Hpre |- *.
    + now apply IH.
    + destruct (transformChunk model_id (Date_now reads) chunk) as [[out|]|e'];
        [ | now apply IH | discriminate ].
      destruct (pump' _ pre) as [q ending] eqn:Hq.
      inversion Hpre; subst queued ending.
      now rewrite (IH _ _ Hq f e rest Hf).
    + discriminate.
    + discriminate.
Qed.

(** X22: Partial output stands.  When the source fails after some frames (the
    iterator rejects, a chunk does not parse, or a chunk parses to
    [null]), the events enqueued for the frames before the failure are
    exactly those of the stream cut there, the stream is put in error with
    that failure, and nothing after it is read. *)
Theorem stream_error_keeps_earlier_events
    (pre rest : list frame) (queued : list string) (e : error) :
  handleStreamingResponse model_id Date_now pre = (queued, Closed) ->
  handleStreamingResponse model_id Date_now (pre ++ BodyError e :: rest) = (queued, Errored e)
  /\ handleStreamingResponse model_id Date_now (pre ++ BadChunk e :: rest)
     = (queued, Errored e)
  /\ handleStreamingResponse model_id Date_now (pre ++ Chunk VNull :: rest)
     = (queued, Errored (typeError_read VNull "type")).
Proof.
  intros Hpre. unfold handleStreamingResponse in *.
  split; [|split]; eapply pump_stops_at_error; eauto.
Qed.

Lemma pump_single_lines (body : list frame) :
  forall reads,
    Forall (fun text =>
              exists chunk v j,
                In (Chunk chunk) body
                /\ event_for model_id Date_now chunk v
                /\ JSON_stringify v = VStr j
                /\ text = data_line j
                /\ printable j = true)
           (fst (pump' reads body)).
Proof.
  induction body as [|f body IH]; intros reads; [constructor|].
  assert (Hrest : forall reads',
             Forall (fun text =>
                       exists chunk v j,
                         In (Chunk chunk) (f :: body)
                         /\ event_for model_id Date_now chunk v
                         /\ JSON_stringify v = VStr j
                         /\ text = data_line j
                         /\ printable j = true)
                    (fst (pump' reads' body))).
  { intros reads'. eapply Forall_impl; [|apply IH].
    intros text (chunk & v & j & Hin & H). exists chunk, v, j.
    split; [now right | exact H]. }
  destruct f as [|chunk|e|e]; try (simpl; constructor); [apply Hrest|].
  destruct (nullish chunk) eqn:Hc.
  - simpl. unfold transformChunk, get. rewrite Hc. simpl. constructor.
  - destruct (pump_cons_chunk reads chunk body Hc) as [reads' Hstep].
    rewrite Hstep. destruct (enqueued (Chunk chunk)); [|apply Hrest].
    specialize (Hrest reads'). destruct (pump' reads' body) as [q ending].
    destruct (enqueued_event reads chunk Hc) as (v & j & Hv & Hevent & Hj).
    rewrite Hv. simpl in *. constructor; [|exact Hrest].
    exists chunk, v, j. split; [now left|]. split; [exact Hevent|].
    split; [unfold JSON_stringify; now rewrite Hj|].
    split; [now apply sse_data_line | now apply (serialize_printable v)].
Qed.

(** X23: Every enqueued text is one server-sent event on one line, and it is
    the event of a chunk of the stream: [data: ], the JSON text of the
    event owed for that chunk, with no control character in it (so no
    line break), and the two line feeds that end the event.  This holds
    of every stream, also of one that fails on the way. *)
Theorem events_are_single_data_lines (body : list frame) :
  Forall (fun text =>
            exists chunk v j,
              In (Chunk chunk) body
              /\ event_for model_id Date_now chunk v
              /\ JSON_stringify v = VStr j
              /\ text = data_line j
              /\ printable j = true)
         (fst (handleStreamingResponse model_id Date_now body)).
Proof. apply pump_single_lines. Qed.

End ReassemblerProperties.

(* ================================================================== *)
(** ** Properties of the fetch proxy *)
(* ================================================================== *)

Lemma lookup_absent (k : string) (fields : list (string * value)) :
  ~ In k (map fst fields) -> lookup k fields = VUndef.
Proof.
  induction fields as [|[k' v] fields IH]; simpl; [reflexivity|].
  intros Hnot. destruct (String.eqb_spec k' k) as [->|_]; [tauto|].
  apply IH. tauto.
Qed.

(** Deleting the properties left [undefined] does not change what a
    property access returns. *)
Lemma lookup_filter_defined (k : string) (fields : list (string * value)) :
  NoDup (map fst fields) ->
  lookup k (filter (fun kv => match snd kv with VUndef => false | _ => true end) fields)
  = lookup k fields.
Proof.
  induction fields as [|[k' v] fields IH]; simpl; [reflexivity|].
  intros Hnodup. inversion Hnodup as [|? ? Hnotin Hrest]; subst.
  specialize (IH Hrest).
  destruct (String.eqb_spec k' k) as [->|Hne].
  - destruct v; simpl; rewrite ?String.eqb_refl; try reflexivity.
    rewrite IH. now apply lookup_absent.
  - destruct v; simpl; try (destruct (String.eqb_spec k' k); [contradiction|]); exact IH.
Qed.

Lemma forwardedKeys_distinct : NoDup forwardedKeys.
Proof.
  unfold forwardedKeys.
  repeat (constructor; [simpl; intuition discriminate|]). constructor.
Qed.

(** X24: The body sent to the service holds only the eight properties the proxy
    copies: it never carries [model] or [stream], and none of its
    properties is [undefined]; [anthropic_version] and [max_tokens] are
    always present, the other six are those of the request when it has
    them. *)
Theorem bedrock_request_is_sanitized (requestBody : value) :
  exists fields,
    Client.bedrockRequest requestBody = VObj fields
    /\ Forall (fun kv => snd kv <> VUndef) fields
    /\ (forall k, ~ In k forwardedKeys -> lookup k fields = VUndef)
    /\ truthy (lookup "anthropic_version" fields) = true
    /\ truthy (lookup "max_tokens" fields) = true
    /\ (forall k, In k ["messages"; "temperature"; "top_p"; "top_k";
                        "stop_sequences"; "system"] ->
                  lookup k fields = prop requestBody k).
Proof.
  unfold Client.bedrockRequest. eexists. split; [reflexivity|].
  match goal with
  | |- context [filter ?f ?l] =>
      set (keep := f); set (all := l);
      assert (Hkeys : map fst all = forwardedKeys) by reflexivity
  end.
  assert (Hlookup : forall k, lookup k (filter keep all) = lookup k all).
  { intros k. apply lookup_filter_defined. rewrite Hkeys. apply forwardedKeys_distinct. }
  split; [|split; [|split; [|split]]].
  - apply Forall_forall. intros [k v] Hin. apply filter_In in Hin as [_ Hv].
    simpl in *. intros ->. discriminate.
  - intros k Hk. rewrite Hlookup. apply lookup_absent. now rewrite Hkeys.
  - rewrite Hlookup. simpl. unfold or_else.
    destruct (truthy (prop requestBody "anthropic_version")) eqn:E; [exact E | reflexivity].
  - rewrite Hlookup. simpl. unfold or_else.
    destruct (truthy (prop requestBody "max_tokens")) eqn:E; [exact E | reflexivity].
  - intros k Hk. rewrite Hlookup. simpl in Hk.
    repeat (destruct Hk as [<- | Hk]; [reflexivity|]). contradiction.
Qed.

Section FetchProperties.

Variable invoke : string -> string -> result value.
Variable invokeStream : string -> string -> result (list frame).
Variable Date_now : nat -> Z.
Variable model_id : string.

Local Abbreviation fetch := (Client.bedrockFetch invoke invokeStream Date_now model_id).

Lemma error_members (j : string) :
  "{" ++ join ","
           [quote "type" ++ ":" ++ quote "error";
            quote "error" ++ ":"
              ++ ("{" ++ join "," [quote "type" ++ ":" ++ quote "api_error";
                                   quote "message" ++ ":" ++ j]
                      ++ "}")]
      ++ "}"
  = error_text j.
Proof.
  unfold error_text, quoted. simpl. rewrite !append_assoc. simpl.
  rewrite ?append_assoc. reflexivity.
Qed.

(** The response of the [catch] block, with its text written out. *)
Lemma errorResponse_text (e : error) :
  Client.errorResponse e
  = Client.mkResponse 500 [("Content-Type", "application/json")]
      (Client.TextBody (error_text (quote (err_message e)))).
Proof. rewrite <- error_members. reflexivity. Qed.

(** X25: A request body that does not parse, or that parses to [null], is
    answered by the proxy itself, whatever the service would do: the
    status is 500, the content type is JSON, and the body is the JSON
    text of an error of type [api_error] whose message is the message of
    the error that was raised: the one [JSON.parse] threw, or, for
    [null], that of the TypeError raised by reading [stream]. *)
Theorem unparsable_body_gives_500 :
  (forall e, exists message,
      JSON_stringify (VStr (err_message e)) = VStr message
      /\ fetch (Throw e)
         = Ok (Client.mkResponse 500 [("Content-Type", "application/json")]
                 (Client.TextBody (error_text message))))
  /\ (exists message,
         JSON_stringify (VStr "Cannot read properties of null (reading 'stream')")
         = VStr message
         /\ fetch (Ok VNull)
            = Ok (Client.mkResponse 500 [("Content-Type", "application/json")]
                    (Client.TextBody (error_text message)))).
Proof.
  split.
  - intros e. exists (quote (err_message e)). split; [reflexivity|].
    unfold Client.bedrockFetch. simpl. now rewrite errorResponse_text.
  - eexists. split; [reflexivity|].
    unfold Client.bedrockFetch. simpl. now rewrite errorResponse_text.
Qed.

(** X26: A failure of the service is not turned into a response: once the body
    has parsed, an error of the call made for it (the streaming call for
    [stream: true], the plain call otherwise) makes [bedrockFetch] fail
    with that error; the [catch] block is not reached. *)
Theorem service_failure_escapes_fetch (requestBody : value) (e : error) :
  nullish requestBody = false ->
  match prop requestBody "stream" with
  | VBool true =>
      invokeStream model_id (template (JSON_stringify (Client.bedrockRequest requestBody)))
      = Throw e
  | _ =>
      invoke model_id (template (JSON_stringify (Client.bedrockRequest requestBody)))
      = Throw e
  end ->
  fetch (Ok requestBody) = Throw e.
Proof.
  intros Hbody Hfail. unfold Client.bedrockFetch. simpl.
  rewrite get_ok by exact Hbody. simpl.
  destruct (prop requestBody "stream") as [| |[]| | | |];
    unfold Client.handleStreamingRequest, Client.handleNonStreamingResponse;
    rewrite Hfail; reflexivity.
Qed.

(** X27: The plain path: when the body has parsed, does not ask for a stream,
    and the service replies with a value that has properties, the proxy
    answers with status 200 and a JSON text, free of control characters,
    of a message whose id is truthy (the one received, or [bedrock-] and
    the clock reading), whose role is [assistant] and whose model is the
    proxy's. *)
Theorem plain_reply_is_wrapped (requestBody responseBody : value) :
  nullish requestBody = false ->
  prop requestBody "stream" <> VBool true ->
  invoke model_id (template (JSON_stringify (Client.bedrockRequest requestBody)))
  = Ok responseBody ->
  nullish responseBody = false ->
  exists text,
    fetch (Ok requestBody)
    = Ok (Client.mkResponse 200 [("Content-Type", "application/json")]
            (Client.TextBody text))
    /\ JSON_stringify (Client.anthropicResponse model_id (Date_now 0%nat) responseBody)
       = VStr text
    /\ printable text = true
    /\ truthy (prop (Client.anthropicResponse model_id (Date_now 0%nat) responseBody) "id")
       = true
    /\ prop (Client.anthropicResponse model_id (Date_now 0%nat) responseBody) "role"
       = VStr "assistant"
    /\ prop (Client.anthropicResponse model_id (Date_now 0%nat) responseBody) "model"
       = VStr model_id.
Proof.
  intros Hbody Hstream Hinvoke Hreply.
  destruct (serialize_defined
              (Client.anthropicResponse model_id (Date_now 0%nat) responseBody) eq_refl)
    as [text Htext].
  exists text. split; [|split; [|split; [|split]]].
  - unfold Client.bedrockFetch. simpl. rewrite get_ok by exact Hbody. simpl.
    assert (Hplain : (match prop requestBody "stream" with
                      | VBool true => true
                      | _ => false
                      end) = false).
    { destruct (prop requestBody "stream") as [| |[]| | | |]; try reflexivity.
      now destruct Hstream. }
    rewrite Hplain. unfold Client.handleNonStreamingResponse.
    rewrite Hinvoke. cbn [bind]. rewrite get_ok by exact Hreply. cbn [bind].
    unfold JSON_stringify. rewrite Htext. reflexivity.
  - unfold JSON_stringify. now rewrite Htext.
  - exact (serialize_printable _ _ Htext).
  - simpl. unfold or_else.
    destruct (truthy (prop responseBody "id")) eqn:E; [exact E | reflexivity].
  - split; reflexivity.
Qed.

End FetchProperties.

(** X28: The three checks of bedrock-client.js agree: with no explicit
    configuration, the client can be created exactly when
    [isBedrockConfigured] holds, which is exactly when
    [validateBedrockConfig] returns normally. *)
Theorem client_checks_agree (env : environment) :
  Client.isBedrockConfigured env = succeeds (Client.validateBedrockConfig env)
  /\ Client.isBedrockConfigured env
     = succeeds (Client.createBedrockAnthropicClient env
                   (Client.mkConfig None None None None None)).
Proof.
  unfold Client.isBedrockConfigured, Client.validateBedrockConfig,
    Client.createBedrockAnthropicClient. simpl.
  destruct (is_set (AWS_ACCESS_KEY_ID env)), (is_set (AWS_SECRET_ACCESS_KEY env));
    split; reflexivity.
Qed.

(** X29: Credentials given in the configuration replace those of the
    environment, even when they are empty: with both given, the client is
    created from them when neither is empty and creation fails otherwise,
    whatever the environment holds. *)
Theorem explicit_credentials_override_environment
    (env : environment) (c : Client.config) (a s : string) :
  Client.cfg_accessKeyId c = Some a ->
  Client.cfg_secretAccessKey c = Some s ->
  (a <> "" -> s <> "" ->
   exists client,
     Client.createBedrockAnthropicClient env c = Ok client
     /\ accessKeyId (Client.bedrockClient client) = a
     /\ secretAccessKey (Client.bedrockClient client) = s)
  /\ (a = "" \/ s = "" ->
      succeeds (Client.createBedrockAnthropicClient env c) = false).
Proof.
  intros Ha Hs. unfold Client.createBedrockAnthropicClient. rewrite Ha, Hs. simpl.
  split.
  - intros Hane Hsne.
    destruct (String.eqb_spec a ""); [contradiction|].
    destruct (String.eqb_spec s ""); [contradiction|]. simpl.
    eexists. repeat split.
  - intros [-> | ->]; simpl; [reflexivity|].
    destruct (a =? "")%string; reflexivity.
Qed.

(* ================================================================== *)
(** ** The added properties on concrete inputs *)
(* ================================================================== *)

Lemma stream_counts_known_chunks_witness :
  exists queued,
    handleStreamingResponse "m1" clock sample_stream = (queued, Closed)
    /\ List.length queued = List.length (filter enqueued sample_stream).
Proof. apply (stream_counts_known_chunks "m1" clock sample_stream). reflexivity. Defined.

Lemma forwarded_chunks_pass_unchanged_witness :
  exists queued,
    handleStreamingResponse "m1" clock sample_stream = (queued, Closed)
    /\ Forall2 (fun f text =>
                  exists chunk v j,
                    f = Chunk chunk
                    /\ event_for "m1" clock chunk v
                    /\ JSON_stringify v = VStr j
                    /\ text = data_line j)
               (filter enqueued sample_stream) queued.
Proof. apply (forwarded_chunks_pass_unchanged "m1" clock sample_stream). reflexivity. Defined.

(** The five frames of [sample_stream] give three events; the start keeps
    the id of the service. *)
Example sample_stream_texts :
  handleStreamingResponse "m1" clock sample_stream
  = ([data_line (message_start_text (quoted "msg_1") (quoted "m1"));
      data_line
        (String.concat ""
           ["{"; quoted "type"; ":"; quoted "content_block_delta"; ",";
            quoted "index"; ":0,";
            quoted "delta"; ":{"; quoted "type"; ":"; quoted "text_delta"; ",";
            quoted "text"; ":"; quoted "Hi"; "}}"]);
      data_line (String.concat "" ["{"; quoted "type"; ":"; quoted "message_stop"; "}"])],
     Closed).
Proof. reflexivity. Qed.

Lemma stream_error_keeps_earlier_events_witness :
  handleStreamingResponse "m1" clock
    (map Chunk sample_deltas ++ BodyError throttled :: sample_stream)
  = (map sse sample_deltas, Errored throttled)
  /\ handleStreamingResponse "m1" clock
       (map Chunk sample_deltas ++ BadChunk throttled :: sample_stream)
     = (map sse sample_deltas, Errored throttled)
  /\ handleStreamingResponse "m1" clock
       (map Chunk sample_deltas ++ Chunk VNull :: sample_stream)
     = (map sse sample_deltas, Errored (typeError_read VNull "type")).
Proof.
  apply (stream_error_keeps_earlier_events "m1" clock (map Chunk sample_deltas)
           sample_stream (map sse sample_deltas) throttled).
  reflexivity.
Defined.

(** A body that is not JSON: the message of the SyntaxError is quoted in
    the body of the response. *)
Example unparsable_body_text :
  Client.bedrockFetch answers refuses clock "m1"
    (Throw (mkError "SyntaxError" "Unexpected token h in JSON at position 0"))
  = Ok (Client.mkResponse 500 [("Content-Type", "application/json")]
          (Client.TextBody
             (error_text (quoted "Unexpected token h in JSON at position 0")))).
Proof. reflexivity. Qed.

Lemma service_failure_escapes_fetch_witness :
  Client.bedrockFetch refuses refuses clock "m1" (Ok (sdk_body VUndef))
  = Throw (mkError "AccessDeniedException" "no access to the model").
Proof.
  apply (service_failure_escapes_fetch refuses refuses clock "m1" (sdk_body VUndef)
           (mkError "AccessDeniedException" "no access to the model")); reflexivity.
Defined.

Lemma plain_reply_is_wrapped_witness :
  exists text,
    Client.bedrockFetch answers refuses clock "m1" (Ok (sdk_body (VBool false)))
    = Ok (Client.mkResponse 200 [("Content-Type", "application/json")]
            (Client.TextBody text))
    /\ JSON_stringify
         (Client.anthropicResponse "m1" (clock 0%nat)
            (VObj [("content", VArr [Text "hello"]); ("stop_reason", VStr "end_turn")]))
       = VStr text
    /\ printable text = true
    /\ truthy (prop (Client.anthropicResponse "m1" (clock 0%nat)
                       (VObj [("content", VArr [Text "hello"]);
                              ("stop_reason", VStr "end_turn")])) "id") = true
    /\ prop (Client.anthropicResponse "m1" (clock 0%nat)
               (VObj [("content", VArr [Text "hello"]);
                      ("stop_reason", VStr "end_turn")])) "role" = VStr "assistant"
    /\ prop (Client.anthropicResponse "m1" (clock 0%nat)
               (VObj [("content", VArr [Text "hello"]);
                      ("stop_reason", VStr "end_turn")])) "model" = VStr "m1".
Proof.
  apply (plain_reply_is_wrapped answers refuses clock "m1" (sdk_body (VBool false))
           (VObj [("content", VArr [Text "hello"]); ("stop_reason", VStr "end_turn")]));
    try reflexivity.
  discriminate.
Defined.

(** The request and the response of that exchange, as texts. *)
Example plain_exchange_texts :
  template (JSON_stringify (Client.bedrockRequest (sdk_body (VBool false))))
  = String.concat ""
      ["{"; quote "anthropic_version"; ":"; quote "bedrock-2023-05-31"; ",";
       quote "max_tokens"; ":1024,";
       quote "messages"; ":[{"; quote "role"; ":"; quote "user"; ",";
       quote "content"; ":"; quote "hi"; "}]}"]
  /\ Client.bedrockFetch answers refuses clock "m1" (Ok (sdk_body (VBool false)))
     = Ok (Client.mkResponse 200 [("Content-Type", "application/json")]
             (Client.TextBody
                (String.concat ""
                   ["{"; quote "id"; ":"; quote "bedrock-1000"; ",";
                    quote "type"; ":"; quote "message"; ",";
                    quote "role"; ":"; quote "assistant"; ",";
                    quote "content"; ":[{"; quote "type"; ":"; quote "text"; ",";
                    quote "text"; ":"; quote "hello"; "}],";
                    quote "model"; ":"; quote "m1"; ",";
                    quote "stop_reason"; ":"; quote "end_turn"; ",";
                    quote "usage"; ":{"; quote "input_tokens"; ":0,";
                    quote "output_tokens"; ":0}}"]))).
Proof. split; reflexivity. Qed.

Lemma explicit_credentials_override_environment_witness :
  ("AKIAEXPLICIT" <> "" -> "explicit-secret" <> "" ->
   exists client,
     Client.createBedrockAnthropicClient aws_only explicit_config = Ok client
     /\ accessKeyId (Client.bedrockClient client) = "AKIAEXPLICIT"
     /\ secretAccessKey (Client.bedrockClient client) = "explicit-secret")
  /\ ("AKIAEXPLICIT" = "" \/ "explicit-secret" = "" ->
      succeeds (Client.createBedrockAnthropicClient aws_only explicit_config) = false).
Proof.
  apply (explicit_credentials_override_environment aws_only explicit_config
           "AKIAEXPLICIT" "explicit-secret"); reflexivity.
Defined.

(* ================================================================== *)
(** ** What the driver's notifications carry *)
(* ================================================================== *)

Section DriverPayloads.

Variable rnd : Q -> Q.
Variable env_BEDROCK_MODEL_ID : option string.
Variable send : Z -> value -> result value.
Variable Date_now : nat -> Z.
Variable prompt : string.
Variable opts : options.

Local Abbreviation cap := (maxTurnsOf opts).
Local Abbreviation run := (loop rnd env_BEDROCK_MODEL_ID send Date_now opts).
Local Abbreviation try_turn := (attempt env_BEDROCK_MODEL_ID send Date_now opts).

(** What a successful [try] block tells about its reply: the assistant
    notification is the decoding of the reply's message, and that message
    is decodable. *)
Lemma attempt_ok_inv (turnCount : Z) (h : list entry) (reads reads' : nat)
    (response am : value) :
  try_turn turnCount h reads = Ok (response, am, reads') ->
  nullish response = false
  /\ transformBedrockMessage (optget (prop response "output") "message")
       (VStr (modelId env_BEDROCK_MODEL_ID opts)) (Date_now reads) = Ok am.
Proof.
  unfold attempt. intros H.
  destruct (send turnCount _) as [r|e]; simpl in H; [|discriminate].
  unfold get in H. destruct (nullish r) eqn:Hr; simpl in H; [discriminate|].
  destruct (transformBedrockMessage _ _ _) as [a|e] eqn:Ha; simpl in H; [|discriminate].
  inversion H; subst. split; [exact Hr | exact Ha].
Qed.

(** The message pushed onto the history after a decoded reply has a length
    that is not negative. *)
Lemma assistantEntry_length (turnCount : Z) (h : list entry) (reads reads' : nat)
    (response am : value) :
  try_turn turnCount h reads = Ok (response, am, reads') ->
  0 <= lengthOf (assistantEntry response).
Proof.
  intros Htry. apply attempt_ok_inv in Htry as [_ Hdec].
  assert (Hd : decodable (optget (prop response "output") "message") = true).
  { rewrite <- (decode_succeeds_iff_decodable _
                  (VStr (modelId env_BEDROCK_MODEL_ID opts)) (Date_now reads)).
    now rewrite Hdec. }
  unfold decodable in Hd. apply andb_prop in Hd as [Hnn Hshape].
  apply negb_true_iff in Hnn.
  unfold assistantEntry, lengthOf. cbn [content].
  set (m := optget (prop response "output") "message") in *.
  assert (Hc : optget m "content" = prop m "content") by (unfold optget; now rewrite Hnn).
  rewrite Hc. unfold or_else.
  destruct (prop m "content") as [| |b|n|s|blocks|fields]; simpl in *;
    repeat match goal with
           | |- context [if ?c then _ else _] => destruct c; simpl in *
           end;
    try discriminate; lia.
Qed.

Lemma loop_payloads (fuel : nat) :
  forall (turnCount : Z) (h : list entry) (reads : nat) (tr : list event),
    run fuel turnCount h reads = Some tr ->
    forall n, In n (notifications tr) ->
      match n with
      | Assistant am =>
          prop am "type" = VStr "assistant"
          /\ prop (prop am "message") "model" = VStr (modelId env_BEDROCK_MODEL_ID opts)
          /\ truthy (prop (prop am "message") "id") = true
      | Result _ _ _ _ => True
      | _ => False
      end.
Proof.
  induction fuel as [|fuel IH]; intros turnCount h reads tr Hrun n Hin.
  - simpl in Hrun. destruct (turnCount <? cap); [discriminate|].
    inversion Hrun; subst tr. destruct Hin as [<- | []]. exact I.
  - simpl in Hrun. destruct (turnCount <? cap).
    2:{ inversion Hrun; subst tr. destruct Hin as [<- | []]. exact I. }
    destruct (attempt env_BEDROCK_MODEL_ID send Date_now opts (turnCount + 1) h reads)
      as [[[response am] reads']|e] eqn:Htry.
    + apply attempt_ok_inv in Htry as [_ Hdec].
      destruct (decoded_message_envelope _ _ _ _ Hdec) as (Hty & _ & Hmodel & Hid & _).
      destruct (natural_stop response).
      * inversion Hrun; subst tr. simpl in Hin.
        destruct Hin as [<- | [<- | []]]; [auto | exact I].
      * destruct (loop _ _ _ _ _ fuel _ _ _) as [rest|] eqn:Hrest; [|discriminate].
        inversion Hrun; subst tr. simpl in Hin.
        rewrite notifications_app, notifications_warnings in Hin. simpl in Hin.
        destruct Hin as [<- | Hin]; [auto|].
        exact (IH _ _ _ _ Hrest n Hin).
    + inversion Hrun; subst tr. simpl in Hin. destruct Hin as [<- | []]. exact I.
Qed.

(** The estimate a run reports is the estimate of a history that has only
    grown; a failure reports the literal 0. *)
Lemma loop_costs (F : Q -> Prop) (h0 : list entry) (fuel : nat) :
  nearest rnd F ->
  forall (turnCount : Z) (h : list entry) (reads : nat) (tr : list event),
    run fuel turnCount h reads = Some tr ->
    (totalTokens rnd h0 <= totalTokens rnd h)%Q ->
    forall r subtype d c, In (Result r subtype d c) (notifications tr) ->
      match r with
      | Success _ => (estimatedCost rnd h0 <= c)%Q
      | Failure _ => c = 0%Q
      end.
Proof.
  intros IEEE.
  induction fuel as [|fuel IH]; intros turnCount h reads tr Hrun Htokens r subtype d c Hin.
  - simpl in Hrun. destruct (turnCount <? cap); [discriminate|].
    inversion Hrun; subst tr. destruct Hin as [Hin | []].
    inversion Hin; subst. now apply (estimatedCost_le rnd F IEEE).
  - simpl in Hrun. destruct (turnCount <? cap).
    2:{ inversion Hrun; subst tr. destruct Hin as [Hin | []].
        inversion Hin; subst. now apply (estimatedCost_le rnd F IEEE). }
    destruct (attempt env_BEDROCK_MODEL_ID send Date_now opts (turnCount + 1) h reads)
      as [[[response am] reads']|e] eqn:Htry.
    + assert (Hgrown : (totalTokens rnd h0
                        <= totalTokens rnd (h ++ [assistantEntry response]))%Q).
      { pose proof (totalTokens_grows rnd F IEEE h (assistantEntry response)
                      (assistantEntry_length _ _ _ _ _ _ Htry)).
        lra. }
      destruct (natural_stop response).
      * inversion Hrun; subst tr. simpl in Hin.
        destruct Hin as [Hin | [Hin | []]]; [discriminate|].
        inversion Hin; subst. now apply (estimatedCost_le rnd F IEEE).
      * destruct (loop _ _ _ _ _ fuel _ _ _) as [rest|] eqn:Hrest; [|discriminate].
        inversion Hrun; subst tr. simpl in Hin.
        rewrite notifications_app, notifications_warnings in Hin. simpl in Hin.
        destruct Hin as [Hin | Hin]; [discriminate|].
        exact (IH _ _ _ _ Hrest Hgrown r subtype d c Hin).
    + inversion Hrun; subst tr. simpl in Hin. destruct Hin as [Hin | []].
      inversion Hin; subst. reflexivity.
Qed.

(** X18: Every Assistant notification of a run is an assistant message that
    carries the model id announced by Init and a truthy id. *)
Theorem assistants_carry_the_announced_model (tr : list event) (am : value) :
  bedrockQuery rnd env_BEDROCK_MODEL_ID send Date_now prompt opts = Some tr ->
  In (Assistant am) (notifications tr) ->
  In (Init (modelId env_BEDROCK_MODEL_ID opts)
           (or_else (permissionMode opts) (VStr "default"))) (notifications tr)
  /\ prop am "type" = VStr "assistant"
  /\ prop (prop am "message") "model" = VStr (modelId env_BEDROCK_MODEL_ID opts)
  /\ truthy (prop (prop am "message") "id") = true.
Proof.
  unfold bedrockQuery. intros Hrun Hin.
  destruct (loop _ _ _ _ _ _ _ _ _) as [rest|] eqn:Hrest; [|discriminate].
  inversion Hrun; subst tr. simpl in Hin |- *.
  split; [now left|].
  destruct Hin as [Hin | [Hin | Hin]]; try discriminate.
  exact (loop_payloads _ _ _ _ _ Hrest (Assistant am) Hin).
Qed.

(** X19: The cost reported tells success from failure.  The estimate is
    computed in double precision; for every rounding to nearest under which
    4 is representable, a success result reports at least the estimate of
    the prompt's single block, which is 4 divided by 1,000,000 and
    multiplied by 3, each operation rounded (in doubles, a positive
    number), whatever the replies held; a failure result reports a cost of
    zero. *)
Theorem success_costs_at_least_the_prompt (F : Q -> Prop)
    (tr : list event) (r : outcome) (subtype : string) (d : Z) (c : Q) :
  nearest rnd F ->
  F 4%Q ->
  bedrockQuery rnd env_BEDROCK_MODEL_ID send Date_now prompt opts = Some tr ->
  In (Result r subtype d c) (notifications tr) ->
  match r with
  | Success _ => (rnd (rnd (4 / 1000000) * 3) <= c)%Q
  | Failure _ => c = 0%Q
  end.
Proof.
  unfold bedrockQuery. intros IEEE Hfour Hrun Hin.
  destruct (loop _ _ _ _ _ _ _ _ _) as [rest|] eqn:Hrest; [|discriminate].
  inversion Hrun; subst tr. simpl in Hin.
  destruct Hin as [Hin | [Hin | Hin]]; try discriminate.
  pose proof (loop_costs F (initialHistory prompt) _ IEEE _ _ _ _ Hrest
                (Qle_refl _) r subtype d c Hin) as Hcost.
  destruct r as [|text]; [exact Hcost|].
  assert (Etotal : (totalTokens rnd (initialHistory prompt) == 4)%Q).
  { unfold totalTokens, initialHistory. simpl.
    assert (E1 : (rnd (inject_Z (lengthOf (mkEntry "user" (VArr [VObj [("text", VStr prompt)]]))) * 4) == 4)%Q).
    { rewrite (rnd_proper _ _ IEEE _ 4%Q) by reflexivity.
      now apply (rnd_exact rnd F IEEE). }
    rewrite (rnd_proper _ _ IEEE _ 4%Q) by (rewrite E1; reflexivity).
    now apply (rnd_exact rnd F IEEE). }
  rewrite <- (estimatedCost_of_total rnd F IEEE _ _ Etotal). exact Hcost.
Qed.

End DriverPayloads.

Lemma assistants_carry_the_announced_model_witness :
  In (Init (modelId None defaults) (or_else (permissionMode defaults) (VStr "default")))
     (notifications
        [Yield (Init (modelId None defaults)
                     (or_else (permissionMode defaults) (VStr "default")));
         Yield (UserEcho "go");
         Send 1 (request None defaults (initialHistory "go"));
         Yield (Assistant decoded_hi);
         Yield (Result (Success "Task completed via Bedrock") "success" 2
                       (estimatedCost to_double
                          (initialHistory "go" ++ [assistantEntry (reply "end_turn")])))])
  /\ prop decoded_hi "type" = VStr "assistant"
  /\ prop (prop decoded_hi "message") "model" = VStr (modelId None defaults)
  /\ truthy (prop (prop decoded_hi "message") "id") = true.
Proof.
  apply (assistants_carry_the_announced_model to_double None (fun _ _ => Ok (reply "end_turn"))
           clock "go" defaults); [reflexivity|].
  simpl. right. right. left. reflexivity.
Defined.

(** In doubles the bound is 1.2e-05, the double nearest to 0.000012. *)
Example prompt_cost_in_doubles :
  (to_double (to_double (4 / 1000000) * 3) == 1770887431076117 # 147573952589676412928)%Q
  /\ (0 < to_double (to_double (4 / 1000000) * 3))%Q.
Proof. split; vm_compute; reflexivity. Qed.

Lemma success_costs_at_least_the_prompt_witness :
  (to_double (to_double (4 / 1000000) * 3)
   <= estimatedCost to_double (initialHistory "go" ++ [assistantEntry (reply "end_turn")]))%Q.
Proof.
  apply (success_costs_at_least_the_prompt to_double None (fun _ _ => Ok (reply "end_turn"))
           clock "go" defaults double
           [Yield (Init (modelId None defaults)
                        (or_else (permissionMode defaults) (VStr "default")));
            Yield (UserEcho "go");
            Send 1 (request None defaults (initialHistory "go"));
            Yield (Assistant decoded_hi);
            Yield (Result (Success "Task completed via Bedrock") "success" 2
                          (estimatedCost to_double
                             (initialHistory "go" ++ [assistantEntry (reply "end_turn")])))]
           (Success "Task completed via Bedrock") "success" 2).
  - exact to_double_nearest.
  - apply (integers_are_doubles 4). discriminate.
  - reflexivity.
  - simpl. right. right. right. left. reflexivity.
Defined.
